(** * Route registration from CSV: a shallow embedding of
    [create_routes_in_jurisdiction.py] and the properties of its pipeline.

    The script reads road segments from a CSV file, asks [gcloud] for a
    bearer token per row and posts one route per row to the Roads API.

    Conventions of the embedding.
    - A Python [str] is a Rocq [string] whose characters are the code
      points below U+0100; the character classes of [re] ([\s], [\d]),
      [str.strip] and [str.lower] are the Unicode ones restricted to that
      range.  A file holds bytes, also a [string].
    - A Python [int] is a [Z]; a [dict] keyed by strings is a [gmap].
    - A [float] is opaque: the run-time system supplies the type, the
      builtin [float()] on text and [repr].  No property below depends on
      binary rounding.
    - Effects are explicit: every function is a state transformer over a
      [world] (files, console, the requests sent so far, the counters of
      the external calls) that ends in a value or a raised exception.
    - What the operating system, [gcloud], the HTTP server, the clock and
      the YAML loader answer is read from a [Runtime] instance. *)

From Stdlib Require Import ZArith NArith Lia Bool Ascii String DecimalString.
From Stdlib Require DecimalZ DecimalPos.
From stdpp Require Import base option list gmap strings.

Local Open Scope Z_scope.

(** ** Text *)

Module Text.

(** The double quote, which the CSV dialect uses as its quote character. *)
Definition dquote : ascii := ascii_of_nat 34.
Definition newline : ascii := ascii_of_nat 10.
Definition carriage_return : ascii := ascii_of_nat 13.

Definition between (lo hi : N) (c : ascii) : bool :=
  let n := N_of_ascii c in (lo <=? n)%N && (n <=? hi)%N.

(** [str.isspace], [\s] of a [str] pattern, and what [str.strip] removes:
    TAB..CR, FS..US, SPACE, NEL (U+0085) and NBSP (U+00A0). *)
Definition is_space (c : ascii) : bool :=
  between 9 13 c || between 28 32 c || between 133 133 c || between 160 160 c.

(** [\d]: the decimal digits; below U+0100 these are 0-9 only. *)
Definition is_digit (c : ascii) : bool := between 48 57 c.

(** The class [[a-z0-9-]] of the identifier clean-up. *)
Definition is_route_char (c : ascii) : bool :=
  between 97 122 c || between 48 57 c || Ascii.eqb c "-".

Fixpoint map_str (f : ascii -> ascii) (s : string) : string :=
  match s with
  | EmptyString => EmptyString
  | String c s' => String (f c) (map_str f s')
  end.

Fixpoint filter_str (p : ascii -> bool) (s : string) : string :=
  match s with
  | EmptyString => EmptyString
  | String c s' => if p c then String c (filter_str p s') else filter_str p s'
  end.

Fixpoint forallb_str (p : ascii -> bool) (s : string) : bool :=
  match s with
  | EmptyString => true
  | String c s' => p c && forallb_str p s'
  end.

(** [str.lower]: A-Z and the Latin-1 capitals (U+00C0..U+00DE, the
    multiplication sign apart) move up by 32. *)
Definition lower_char (c : ascii) : ascii :=
  if between 65 90 c || (between 192 222 c && negb (between 215 215 c))
  then ascii_of_N (N_of_ascii c + 32)
  else c.

Definition lower : string -> string := map_str lower_char.

(** [s.replace(' ', '-')] *)
Definition replace_space_hyphen : string -> string :=
  map_str (fun c => if Ascii.eqb c " " then "-"%char else c).

(** [re.sub(r'[^a-z0-9-]', '', s)] *)
Definition sub_non_route_chars : string -> string := filter_str is_route_char.

Fixpoint lstrip (s : string) : string :=
  match s with
  | EmptyString => EmptyString
  | String c s' => if is_space c then lstrip s' else s
  end.

Definition rstrip (s : string) : string := String.rev (lstrip (String.rev s)).

(** [s.strip()] *)
Definition strip (s : string) : string := rstrip (lstrip s).

(** [s[:n]] *)
Fixpoint take (n : nat) (s : string) : string :=
  match n, s with
  | S n', String c s' => String c (take n' s')
  | _, _ => EmptyString
  end.

(** [s.startswith(p)] *)
Fixpoint startswith (s p : string) {struct p} : bool :=
  match p with
  | EmptyString => true
  | String c p' =>
      match s with
      | String c' s' => Ascii.eqb c c' && startswith s' p'
      | EmptyString => false
      end
  end.

(** [str(n)] of an [int]. *)
Definition str_of_Z (z : Z) : string := NilZero.string_of_int (Z.to_int z).

(** [not s] of a [str]. *)
Definition is_empty (s : string) : bool :=
  match s with EmptyString => true | _ => false end.

(** [x in l] for a list of [str]. *)
Definition isin (x : string) (l : list string) : bool := bool_decide (x ∈ l).

Fixpoint concat_str (l : list string) : string :=
  match l with
  | [] => EmptyString
  | s :: l' => s +:+ concat_str l'
  end.

End Text.

(** ** Text files: the codecs of [open] *)

Module Codec.
Import Text.

(** The UTF-8 signature (byte-order mark) EF BB BF. *)
Definition BOM : string :=
  String (ascii_of_nat 239) (String (ascii_of_nat 187) (String (ascii_of_nat 191) EmptyString)).

(** [bytes.decode('utf-8')] for texts below U+0100: one byte for ASCII,
    C2 xx for U+0080..U+00BF and C3 xx for U+00C0..U+00FF.  [None] stands
    for every other byte sequence: Python then either raises
    [UnicodeDecodeError] or reads a text that lies outside this model. *)
Fixpoint utf_8_decode (b : string) : option string :=
  match b with
  | EmptyString => Some EmptyString
  | String c rest =>
      if between 0 127 c then String c <$> utf_8_decode rest
      else
        match rest with
        | String c2 rest' =>
            if between 128 191 c2 then
              if between 194 194 c then String c2 <$> utf_8_decode rest'
              else if between 195 195 c
              then String (ascii_of_N (N_of_ascii c2 + 64)) <$> utf_8_decode rest'
              else None
            else None
        | EmptyString => None
        end
  end.

(** The codec [utf-8-sig]: a signature at the very start of the data is
    skipped, the rest is UTF-8. *)
Definition utf_8_sig_decode (b : string) : option string :=
  match b with
  | String c1 (String c2 (String c3 rest)) =>
      if String.eqb (String c1 (String c2 (String c3 EmptyString))) BOM
      then utf_8_decode rest
      else utf_8_decode b
  | _ => utf_8_decode b
  end.

(** [str.encode('utf-8')] below U+0100. *)
Fixpoint utf_8_encode (s : string) : string :=
  match s with
  | EmptyString => EmptyString
  | String c s' =>
      if between 0 127 c then String c (utf_8_encode s')
      else if between 128 191 c
      then String (ascii_of_nat 194) (String c (utf_8_encode s'))
      else String (ascii_of_nat 195)
             (String (ascii_of_N (N_of_ascii c - 64)) (utf_8_encode s'))
  end.

(** Reading in text mode with [newline=None]: CR LF and a lone CR both
    arrive as LF. *)
Fixpoint universal_newlines (s : string) : string :=
  match s with
  | EmptyString => EmptyString
  | String c s' =>
      if Ascii.eqb c carriage_return then
        match s' with
        | String c2 s'' =>
            if Ascii.eqb c2 newline
            then String newline (universal_newlines s'')
            else String newline (universal_newlines s')
        | EmptyString => String newline EmptyString
        end
      else String c (universal_newlines s')
  end.

End Codec.

(** ** The [csv] module: [csv.reader] with the default ([excel]) dialect
    and [csv.DictReader] on top of it *)

Module Csv.
Import Text.

(** The states of the reader's automaton ([_csv.c]); with universal
    newlines a record ends at LF and the automaton's [EAT_CRNL] state is
    left at once, so it is folded into the transition that enters it. *)
Inductive state : Set :=
| START_RECORD
| START_FIELD
| IN_FIELD
| IN_QUOTED_FIELD
| QUOTE_IN_QUOTED_FIELD.

Record reader : Set := mk_reader {
  st : state;
  field : string;              (* the characters of the field being read *)
  fields : list string;        (* the fields of the record being read *)
  records : list (list string) (* the records read so far *)
}.

Definition reader_start : reader := mk_reader START_RECORD EmptyString [] [].

Definition set_state (s : state) (r : reader) : reader :=
  mk_reader s (field r) (fields r) (records r).

(** [parse_add_char] *)
Definition add_char (c : ascii) (r : reader) : reader :=
  mk_reader (st r) (field r +:+ String c EmptyString) (fields r) (records r).

(** [parse_save_field] *)
Definition save_field (r : reader) : reader :=
  mk_reader (st r) EmptyString (fields r ++ [field r]) (records r).

(** The record is complete: [Reader_iternext] returns its fields. *)
Definition end_record (r : reader) : reader :=
  mk_reader START_RECORD EmptyString [] (records r ++ [fields r]).

(** [parse_process_char] for the comma as delimiter, the double quote as
    quote character, [doublequote] on, no escape character, [skipinitialspace] off and
    [strict] off. *)
Definition process_char (r : reader) (c : ascii) : reader :=
  match st r with
  | START_RECORD =>
      if Ascii.eqb c newline then end_record r
      else if Ascii.eqb c dquote then set_state IN_QUOTED_FIELD r
      else if Ascii.eqb c "," then set_state START_FIELD (save_field r)
      else set_state IN_FIELD (add_char c r)
  | START_FIELD =>
      if Ascii.eqb c newline then end_record (save_field r)
      else if Ascii.eqb c dquote then set_state IN_QUOTED_FIELD r
      else if Ascii.eqb c "," then save_field r
      else set_state IN_FIELD (add_char c r)
  | IN_FIELD =>
      if Ascii.eqb c newline then end_record (save_field r)
      else if Ascii.eqb c "," then set_state START_FIELD (save_field r)
      else add_char c r
  | IN_QUOTED_FIELD =>
      if Ascii.eqb c dquote then set_state QUOTE_IN_QUOTED_FIELD r
      else add_char c r
  | QUOTE_IN_QUOTED_FIELD =>
      if Ascii.eqb c dquote then set_state IN_QUOTED_FIELD (add_char c r)
      else if Ascii.eqb c "," then set_state START_FIELD (save_field r)
      else if Ascii.eqb c newline then end_record (save_field r)
      else set_state IN_FIELD (add_char c r)
  end.

Fixpoint process (r : reader) (s : string) : reader :=
  match s with
  | EmptyString => r
  | String c s' => process (process_char r c) s'
  end.

(** End of input: a record in progress (no final newline, or an open
    quoted field) is returned as it stands. *)
Definition finish (r : reader) : reader :=
  match st r with
  | START_RECORD => r
  | _ => end_record (save_field r)
  end.

(** [list(csv.reader(f))] for the text [s] of the file.  The reader's
    field size limit and its treatment of NUL are not modelled. *)
Definition reader_rows (s : string) : list (list string) :=
  records (finish (process reader_start s)).

(** [DictReader.fieldnames]: the first record the reader yields, [None]
    when it yields none. *)
Definition fieldnames (rows : list (list string)) : option (list string) :=
  head rows.

(** The records [DictReader.__next__] turns into rows: all after the
    first, blank ones ([[]]) skipped. *)
Definition data_records (rows : list (list string)) : list (list string) :=
  filter (fun r => r <> []) (tail rows).

(** The [dict] of a row: [dict(zip(fieldnames, row))], then every field
    name beyond the row's length set to [restval] ([None]).  A later
    assignment to the same key replaces the earlier one.  Cells beyond
    the field names go under the key [None] ([restkey]), which no lookup
    by a column name reaches. *)
Definition row_dict (names row : list string) : gmap string (option string) :=
  let zipped :=
    fold_left (fun d kv => <[kv.1 := Some kv.2]> d) (zip names row) ∅ in
  fold_left (fun d k => <[k := None]> d) (drop (length row) names) zipped.

End Csv.

(** ** The coordinate pattern

    [coord_regex = re.compile(r"\(\s*(-?\d+\.?\d*)\s*,\s*(-?\d+\.?\d*)\s*\)")]
    and [coord_regex.search]. *)

Module CoordRegex.
Import Text.

(** A greedy run: the longest prefix of [s] in the class [p], and what
    follows it. *)
Fixpoint span (p : ascii -> bool) (s : string) : string * string :=
  match s with
  | EmptyString => (EmptyString, EmptyString)
  | String c s' =>
      if p c then let '(a, b) := span p s' in (String c a, b)
      else (EmptyString, s)
  end.

(** An optional single character [c?]. *)
Definition optional (c : ascii) (s : string) : string * string :=
  match s with
  | String c' s' => if Ascii.eqb c c' then (String c EmptyString, s') else (EmptyString, s)
  | EmptyString => (EmptyString, s)
  end.

(** A literal character. *)
Definition expect (c : ascii) (s : string) : option string :=
  match s with
  | String c' s' => if Ascii.eqb c c' then Some s' else None
  | EmptyString => None
  end.

(** One capture group of the pattern (an optional minus sign, one or
    more digits, an optional point, any digits) at the start of [s]: the
    text of the group and the rest of [s]. *)
Definition match_number (s : string) : option (string * string) :=
  let '(sign, s1) := optional "-" s in
  let '(ds, s2) := span is_digit s1 in
  if is_empty ds then None
  else
    let '(dot, s3) := optional "." s2 in
    let '(fs, s4) := span is_digit s3 in
    Some (sign +:+ ds +:+ dot +:+ fs, s4).

(** The whole pattern anchored at the start of [s]: groups 1 and 2.
    Every quantifier is greedy and no two neighbouring pieces of the
    pattern can start with the same character, so the matcher never has
    to give a character back: the greedy run decides ([match_here_iff]
    below compares it with the pattern read as a grammar). *)
Definition match_here (s : string) : option (string * string) :=
  s0 ← expect "(" s;
  '(g1, s2) ← match_number (span is_space s0).2;
  s4 ← expect "," (span is_space s2).2;
  '(g2, s6) ← match_number (span is_space s4).2;
  _ ← expect ")" (span is_space s6).2;
  Some (g1, g2).

(** [coord_regex.search(s)]: the match at the leftmost position that has
    one; [group(1)] and [group(2)] of it. *)
Fixpoint search (s : string) : option (string * string) :=
  match match_here s with
  | Some g => Some g
  | None =>
      match s with
      | EmptyString => None
      | String _ s' => search s'
      end
  end.

(** The pattern read as a grammar. *)
Definition spaces (s : string) : Prop := forallb_str is_space s = true.
Definition digits (s : string) : Prop := forallb_str is_digit s = true.

(** The text of a capture group: sign, digits, point, digits. *)
Inductive number : string -> Prop :=
| number_intro (sign ds dot fs : string) :
    sign = EmptyString \/ sign = "-" ->
    ds <> EmptyString -> digits ds ->
    dot = EmptyString \/ dot = "." ->
    digits fs ->
    number (sign +:+ ds +:+ dot +:+ fs).

(** [m] matches the whole pattern with groups [g1] and [g2]. *)
Definition matches (m g1 g2 : string) : Prop :=
  exists w1 w2 w3 w4,
    spaces w1 /\ spaces w2 /\ spaces w3 /\ spaces w4 /\
    number g1 /\ number g2 /\
    m = "(" +:+ w1 +:+ g1 +:+ w2 +:+ "," +:+ w3 +:+ g2 +:+ w4 +:+ ")".

(** [s] has a match with groups [g1], [g2] that starts after [pre]. *)
Definition match_at (s pre g1 g2 : string) : Prop :=
  exists m post, s = pre +:+ m +:+ post /\ matches m g1 g2.

(** The match of [s] that starts first has groups [g1], [g2]. *)
Definition leftmost_match (s g1 g2 : string) : Prop :=
  exists pre,
    match_at s pre g1 g2 /\
    forall pre' h1 h2, match_at s pre' h1 h2 ->
      (String.length pre <= String.length pre')%nat.

End CoordRegex.

(** ** The run-time system: exceptions, the world, the effect monad *)

Module Py.
Import Text.

(** The exception classes the script can meet. *)
Inductive exn_class : Set :=
| NameError
| TypeError
| KeyError
| ValueError
| UnicodeDecodeError
| OSError
| FileNotFoundError
| YAMLError                      (* yaml.YAMLError *)
| RequestException               (* requests.exceptions.RequestException *)
| TokenGenerationError           (* class TokenGenerationError(Exception) *)
| APIRequestError                (* class APIRequestError(Exception) *)
| OtherException (name : string).

#[export] Instance exn_class_eq_dec : EqDecision exn_class.
Proof. solve_decision. Defined.

(** [issubclass(c, d)] *)
Definition subclass (c d : exn_class) : bool :=
  match c, d with
  | UnicodeDecodeError, ValueError => true
  | FileNotFoundError, OSError => true
  | RequestException, OSError => true
  | _, _ => bool_decide (c = d)
  end.

(** [e.__class__.__name__] *)
Definition class_name (c : exn_class) : string :=
  match c with
  | NameError => "NameError"
  | TypeError => "TypeError"
  | KeyError => "KeyError"
  | ValueError => "ValueError"
  | UnicodeDecodeError => "UnicodeDecodeError"
  | OSError => "OSError"
  | FileNotFoundError => "FileNotFoundError"
  | YAMLError => "YAMLError"
  | RequestException => "RequestException"
  | TokenGenerationError => "TokenGenerationError"
  | APIRequestError => "APIRequestError"
  | OtherException name => name
  end.

(** What a statement can raise: an instance of [Exception] with its
    [str(e)]; [SystemExit], which [except Exception] does not catch; or
    [Unmodelled], for an input on which the model is silent (a file whose
    bytes [Codec.utf_8_decode] does not read). *)
Inductive exn : Set :=
| Exc (c : exn_class) (msg : string)
| SystemExit (code : Z)
| Unmodelled.

(** The body of the request: [{"dynamic_route": {"origin": {"latitude":
    .., "longitude": ..}, "destination": {..}}}]. *)
Record latlng (F : Type) : Type := mk_latlng { latitude : F; longitude : F }.
Record route_ends (F : Type) : Type :=
  mk_route_ends { origin : latlng F; destination : latlng F }.
Record payload (F : Type) : Type := mk_payload { dynamic_route : route_ends F }.

(** The arguments of one [requests.post] call. *)
Record request (F : Type) : Type := mk_request {
  url : string;
  headers : list (string * string);
  json : payload F;
  timeout : Z
}.

Arguments mk_latlng {F}.
Arguments latitude {F}.
Arguments longitude {F}.
Arguments mk_route_ends {F}.
Arguments origin {F}.
Arguments destination {F}.
Arguments mk_payload {F}.
Arguments dynamic_route {F}.
Arguments mk_request {F}.
Arguments url {F}.
Arguments headers {F}.
Arguments json {F}.
Arguments timeout {F}.

(** [subprocess.run(..., check=False)]: a completed process, or an
    exception (an instance of [Exception]) of class [c] with text [msg]. *)
Inductive run_outcome : Set :=
| Completed (returncode : Z) (stdout stderr : string)
| RunRaises (c : exn_class) (msg : string).

(** [requests.post]: a response, or an exception (an instance of
    [Exception]: a time-out, a refused connection, ...). *)
Inductive post_outcome : Set :=
| Response (status_code : Z) (text : string)
| PostRaises (c : exn_class) (msg : string).

(** The configuration document.  A key that is absent is [None]; the
    two column dictionaries keep their keys, which the script reads with
    [d[key]]. *)
Record csv_format_t : Type := mk_csv_format {
  segment_name_column : option string;
  combined_coordinates : option (gmap string string);
  separate_coordinates : option (gmap string string)
}.

Record config_t : Type := mk_config {
  google_project_id : option string;
  csv_format : option csv_format_t;
  route_name_prefix : option string;
  max_routes_to_create : option Z;
  log_file : option string
}.

(** [yaml.safe_load]: a mapping with the keys above, a document that is
    false in a condition ([None], an empty mapping), or an exception (an
    instance of [Exception]). *)
Inductive yaml_outcome : Type :=
| YamlLoaded (config : option config_t)
| YamlRaises (c : exn_class) (msg : string).

(** What the script takes from outside itself. *)
Class Runtime : Type := {
  pyfloat : Type;
  (** [float(s)] of a [str]; [None] is [ValueError] *)
  float_of_str : string -> option pyfloat;
  repr_float : pyfloat -> string;
  repr_str : string -> string;
  (** [repr] of the row [dict] built from the field names and a record *)
  repr_row : list string -> list string -> string;
  (** [json.dumps(payload, indent=2)] *)
  json_dumps : payload pyfloat -> string;
  (** [datetime.now().strftime("%Y-%m-%d %H:%M:%S")] at the n-th reading
      of the clock *)
  strftime_now : nat -> string;
  (** the n-th run of [gcloud auth application-default print-access-token] *)
  subprocess_run : nat -> run_outcome;
  (** the answer to the n-th request *)
  requests_post : nat -> request pyfloat -> post_outcome;
  yaml_safe_load : string -> yaml_outcome;
  (** [open(path, 'a')] and [open(path, 'w')]: the exception the call
      raises for this path (an empty name, a directory, a missing parent
      directory, no permission, ...), [None] when the file opens.  Whether
      a path can be opened for writing does not change during a run. *)
  open_for_writing : string -> option (exn_class * string);
  (** [os.path.realpath]: the canonical name of the file a path names;
      two paths name one file exactly when their canonical names agree *)
  realpath : string -> string;
  abspath : string -> string;
  (** the text [traceback.print_exc] prints *)
  format_exc : exn -> string
}.

(** A value bound to a global name: a [str], or an object of another
    kind (a module, a class, a function). *)
Inductive gval : Set :=
| GStr (s : string)
| GObject.

Inductive outcome (A : Type) : Type :=
| Ret (a : A)
| Raise (e : exn).

Arguments Ret {A}.
Arguments Raise {A}.

(** The files, each under its canonical name, with its bytes. *)
Record file_system : Type := mk_fs { contents : gmap string string }.

Section World.
Context `{R : Runtime}.

(** Looking a path up and binding it go through the canonical name, so
    that two spellings of one file see the same bytes. *)
#[export] Instance fs_lookup : Lookup string string file_system :=
  fun path fs => contents fs !! realpath path.

#[export] Instance fs_insert : Insert string string file_system :=
  fun path data fs => mk_fs (<[realpath path := data]> (contents fs)).

Record world : Type := mk_world {
  files : file_system;                 (* the files and their bytes *)
  console : list string;               (* what print wrote to stdout *)
  errstream : list string;             (* what was printed to stderr *)
  posted : list (request pyfloat);     (* the requests sent, oldest first *)
  gcloud_runs : nat;                   (* runs of the gcloud command *)
  clock_reads : nat;                   (* readings of the clock *)
  naps : nat                           (* calls of time.sleep(0.2) *)
}.

(** A computation ends in a value or in a raised exception, and leaves a
    world behind either way. *)
Definition M (A : Type) : Type := world -> outcome A * world.

End World.

Section Monad.
Context `{R : Runtime}.

Definition ret {A : Type} (a : A) : M A := fun w => (Ret a, w).

Definition bind {A B : Type} (m : M A) (k : A -> M B) : M B :=
  fun w =>
    match m w with
    | (Ret a, w') => k a w'
    | (Raise e, w') => (Raise e, w')
    end.

(** [raise e] *)
Definition raise {A : Type} (e : exn) : M A := fun w => (Raise e, w).

#[export] Instance M_ret : MRet M := @ret.
#[export] Instance M_bind : MBind M := fun A B k m => bind m k.

(** [try: body / except ...: handler].  The handler sees the class and
    the text of an [Exception] raised by the body and answers with the
    clause that catches it, if one does; what the body did to the world
    stays done.  [SystemExit] passes through. *)
Definition try_except {A : Type} (body : M A)
    (handler : exn_class -> string -> option (M A)) : M A :=
  fun w =>
    match body w with
    | (Raise (Exc c msg), w') =>
        match handler c msg with
        | Some h => h w'
        | None => (Raise (Exc c msg), w')
        end
    | r => r
    end.

(** [sys.exit(code)] *)
Definition sys_exit {A : Type} (code : Z) : M A := raise (SystemExit code).

(** [print(s)] *)
Definition print (s : string) : M unit :=
  fun w => (Ret tt, mk_world (files w) (console w ++ [s]) (errstream w)
                      (posted w) (gcloud_runs w) (clock_reads w) (naps w)).

(** [print(s, file=sys.stderr)] *)
Definition eprint (s : string) : M unit :=
  fun w => (Ret tt, mk_world (files w) (console w) (errstream w ++ [s])
                      (posted w) (gcloud_runs w) (clock_reads w) (naps w)).

(** [datetime.now().strftime("%Y-%m-%d %H:%M:%S")] *)
Definition now_strftime : M string :=
  fun w => (Ret (strftime_now (clock_reads w)),
            mk_world (files w) (console w) (errstream w) (posted w)
              (gcloud_runs w) (S (clock_reads w)) (naps w)).

(** [time.sleep(0.2)] *)
Definition sleep : M unit :=
  fun w => (Ret tt, mk_world (files w) (console w) (errstream w) (posted w)
                      (gcloud_runs w) (clock_reads w) (S (naps w))).

(** [subprocess.run(command, shell=True, capture_output=True, text=True,
    check=False)] *)
Definition run_gcloud : M (Z * string * string) :=
  fun w =>
    let w' := mk_world (files w) (console w) (errstream w) (posted w)
                (S (gcloud_runs w)) (clock_reads w) (naps w) in
    match subprocess_run (gcloud_runs w) with
    | Completed rc out err => (Ret (rc, out, err), w')
    | RunRaises c msg => (Raise (Exc c msg), w')
    end.

(** [requests.post(url, headers=headers, json=payload, timeout=30)]: the
    request goes out, then the answer (or the exception) comes back. *)
Definition post (rq : request pyfloat) : M (Z * string) :=
  fun w =>
    let w' := mk_world (files w) (console w) (errstream w) (posted w ++ [rq])
                (gcloud_runs w) (clock_reads w) (naps w) in
    match requests_post (length (posted w)) rq with
    | Response status text => (Ret (status, text), w')
    | PostRaises c msg => (Raise (Exc c msg), w')
    end.

Definition set_files (fs : file_system) (w : world) : world :=
  mk_world fs (console w) (errstream w) (posted w)
    (gcloud_runs w) (clock_reads w) (naps w).

(** [open(path, 'r')] and reading all of it: the bytes of the file. *)
Definition read_file (path : string) : M string :=
  fun w =>
    match files w !! path with
    | Some b => (Ret b, w)
    | None =>
        (Raise (Exc FileNotFoundError
                  ("[Errno 2] No such file or directory: " +:+ repr_str path)), w)
    end.

(** [with open(path, 'w', encoding='utf-8') as f: f.write("")]: when
    the file opens it exists and is empty afterwards; when [open] raises
    nothing changes. *)
Definition truncate_file (path : string) : M unit :=
  fun w =>
    match open_for_writing path with
    | Some (c, msg) => (Raise (Exc c msg), w)
    | None => (Ret tt, set_files (<[path := EmptyString]> (files w)) w)
    end.

(** [with open(path, 'a', encoding='utf-8') as f: f.write(text)]: when
    the file opens, the encoded text goes after what the file holds (a
    new file starts empty); when [open] raises nothing changes.  Line
    ends are written as they are (POSIX). *)
Definition append_file (path text : string) : M unit :=
  fun w =>
    match open_for_writing path with
    | Some (c, msg) => (Raise (Exc c msg), w)
    | None =>
        (Ret tt,
         set_files (<[path := default EmptyString (files w !! path)
                                +:+ Codec.utf_8_encode text]> (files w)) w)
    end.

(** [d[key]] on a [dict] of strings. *)
Definition getitem {V : Type} (d : gmap string V) (key : string) : M V :=
  match d !! key with
  | Some v => ret v
  | None => raise (Exc KeyError (repr_str key))
  end.

(** The exit status of the interpreter after the script's last
    statement: 0 after a normal end, the code of [sys.exit], 1 after an
    exception nobody caught. *)
Definition exit_status {A : Type} (o : outcome A) : Z :=
  match o with
  | Ret _ => 0
  | Raise (SystemExit code) => code
  | Raise _ => 1
  end.

End Monad.

End Py.

(** ** The script *)

Module Routes.
Import Text Py.

(** The names the module binds at its top level: the imports, the two
    exception classes, the six functions, and [parser] and [args] of the
    [__main__] block.  The section headed "Configuration" holds comments
    only; no statement assigns [LOG_FILE]. *)
Definition module_globals : gmap string gval :=
  list_to_map
    ((fun name => (name, GObject)) <$>
       ["requests"; "json"; "time"; "datetime"; "sys"; "traceback"; "os";
        "subprocess"; "re"; "argparse"; "csv"; "random"; "string"; "yaml";
        "TokenGenerationError"; "APIRequestError";
        "write_log"; "get_gcloud_token"; "load_config";
        "parse_coordinate_file"; "create_route_segment";
        "main_route_creator"; "parser"; "args"]).

Definition nl : string := String newline EmptyString.

Section Script.
Context `{R : Runtime}.

(** The global namespace in which the functions run.  The functions read
    it and never write it. *)
Variable G : gmap string gval.

(** One parsed row: [((origin_lat, origin_lon), (dest_lat, dest_lon),
    display_name)]. *)
Definition coord_record : Type :=
  (pyfloat * pyfloat) * (pyfloat * pyfloat) * option string.

(** Reading a global name. *)
Definition global (name : string) : M gval :=
  match G !! name with
  | Some v => ret v
  | None => raise (Exc NameError ("name '" +:+ name +:+ "' is not defined"))
  end.

(** The first argument of [open] must be a path. *)
Definition as_path (v : gval) : M string :=
  match v with
  | GStr p => ret p
  | GObject => raise (Exc TypeError "expected str, bytes or os.PathLike object")
  end.

(** [def write_log(message)] *)
Definition write_log (message : string) : M unit :=
  timestamp ← now_strftime;
  let log_entry := "[" +:+ timestamp +:+ "] " +:+ message +:+ nl in
  print (strip log_entry) ;;
  target ← global "LOG_FILE";
  path ← as_path target;
  append_file path log_entry.

(** [def get_gcloud_token()] *)
Definition get_gcloud_token : M string :=
  try_except
    (write_log "Attempting to fetch gcloud access token..." ;;
     '(returncode, stdout, stderr) ← run_gcloud;
     if returncode =? 0 then
       let token := strip stdout in
       if is_empty token then
         write_log "Error: gcloud command ran but produced an empty token." ;;
         raise (Exc TokenGenerationError "gcloud produced an empty token.")
       else
         write_log "Successfully fetched gcloud access token." ;;
         ret token
     else
       let error_message :=
         "gcloud command failed with return code " +:+ str_of_Z returncode
         +:+ "." +:+ nl +:+ "Stderr: " +:+ strip stderr in
       write_log error_message ;;
       raise (Exc TokenGenerationError error_message))
    (fun c e =>
       if subclass c FileNotFoundError then
         Some (write_log "Error: gcloud command not found. Ensure gcloud SDK is installed and in your PATH." ;;
               raise (Exc TokenGenerationError "gcloud command not found."))
       else
         Some (write_log ("An unexpected error occurred during token generation: " +:+ e) ;;
               raise (Exc TokenGenerationError
                        ("Unexpected error during token generation: " +:+ e)))).

(** [def load_config(filepath)] *)
Definition load_config (filepath : string) : M (option config_t) :=
  try_except
    (bytes ← read_file filepath;
     match yaml_safe_load bytes with
     | YamlLoaded config => ret config
     | YamlRaises c msg => raise (Exc c msg)
     end)
    (fun c e =>
       if subclass c FileNotFoundError then
         Some (write_log ("Error: Configuration file '" +:+ filepath +:+ "' not found.") ;;
               ret None)
       else if subclass c YAMLError then
         Some (write_log ("Error parsing YAML file '" +:+ filepath +:+ "': " +:+ e) ;;
               ret None)
       else None).

(** [config.get("csv_format", {})] *)
Definition csv_format_of (config : config_t) : csv_format_t :=
  default (mk_csv_format None None None) (csv_format config).

(** [col in headers]; [headers] is [None] when the file has no record. *)
Definition contains (col : string) (headers : option (list string)) : M bool :=
  match headers with
  | Some l => ret (isin col l)
  | None => raise (Exc TypeError "argument of type 'NoneType' is not iterable")
  end.

(** [all(col in headers for col in cols)] *)
Fixpoint all_contained (cols : list string) (headers : option (list string)) : M bool :=
  match cols with
  | [] => ret true
  | col :: cols' =>
      b ← contains col headers;
      if (b : bool) then all_contained cols' headers else ret false
  end.

(** Lines 111-117: the test for the combined encoding. *)
Definition detect_combined (fmt : csv_format_t) (headers : option (list string)) : M bool :=
  match combined_coordinates fmt with
  | Some combined_cols =>
      o ← getitem combined_cols "origin_coord_column";
      b ← contains o headers;
      if (b : bool) then
        d ← getitem combined_cols "destination_coord_column";
        contains d headers
      else ret false
  | None => ret false
  end.

(** Lines 119-122: the test for the separate encoding, made only when
    the combined one did not apply. *)
Definition detect_separate (use_combined : bool) (fmt : csv_format_t)
    (headers : option (list string)) : M bool :=
  if use_combined then ret false
  else
    match separate_coordinates fmt with
    | Some separate_cols =>
        c1 ← getitem separate_cols "origin_lat_column";
        c2 ← getitem separate_cols "origin_lon_column";
        c3 ← getitem separate_cols "destination_lat_column";
        c4 ← getitem separate_cols "destination_lon_column";
        all_contained [c1; c2; c3; c4] headers
    | None => ret false
    end.

(** [csv_format["combined_coordinates"]] and its sibling. *)
Definition require_columns (key : string) (d : option (gmap string string))
  : M (gmap string string) :=
  match d with
  | Some cols => ret cols
  | None => raise (Exc KeyError (repr_str key))
  end.

(** [coord_regex.search(cell)]; the cell is [None] when the row is
    shorter than the header. *)
Definition regex_search (cell : option string) : M (option (string * string)) :=
  match cell with
  | Some s => ret (CoordRegex.search s)
  | None => raise (Exc TypeError "expected string or bytes-like object, got 'NoneType'")
  end.

(** [float(x)] for a [str] *)
Definition float_str (s : string) : M pyfloat :=
  match float_of_str s with
  | Some x => ret x
  | None => raise (Exc ValueError ("could not convert string to float: " +:+ repr_str s))
  end.

(** [float(cell)] for a cell of a row *)
Definition float_cell (cell : option string) : M pyfloat :=
  match cell with
  | Some s => float_str s
  | None =>
      raise (Exc TypeError
               "float() argument must be a string or a real number, not 'NoneType'")
  end.

(** The body of the [try] of lines 130-156 for one row: the record to
    append. *)
Definition parse_row (fmt : csv_format_t) (use_combined use_separate : bool)
    (row : gmap string (option string)) : M coord_record :=
  let display_name :=
    match segment_name_column fmt with
    | Some col => if is_empty col then None else mjoin (row !! col)
    | None => None
    end in
  if use_combined then
    combined_config ← require_columns "combined_coordinates" (combined_coordinates fmt);
    ocol ← getitem combined_config "origin_coord_column";
    origin_str ← getitem row ocol;
    dcol ← getitem combined_config "destination_coord_column";
    dest_str ← getitem row dcol;
    origin_match ← regex_search origin_str;
    dest_match ← regex_search dest_str;
    match origin_match, dest_match with
    | Some (o1, o2), Some (d1, d2) =>
        origin_lat ← float_str o1;
        origin_lon ← float_str o2;
        dest_lat ← float_str d1;
        dest_lon ← float_str d2;
        ret ((origin_lat, origin_lon), (dest_lat, dest_lon), display_name)
    | _, _ => raise (Exc ValueError "Could not parse combined coordinates.")
    end
  else if use_separate then
    separate_config ← require_columns "separate_coordinates" (separate_coordinates fmt);
    c1 ← getitem separate_config "origin_lat_column";
    v1 ← getitem row c1;
    origin_lat ← float_cell v1;
    c2 ← getitem separate_config "origin_lon_column";
    v2 ← getitem row c2;
    origin_lon ← float_cell v2;
    c3 ← getitem separate_config "destination_lat_column";
    v3 ← getitem row c3;
    dest_lat ← float_cell v3;
    c4 ← getitem separate_config "destination_lon_column";
    v4 ← getitem row c4;
    dest_lon ← float_cell v4;
    ret ((origin_lat, origin_lon), (dest_lat, dest_lon), display_name)
  else
    raise (Exc NameError "cannot access local variable 'origin_lat' where it is not associated with a value").

(** The loop of lines 128-161 over the records after the header,
    numbered from 2; [parsed_data] grows by one per good row. *)
Fixpoint parse_rows (fmt : csv_format_t) (use_combined use_separate : bool)
    (names : list string) (line_num : Z) (recs : list (list string))
    (parsed_data : list coord_record) : M (list coord_record) :=
  match recs with
  | [] => ret parsed_data
  | rec :: recs' =>
      parsed_data' ←
        try_except
          (r ← parse_row fmt use_combined use_separate (Csv.row_dict names rec);
           ret (parsed_data ++ [r]))
          (fun c e =>
             if subclass c ValueError || subclass c KeyError then
               Some (write_log ("Warning: Skipping row " +:+ str_of_Z line_num
                                +:+ " due to error: " +:+ e +:+ ". Row: "
                                +:+ repr_row names rec) ;;
                     ret parsed_data)
             else
               Some (write_log ("An unexpected error occurred at row "
                                +:+ str_of_Z line_num +:+ ": " +:+ e +:+ ". Row: "
                                +:+ repr_row names rec) ;;
                     ret parsed_data));
      parse_rows fmt use_combined use_separate names (line_num + 1) recs' parsed_data'
  end.

(** [open(filepath, 'r', encoding='utf-8-sig')] and [csv.reader] on it:
    the records of the file. *)
Definition read_csv (filepath : string) : M (list (list string)) :=
  bytes ← read_file filepath;
  match Codec.utf_8_sig_decode bytes with
  | Some text => ret (Csv.reader_rows (Codec.universal_newlines text))
  | None => raise Unmodelled
  end.

(** [def parse_coordinate_file(filepath, config)]; [None] is Python's
    [None]. *)
Definition parse_coordinate_file (filepath : string) (config : config_t)
  : M (option (list coord_record)) :=
  let fmt := csv_format_of config in
  rows ← read_csv filepath;
  let headers := Csv.fieldnames rows in
  use_combined ← detect_combined fmt headers;
  use_separate ← detect_separate use_combined fmt headers;
  if negb (use_combined : bool) && negb (use_separate : bool) then
    write_log "Error: CSV headers do not match any coordinate format in the config file." ;;
    ret None
  else
    parsed_data ← parse_rows fmt use_combined use_separate (default [] headers) 2
                    (Csv.data_records rows) [];
    ret (Some parsed_data).

(** Lines 169-178: the identifier of the route. *)
Definition selected_route_id (config : config_t) (display_name : option string)
    (route_id_counter : Z) : string :=
  let prefix := default EmptyString (route_name_prefix config) in
  match display_name with
  | Some name =>
      if is_empty name then
        prefix +:+ "salt-lake-city-" +:+ str_of_Z route_id_counter
      else
        let route_name := replace_space_hyphen (lower name) in
        let route_name := sub_non_route_chars route_name in
        prefix +:+ route_name +:+ "-" +:+ str_of_Z route_id_counter
  | None => prefix +:+ "salt-lake-city-" +:+ str_of_Z route_id_counter
  end.

(** Lines 180-193: the request. *)
Definition build_request (token : string) (origin destination : pyfloat * pyfloat)
    (display_name : option string) (route_id_counter : Z)
    (google_project_id : string) (config : config_t) : request pyfloat :=
  let selected_route_id := selected_route_id config display_name route_id_counter in
  mk_request
    ("https://roads.googleapis.com/selection/v1/projects/" +:+ google_project_id
     +:+ "/selectedRoutes?selectedRouteId=" +:+ selected_route_id)
    [("Authorization", "Bearer " +:+ token);
     ("X-Goog-User-Project", google_project_id);
     ("Content-Type", "application/json")]
    (mk_payload
       (mk_route_ends (mk_latlng origin.1 origin.2)
                      (mk_latlng destination.1 destination.2)))
    30.

(** [repr] of a pair of floats. *)
Definition repr_pair (p : pyfloat * pyfloat) : string :=
  "(" +:+ repr_float p.1 +:+ ", " +:+ repr_float p.2 +:+ ")".

(** [def create_route_segment(token, origin, destination, display_name,
    route_id_counter, google_project_id, config)] *)
Definition create_route_segment (token : string) (origin destination : pyfloat * pyfloat)
    (display_name : option string) (route_id_counter : Z)
    (google_project_id : string) (config : config_t) : M bool :=
  let selected_route_id := selected_route_id config display_name route_id_counter in
  let rq := build_request token origin destination display_name route_id_counter
              google_project_id config in
  write_log ("Attempting to create route: " +:+ selected_route_id
             +:+ " with Origin: " +:+ repr_pair origin
             +:+ ", Dest: " +:+ repr_pair destination) ;;
  try_except
    ('(status_code, text) ← post rq;
     if (status_code =? 200) || (status_code =? 201) then
       write_log ("Successfully created route: " +:+ selected_route_id
                  +:+ ". Status: " +:+ str_of_Z status_code) ;;
       ret true
     else
       let error_detail :=
         "Failed to create route " +:+ selected_route_id +:+ ". Status: "
         +:+ str_of_Z status_code +:+ "." +:+ nl
         +:+ "URL: " +:+ url rq +:+ nl
         +:+ "Payload: " +:+ json_dumps (json rq) +:+ nl
         +:+ "Response: " +:+ take 1000 text in
       write_log error_detail ;;
       ret false)
    (fun c e =>
       if subclass c RequestException then
         Some (write_log ("RequestException for route " +:+ selected_route_id
                          +:+ ": " +:+ e) ;;
               ret false)
       else
         Some (write_log ("Unexpected error for route " +:+ selected_route_id
                          +:+ ": " +:+ e) ;;
               ret false)).

(** The [for] loop of lines 255-271, with the two counters it updates;
    it returns them as they stand when the loop is left. *)
Fixpoint batch_loop (max_routes : Z) (google_project_id : string) (config : config_t)
    (parsed_data : list coord_record)
    (routes_created_count routes_attempted_count : Z) : M (Z * Z) :=
  match parsed_data with
  | [] => ret (routes_created_count, routes_attempted_count)
  | (origin, destination, display_name) :: rest =>
      if routes_created_count >=? max_routes then
        write_log ("Reached maximum of " +:+ str_of_Z max_routes
                   +:+ " routes to create. Stopping.") ;;
        ret (routes_created_count, routes_attempted_count)
      else
        let routes_attempted_count := routes_attempted_count + 1 in
        fetched ←
          try_except
            (current_token ← get_gcloud_token; ret (Some current_token))
            (fun c e =>
               if subclass c TokenGenerationError then
                 Some (write_log "Failed to obtain gcloud token. Skipping further route creations." ;;
                       ret None)
               else None);
        match fetched with
        | None => ret (routes_created_count, routes_attempted_count)
        | Some current_token =>
            created ← create_route_segment current_token origin destination
                        display_name routes_attempted_count google_project_id config;
            let routes_created_count :=
              if (created : bool) then routes_created_count + 1
              else routes_created_count in
            sleep ;;
            batch_loop max_routes google_project_id config rest
              routes_created_count routes_attempted_count
        end
  end.

(** [def main_route_creator(input_filepath, config_filepath)] *)
Definition main_route_creator (input_filepath config_filepath : string) : M unit :=
  write_log "Route Creator Script started." ;;
  loaded ← load_config config_filepath;
  match loaded with
  | None => sys_exit 1
  | Some config =>
      match google_project_id config with
      | None =>
          write_log "Error: 'google_project_id' not found in config." ;;
          sys_exit 1
      | Some google_project_id =>
          if is_empty google_project_id then
            write_log "Error: 'google_project_id' not found in config." ;;
            sys_exit 1
          else
            let log_file := default "route_creator_log.txt" (log_file config) in
            let max_routes := default 100 (max_routes_to_create config) in
            truncate_file log_file ;;
            parsed ← parse_coordinate_file input_filepath config;
            match parsed with
            | None =>
                write_log "Exiting due to error in parsing the input file." ;;
                sys_exit 1
            | Some [] =>
                write_log "No data found in the input file. Exiting."
            | Some parsed_data =>
                '(routes_created_count, routes_attempted_count) ←
                  batch_loop max_routes google_project_id config parsed_data 0 0;
                write_log "Route Creator Script finished." ;;
                write_log ("Total entries processed: " +:+ str_of_Z routes_attempted_count
                           +:+ " (out of " +:+ str_of_Z (Z.of_nat (length parsed_data))
                           +:+ " available).") ;;
                write_log ("Total routes successfully created: "
                           +:+ str_of_Z routes_created_count +:+ ".")
            end
      end
  end.

(** ["=" * n] *)
Fixpoint equals_signs (n : nat) : string :=
  match n with
  | O => EmptyString
  | S n' => String "=" (equals_signs n')
  end.

(** The [__main__] block after the arguments are parsed. *)
Definition script (input_file config_path : string) : M unit :=
  try_except (main_route_creator input_file config_path)
    (fun c e =>
       Some (target ← global "LOG_FILE";
             path ← as_path target;
             let log_file_path := abspath path in
             let error_name := class_name c in
             write_log ("CRITICAL SCRIPT ERROR (" +:+ error_name +:+ "): " +:+ e) ;;
             write_log ("See stack trace below. Also check log file: " +:+ log_file_path) ;;
             eprint (nl +:+ equals_signs 20 +:+ " CRITICAL SCRIPT ERROR - "
                     +:+ error_name +:+ " - STACK TRACE " +:+ equals_signs 20) ;;
             eprint (format_exc (Exc c e)) ;;
             eprint (equals_signs (42 + String.length error_name + 18) +:+ nl) ;;
             sys_exit 1)).

End Script.

End Routes.

(** ** A small run-time system for worked examples

    Floats are exact decimals; the clock stands still; [gcloud], the
    server and the YAML loader answer what the example says. *)

Module Sample.
Import Text Py Routes.

(** [unscaled / 10 ^ scale] *)
Record decimal : Set := mk_decimal { unscaled : Z; scale : nat }.

Definition digit_value (c : ascii) : Z := Z.of_N (N_of_ascii c) - 48.

(** The digits of a numeral, read left to right; [frac] counts the
    digits after the point once the point has been seen. *)
Fixpoint numeral_value (s : string) (acc : Z) (frac : option nat) : Z * nat :=
  match s with
  | EmptyString => (acc, default O frac)
  | String c s' =>
      if is_digit c then numeral_value s' (10 * acc + digit_value c) (S <$> frac)
      else if Ascii.eqb c "." then numeral_value s' acc (Some O)
      else numeral_value s' acc frac
  end.

(** [float] on the numerals the coordinate pattern captures (sign,
    digits, optional point, digits); anything else is refused. *)
Definition decimal_of_str (s : string) : option decimal :=
  match CoordRegex.match_number s with
  | Some (_, EmptyString) =>
      let '(m, k) := numeral_value s 0 None in
      Some (mk_decimal (match s with String "-" _ => - m | _ => m end) k)
  | _ => None
  end.

Definition repr_decimal (d : decimal) : string :=
  str_of_Z (unscaled d) +:+ "e-" +:+ str_of_Z (Z.of_nat (scale d)).

(** Every path opens for writing but the empty one. *)
Definition no_empty_name (path : string) : option (exn_class * string) :=
  if is_empty path
  then Some (FileNotFoundError, "[Errno 2] No such file or directory: ''")
  else None.

(** Paths are relative to one directory: a leading [./] changes nothing. *)
Definition without_dot_slash (path : string) : string :=
  match path with
  | String "." (String "/" rest) => rest
  | _ => path
  end.

(** A run-time system in which the YAML loader yields [config], the
    n-th run of gcloud ends as [gcloud n] and the server answers the n-th
    request with [server n]. *)
Definition runtime (config : option config_t) (gcloud : nat -> run_outcome)
    (server : nat -> post_outcome) : Runtime :=
  {| pyfloat := decimal;
     float_of_str := decimal_of_str;
     repr_float := repr_decimal;
     repr_str := fun s => "'" +:+ s +:+ "'";
     repr_row := fun names rec => "{...}";
     json_dumps := fun _ => "{...}";
     strftime_now := fun _ => "2025-01-01 00:00:00";
     subprocess_run := gcloud;
     requests_post := fun n _ => server n;
     yaml_safe_load := fun _ => YamlLoaded config;
     open_for_writing := no_empty_name;
     realpath := without_dot_slash;
     abspath := fun p => "/work/" +:+ p;
     format_exc := fun _ => "Traceback (most recent call last): ..." |}.

Definition gcloud_ok (n : nat) : run_outcome :=
  Completed 0 ("ya29.token" +:+ nl) EmptyString.

Definition gcloud_down (n : nat) : run_outcome :=
  Completed 1 EmptyString "ERROR: (gcloud.auth) not logged in".

(** The first run yields a token, every later one fails. *)
Definition gcloud_once (n : nat) : run_outcome :=
  match n with
  | O => gcloud_ok n
  | S _ => gcloud_down n
  end.

Definition server_created (n : nat) : post_outcome := Response 201 "{}".

Definition server_error (n : nat) : post_outcome :=
  Response 500 "Internal error".

(** The column dictionary of the combined encoding: the origin pair in
    column [origin], the destination pair in column [dest]. *)
Definition combined_cols : gmap string string :=
  <["origin_coord_column" := "origin"]>
    (<["destination_coord_column" := "dest"]> ∅).

(** The column dictionary of the separate encoding. *)
Definition separate_cols : gmap string string :=
  <["origin_lat_column" := "olat"]>
    (<["origin_lon_column" := "olon"]>
       (<["destination_lat_column" := "dlat"]>
          (<["destination_lon_column" := "dlon"]> ∅))).

(** A configuration for project [demo-project] with the given cap. *)
Definition config_with (prefix : string) (cap : Z) : config_t :=
  mk_config (Some "demo-project")
    (Some (mk_csv_format (Some "name") (Some combined_cols) None))
    (Some prefix) (Some cap) (Some "route_creator_log.txt").

Definition quoted (s : string) : string :=
  String dquote s +:+ String dquote EmptyString.

(** The CSV file of the worked example of the specification: a header
    and one quoted row. *)
Definition bridge_csv : string :=
  "name,origin,dest" +:+ nl
  +:+ quoted "Main St Bridge" +:+ "," +:+ quoted "(42.35, -71.06)" +:+ ","
  +:+ quoted "(42.36, -71.05)" +:+ nl.

(** A file whose header has the columns of both encodings. *)
Definition both_csv : string :=
  "name,origin,dest,olat,olon,dlat,dlon" +:+ nl
  +:+ "Oak St," +:+ quoted "(1.5,2.5)" +:+ "," +:+ quoted "(3.5,4.5)"
  +:+ ",9.5,8.5,7.5,6.5" +:+ nl.

(** A configuration that names both encodings. *)
Definition config_both : config_t :=
  mk_config (Some "demo-project")
    (Some (mk_csv_format (Some "name") (Some combined_cols) (Some separate_cols)))
    None None None.

(** Two rows with the same label. *)
Definition two_rows_csv : string :=
  "name,origin,dest" +:+ nl
  +:+ "Elm St," +:+ quoted "(1.5,2.5)" +:+ "," +:+ quoted "(3.5,4.5)" +:+ nl
  +:+ "Elm St," +:+ quoted "(5.5,6.5)" +:+ "," +:+ quoted "(7.5,8.5)" +:+ nl.

(** A file in the separate encoding. *)
Definition separate_csv : string :=
  "name,olat,olon,dlat,dlon" +:+ nl
  +:+ "Oak St,9.5,8.5,7.5,6.5" +:+ nl.

(** A configuration that names the separate encoding only. *)
Definition config_separate : config_t :=
  mk_config (Some "demo-project")
    (Some (mk_csv_format (Some "name") None (Some separate_cols)))
    None None None.

(** A file with a header and no row. *)
Definition header_only_csv : string := "name,origin,dest" +:+ nl.

(** The module's namespace with [LOG_FILE] bound to [path] in addition. *)
Definition globals_with_log (path : string) : gmap string gval :=
  <["LOG_FILE" := GStr path]> module_globals.

Section Worlds.
Context `{R : Runtime}.

(** A world with the given files in which nothing has happened yet. *)
Definition fresh_world (fs : gmap string string) : world :=
  mk_world (mk_fs fs) [] [] [] O O O.

End Worlds.

End Sample.


(** ** What a run leaves behind: the vocabulary of the properties *)

Module Observe.
Import Text Py Routes.

(** The exception every use of [LOG_FILE] ends in while the name is
    unbound. *)
Definition name_error : exn := Exc NameError "name 'LOG_FILE' is not defined".

(** [b] continues [a]. *)
Definition continues (a b : string) : Prop := exists t, b = a +:+ t.

(** The part of a route identifier between the prefix and the counter. *)
Definition route_stem (display_name : option string) : string :=
  match display_name with
  | Some name =>
      if is_empty name then "salt-lake-city"
      else sub_non_route_chars (replace_space_hyphen (lower name))
  | None => "salt-lake-city"
  end.

(** The configuration [config] with another entry (or none) for the
    separate encoding. *)
Definition with_separate (sep : option (gmap string string)) (config : config_t)
  : config_t :=
  mk_config (google_project_id config)
    (Some (mk_csv_format
             (segment_name_column (default (mk_csv_format None None None) (csv_format config)))
             (combined_coordinates (default (mk_csv_format None None None) (csv_format config)))
             sep))
    (route_name_prefix config) (max_routes_to_create config) (log_file config).

Section Observe.
Context `{R : Runtime}.

(** The line [write_log] builds for [message] in the world [w]. *)
Definition log_entry (message : string) (w : world) : string :=
  "[" +:+ strftime_now (clock_reads w) +:+ "] " +:+ message +:+ nl.

(** The world once [write_log] has read the clock and echoed its line. *)
Definition echoed (message : string) (w : world) : world :=
  mk_world (files w) (console w ++ [strip (log_entry message w)]) (errstream w)
    (posted w) (gcloud_runs w) (S (clock_reads w)) (naps w).

(** ... and once it has appended the line to the file [path] as well. *)
Definition logged (path message : string) (w : world) : world :=
  set_files
    (<[path := default EmptyString (files w !! path)
               +:+ Codec.utf_8_encode (log_entry message w)]> (files w))
    (echoed message w).

(** The address a route with identifier [route_id] is posted to. *)
Definition route_url (google_project_id route_id : string) : string :=
  "https://roads.googleapis.com/selection/v1/projects/" +:+ google_project_id
  +:+ "/selectedRoutes?selectedRouteId=" +:+ route_id.

(** The world once the three lines of the final tally have been logged
    to [path]: [available] rows were parsed, [attempted] of them tried,
    [created] routes made. *)
Definition tally_logged (path : string) (available : nat) (created attempted : Z)
    (w : world) : world :=
  logged path ("Total routes successfully created: " +:+ str_of_Z created +:+ ".")
    (logged path ("Total entries processed: " +:+ str_of_Z attempted
                  +:+ " (out of " +:+ str_of_Z (Z.of_nat available)
                  +:+ " available).")
       (logged path "Route Creator Script finished." w)).

(** No file of [w] has lost or changed a byte in [w']: each still exists
    and its contents continue the earlier ones. *)
Definition append_only (w w' : world) : Prop :=
  forall path old, files w !! path = Some old ->
    exists new, files w' !! path = Some new /\ continues old new.

(** The world once the file [path] has been opened for writing and
    closed again: the file is empty. *)
Definition reset_file (path : string) (w : world) : world :=
  set_files (<[path := EmptyString]> (files w)) w.

(** [config.get("log_file", "route_creator_log.txt")] *)
Definition log_path (config : config_t) : string :=
  default "route_creator_log.txt" (log_file config).

(** Nothing was sent and [gcloud] was not run between [w] and [w']. *)
Definition offline (w w' : world) : Prop :=
  posted w' = posted w /\ gcloud_runs w' = gcloud_runs w.

(** Whatever [m] does, the world it leaves is related by [P] to the one
    it found. *)
Definition stable (P : world -> world -> Prop) {A : Type} (m : M A) : Prop :=
  forall w, P w (m w).2.

(** A run of [gcloud] that yields a token: exit status 0 and an output
    that is not blank. *)
Definition token_ok (o : run_outcome) : bool :=
  match o with
  | Completed rc out _ => (rc =? 0) && negb (is_empty (strip out))
  | RunRaises _ _ => false
  end.

(** The token the n-th run yields. *)
Definition token_at (n : nat) : string :=
  match subprocess_run n with
  | Completed _ out _ => strip out
  | RunRaises _ _ => EmptyString
  end.

(** The server's answer counts as success: a response with status 200
    or 201. *)
Definition post_ok (o : post_outcome) : bool :=
  match o with
  | Response status _ => (status =? 200) || (status =? 201)
  | PostRaises _ _ => false
  end.

(** The requests for the records [data], one each, in order: the first
    with the token of run [run] and the counter [attempted + 1]. *)
Fixpoint submissions (google_project_id : string) (config : config_t)
    (run : nat) (attempted : Z) (data : list coord_record)
  : list (request pyfloat) :=
  match data with
  | [] => []
  | (origin, destination, display_name) :: rest =>
      build_request (token_at run) origin destination display_name
        (attempted + 1) google_project_id config
      :: submissions google_project_id config (S run) (attempted + 1) rest
  end.

(** What the batch loop comes to when logging works, as a function of
    the answers of [gcloud] and the server alone: the two counters as the
    loop leaves them, the requests it sends and the number of token
    fetches it makes.  [run] is the number of the next run of [gcloud],
    [sent] the number of requests sent before. *)
Fixpoint plan (max_routes : Z) (google_project_id : string) (config : config_t)
    (data : list coord_record) (created attempted : Z) (run sent : nat)
  : Z * Z * list (request pyfloat) * nat :=
  match data with
  | [] => (created, attempted, [], O)
  | (origin, destination, display_name) :: rest =>
      if created >=? max_routes then (created, attempted, [], O)
      else if token_ok (subprocess_run run) then
        let rq := build_request (token_at run) origin destination display_name
                    (attempted + 1) google_project_id config in
        let created' :=
          if post_ok (requests_post sent rq) then created + 1 else created in
        let '(c, a, rqs, fetches) :=
          plan max_routes google_project_id config rest created' (attempted + 1)
            (S run) (S sent) in
        (c, a, rq :: rqs, S fetches)
      else (created, attempted + 1, [], 1%nat)
  end.

(** Lines 130-131: the display name of a row. *)
Definition display_name_of (fmt : csv_format_t) (row : gmap string (option string))
  : option string :=
  match segment_name_column fmt with
  | Some col => if is_empty col then None else mjoin (row !! col)
  | None => None
  end.

(** [m] neither reads nor changes the world, and what it raises, if
    anything, is an instance of [Exception]. *)
Definition pure {A : Type} (m : M A) : Prop :=
  exists o, (forall w, m w = (o, w)) /\
            forall e, o = Raise e -> exists c msg, e = Exc c msg.

(** What the [try] body of the row loop yields for the record [rec]: the
    parsed record, or nothing when the body raises.  The body does not
    depend on the world, so any world serves to run it. *)
Definition parsed_row (fmt : csv_format_t) (use_combined use_separate : bool)
    (names rec : list string) : option coord_record :=
  match (parse_row fmt use_combined use_separate (Csv.row_dict names rec)
           (Sample.fresh_world ∅)).1 with
  | Ret r => Some r
  | Raise _ => None
  end.

(** When [m] ends in [SystemExit], the code is one of [codes]. *)
Definition exits_in {A : Type} (codes : Z -> Prop) (m : M A) : Prop :=
  forall w code, (m w).1 = Raise (SystemExit code) -> codes code.

(** Lines 243-275: what [main_route_creator] does once the log file of
    the configuration has been reset. *)
Definition after_reset (G : gmap string gval) (input_filepath : string)
    (config : config_t) (google_project_id : string) (max_routes : Z) : M unit :=
  parsed ← parse_coordinate_file G input_filepath config;
  match parsed with
  | None =>
      write_log G "Exiting due to error in parsing the input file." ;;
      sys_exit 1
  | Some [] =>
      write_log G "No data found in the input file. Exiting."
  | Some parsed_data =>
      '(routes_created_count, routes_attempted_count) ←
        batch_loop G max_routes google_project_id config parsed_data 0 0;
      write_log G "Route Creator Script finished." ;;
      write_log G ("Total entries processed: " +:+ str_of_Z routes_attempted_count
                   +:+ " (out of " +:+ str_of_Z (Z.of_nat (length parsed_data))
                   +:+ " available).") ;;
      write_log G ("Total routes successfully created: "
                   +:+ str_of_Z routes_created_count +:+ ".")
  end.

(** The configuration file gives no project to work on: it is missing,
    the loader raises a YAML error, the document is false in a condition,
    or it has no [google_project_id] or an empty one. *)
Definition no_project (w : world) (config_path : string) : bool :=
  match files w !! config_path with
  | None => true
  | Some bytes =>
      match yaml_safe_load bytes with
      | YamlLoaded None => true
      | YamlLoaded (Some config) =>
          match google_project_id config with
          | None => true
          | Some pid => is_empty pid
          end
      | YamlRaises c _ => subclass c FileNotFoundError || subclass c YAMLError
      end
  end.

(** The configuration file loads and names the project [pid]. *)
Definition project_is (w : world) (config_path : string) (config : config_t)
    (pid : string) : Prop :=
  exists bytes,
    files w !! config_path = Some bytes /\
    yaml_safe_load bytes = YamlLoaded (Some config) /\
    google_project_id config = Some pid /\
    is_empty pid = false.

(** The path opens for writing. *)
Definition writable (path : string) : Prop := open_for_writing path = None.

(** Two paths name one file. *)
Definition same_file (p q : string) : Prop := realpath p = realpath q.

(** What [write_log] finds when it opens its file: the path [LOG_FILE]
    names, or the exception that reading the name or opening the file
    raises.  It depends on the namespace and the file system alone. *)
Definition log_target (G : gmap string gval) : outcome string :=
  match G !! "LOG_FILE" with
  | None => Raise name_error
  | Some GObject => Raise (Exc TypeError "expected str, bytes or os.PathLike object")
  | Some (GStr path) =>
      match open_for_writing path with
      | Some (c, msg) => Raise (Exc c msg)
      | None => Ret path
      end
  end.

(** Between [w] and [w'] no file other than the one [log] names has
    changed. *)
Definition untouched_but (log : string) (w w' : world) : Prop :=
  forall p, ~ same_file p log -> files w' !! p = files w !! p.

(** The world in which [main_route_creator] parses the input: the start
    line is logged to [log] and the log file of the configuration has
    been reset. *)
Definition started (log : string) (config : config_t) (w : world) : world :=
  reset_file (log_path config) (logged log "Route Creator Script started." w).

(** The world once the handler of the [__main__] block has dealt with an
    exception of class [c] and text [msg]: two lines logged to [log],
    three items printed to the error stream. *)
Definition critical (log : string) (c : exn_class) (msg : string) (w : world) : world :=
  let w2 :=
    logged log ("See stack trace below. Also check log file: " +:+ abspath log)
      (logged log ("CRITICAL SCRIPT ERROR (" +:+ class_name c +:+ "): " +:+ msg) w) in
  mk_world (files w2) (console w2)
    (errstream w2
     ++ [nl +:+ equals_signs 20 +:+ " CRITICAL SCRIPT ERROR - " +:+ class_name c
         +:+ " - STACK TRACE " +:+ equals_signs 20;
         format_exc (Exc c msg);
         equals_signs (42 + String.length (class_name c) + 18) +:+ nl])
    (posted w2) (gcloud_runs w2) (clock_reads w2) (naps w2).

(** The header [names] does not have the two columns of the combined
    encoding, or none is configured. *)
Definition combined_misses (fmt : csv_format_t) (names : list string) : Prop :=
  combined_coordinates fmt = None \/
  (exists cols ocol dcol,
      combined_coordinates fmt = Some cols /\
      cols !! "origin_coord_column" = Some ocol /\
      cols !! "destination_coord_column" = Some dcol /\
      (ocol ∉ names \/ dcol ∉ names)).

(** The same for the four columns of the separate encoding. *)
Definition separate_misses (fmt : csv_format_t) (names : list string) : Prop :=
  separate_coordinates fmt = None \/
  (exists cols c1 c2 c3 c4,
      separate_coordinates fmt = Some cols /\
      cols !! "origin_lat_column" = Some c1 /\
      cols !! "origin_lon_column" = Some c2 /\
      cols !! "destination_lat_column" = Some c3 /\
      cols !! "destination_lon_column" = Some c4 /\
      (c1 ∉ names \/ c2 ∉ names \/ c3 ∉ names \/ c4 ∉ names)).

End Observe.

End Observe.
(** * Properties *)

#[local] Arguments String.append !_ _ : simpl nomatch.

(** ** Strings *)

Module TextFacts.
Import Text.

Lemma append_nil_r (s : string) : s +:+ EmptyString = s.
Proof. induction s as [|c s IH]; simpl; [reflexivity | now rewrite IH]. Qed.

Lemma append_assoc (a b c : string) : (a +:+ b) +:+ c = a +:+ (b +:+ c).
Proof. induction a as [|x a IH]; simpl; [reflexivity | now rewrite IH]. Qed.

Lemma append_inv_head (p x y : string) : p +:+ x = p +:+ y -> x = y.
Proof.
  induction p as [|c p IH]; simpl; intros H; [exact H|].
  injection H as H. now apply IH.
Qed.

Lemma length_append (a b : string) :
  String.length (a +:+ b) = (String.length a + String.length b)%nat.
Proof. induction a as [|x a IH]; simpl; [reflexivity | now rewrite IH]. Qed.

Lemma forallb_str_app (p : ascii -> bool) (a b : string) :
  forallb_str p (a +:+ b) = forallb_str p a && forallb_str p b.
Proof.
  induction a as [|x a IH]; simpl; [reflexivity|].
  rewrite IH. now rewrite andb_assoc.
Qed.

Lemma digits_no_hyphen (a b : string) :
  forallb_str is_digit (a +:+ String "-" b) = false.
Proof.
  induction a as [|c a IH]; simpl in *; [reflexivity|].
  rewrite IH. apply andb_false_r.
Qed.

(** A text that ends in a hyphen and a run of digits splits there in one
    way only. *)
Lemma split_at_last_hyphen (s1 s2 d1 d2 : string) :
  forallb_str is_digit d1 = true ->
  forallb_str is_digit d2 = true ->
  s1 +:+ "-" +:+ d1 = s2 +:+ "-" +:+ d2 ->
  s1 = s2 /\ d1 = d2.
Proof.
  intros H1 H2. revert s2.
  induction s1 as [|c s1 IH]; intros [|c' s2]; simpl; intros E.
  - injection E as E. now split.
  - injection E as Ec E. subst d1.
    rewrite digits_no_hyphen in H1. discriminate.
  - injection E as Ec E. subst d2.
    rewrite digits_no_hyphen in H2. discriminate.
  - injection E as Ec E. subst c'.
    destruct (IH s2 E) as [-> ->]. now split.
Qed.

Lemma uint_digits (d : Decimal.uint) :
  forallb_str is_digit (NilEmpty.string_of_uint d) = true.
Proof. induction d; simpl; auto. Qed.

(** [str(n)] of a natural number is a run of digits. *)
Lemma str_of_Z_digits (z : Z) : 0 <= z -> forallb_str is_digit (str_of_Z z) = true.
Proof.
  intros Hz. unfold str_of_Z. destruct z as [|p|p]; [reflexivity| |lia].
  simpl. unfold NilZero.string_of_uint.
  destruct (Pos.to_uint p) eqn:E; try apply uint_digits. reflexivity.
Qed.

(** [str] is injective on [int]. *)
Lemma str_of_Z_inj (a b : Z) : str_of_Z a = str_of_Z b -> a = b.
Proof.
  unfold str_of_Z. intros E.
  apply DecimalZ.to_int_inj.
  assert (Hn : forall z, Z.to_int z <> Decimal.Pos Decimal.Nil /\
                         Z.to_int z <> Decimal.Neg Decimal.Nil).
  { intros [|p|p]; simpl; split; try discriminate;
      intros [= H]; now apply DecimalPos.Unsigned.to_uint_nonnil in H. }
  pose proof (NilZero.isi (Z.to_int a) (proj1 (Hn a)) (proj2 (Hn a))) as Ha.
  pose proof (NilZero.isi (Z.to_int b) (proj1 (Hn b)) (proj2 (Hn b))) as Hb.
  rewrite E in Ha. rewrite Ha in Hb. now injection Hb.
Qed.

End TextFacts.

(** ** The coordinate pattern: the greedy matcher against the grammar *)

Module RegexFacts.
Import Text CoordRegex TextFacts.

Lemma span_spec (p : ascii -> bool) (s a b : string) :
  span p s = (a, b) ->
  s = a +:+ b /\ forallb_str p a = true /\
  match b with String c _ => p c = false | EmptyString => True end.
Proof.
  revert a b. induction s as [|c s IH]; simpl; intros a b E.
  - injection E as <- <-. auto.
  - destruct (p c) eqn:Hc.
    + destruct (span p s) as [a' b'] eqn:Es. injection E as <- <-.
      destruct (IH a' b' eq_refl) as (-> & Ha & Hb).
      simpl. rewrite Hc. auto.
    + injection E as <- <-. simpl. auto.
Qed.

(** A run followed by something outside the class is found whole. *)
Lemma span_app (p : ascii -> bool) (a b : string) :
  forallb_str p a = true ->
  match b with String c _ => p c = false | EmptyString => True end ->
  span p (a +:+ b) = (a, b).
Proof.
  intros Ha Hb. induction a as [|c a IH]; simpl in *.
  - destruct b as [|c b]; simpl; [reflexivity|]. now rewrite Hb.
  - apply andb_prop in Ha as [Hc Ha]. rewrite Hc, (IH Ha). reflexivity.
Qed.

Lemma span_snd_app (p : ascii -> bool) (a b : string) :
  forallb_str p a = true ->
  match b with String c _ => p c = false | EmptyString => True end ->
  (span p (a +:+ b)).2 = b.
Proof. intros Ha Hb. now rewrite span_app. Qed.

(** What may follow a number for the greedy reading to stop where the
    grammar stops: neither a digit nor a point. *)
Definition ends_number (rest : string) : Prop :=
  match rest with
  | String c _ => is_digit c = false /\ c <> "."%char
  | EmptyString => True
  end.

Lemma optional_miss (c : ascii) (s : string) :
  match s with String c' _ => c <> c' | EmptyString => True end ->
  optional c s = (EmptyString, s).
Proof.
  destruct s as [|c' s]; simpl; [reflexivity|]. intros H.
  destruct (Ascii.eqb_spec c c'); [contradiction | reflexivity].
Qed.

Lemma digits_head (ds rest : string) :
  ds <> EmptyString -> digits ds ->
  match ds +:+ rest with String c _ => is_digit c = true | EmptyString => False end.
Proof.
  destruct ds as [|c ds]; [contradiction|]. intros _ H.
  simpl. unfold digits in H. simpl in H. now apply andb_prop in H as [H _].
Qed.

(** Completeness of the greedy reading of one group. *)
Lemma match_number_complete (g rest : string) :
  number g -> ends_number rest ->
  match_number (g +:+ rest) = Some (g, rest).
Proof.
  intros [sign ds dot fs Hsign Hne Hds Hdot Hfs] Hrest.
  unfold match_number.
  assert (Hopt : optional "-" ((sign +:+ ds +:+ dot +:+ fs) +:+ rest)
                 = (sign, ds +:+ dot +:+ fs +:+ rest)).
  { destruct Hsign as [-> | ->]; simpl.
    - rewrite !append_assoc. apply optional_miss.
      pose proof (digits_head ds (dot +:+ fs +:+ rest) Hne Hds) as Hh.
      destruct (ds +:+ dot +:+ fs +:+ rest) as [|c s]; [exact I|].
      intros <-. discriminate.
    - now rewrite !append_assoc. }
  rewrite Hopt.
  assert (Hrest' : match rest with
                   | String c _ => is_digit c = false
                   | EmptyString => True
                   end).
  { destruct rest; [exact I | apply Hrest]. }
  destruct Hdot as [-> | ->]; simpl.
  - (* no point: the two runs of digits are read as one *)
    replace (ds +:+ fs +:+ rest) with ((ds +:+ fs) +:+ rest)
      by apply append_assoc.
    rewrite span_app; [| rewrite forallb_str_app; unfold digits in *;
                         now rewrite Hds, Hfs | exact Hrest'].
    destruct (is_empty (ds +:+ fs)) eqn:He.
    { destruct ds; [contradiction | discriminate]. }
    rewrite optional_miss.
    2:{ destruct rest as [|c r]; [exact I|]. intros <-. now destruct Hrest. }
    replace (span is_digit rest) with (EmptyString, rest).
    2:{ symmetry. apply (span_app is_digit EmptyString rest); auto. }
    rewrite !append_assoc. simpl. now rewrite append_nil_r.
  - rewrite span_app; [| exact Hds | reflexivity].
    destruct (is_empty ds) eqn:He.
    { destruct ds; [contradiction | discriminate]. }
    simpl. rewrite span_app; [| exact Hfs | exact Hrest'].
    reflexivity.
Qed.

Lemma optional_spec (c : ascii) (s a b : string) :
  optional c s = (a, b) ->
  s = a +:+ b /\ (a = EmptyString \/ a = String c EmptyString).
Proof.
  destruct s as [|c' s]; simpl.
  - intros [= <- <-]. auto.
  - destruct (Ascii.eqb_spec c c') as [<- |]; intros [= <- <-]; auto.
Qed.

(** Soundness of the greedy reading of one group. *)
Lemma match_number_sound (s g rest : string) :
  match_number s = Some (g, rest) -> s = g +:+ rest /\ number g.
Proof.
  unfold match_number.
  destruct (optional "-" s) as [sign s1] eqn:E1.
  destruct (span is_digit s1) as [ds s2] eqn:E2.
  destruct (is_empty ds) eqn:He; [discriminate|].
  destruct (optional "." s2) as [dot s3] eqn:E3.
  destruct (span is_digit s3) as [fs s4] eqn:E4.
  intros [= <- <-].
  apply optional_spec in E1 as [-> Hsign].
  apply span_spec in E2 as (-> & Hds & _).
  apply optional_spec in E3 as [-> Hdot].
  apply span_spec in E4 as (-> & Hfs & _).
  split.
  - now rewrite !append_assoc.
  - constructor; auto. intros ->. discriminate.
Qed.

Lemma expect_app (c : ascii) (s : string) :
  expect c (String c s) = Some s.
Proof. simpl. now rewrite Ascii.eqb_refl. Qed.

Lemma expect_spec (c : ascii) (s s' : string) :
  expect c s = Some s' -> s = String c s'.
Proof.
  destruct s as [|c' s]; simpl; [discriminate|].
  destruct (Ascii.eqb_spec c c') as [<- |]; [|discriminate].
  now intros [= <-].
Qed.

(** A number starts with a minus sign or a digit: never with a space. *)
Lemma number_head (g rest : string) :
  number g ->
  match g +:+ rest with
  | String c _ => is_space c = false
  | EmptyString => False
  end.
Proof.
  intros [sign ds dot fs Hsign Hne Hds Hdot Hfs].
  destruct Hsign as [-> | ->]; simpl; [|reflexivity].
  rewrite !append_assoc.
  pose proof (digits_head ds (dot +:+ fs +:+ rest) Hne Hds) as Hh.
  destruct (ds +:+ dot +:+ fs +:+ rest) as [|c s]; [contradiction|].
  revert Hh. unfold is_digit, is_space, between.
  destruct (N_of_ascii c) as [|p] eqn:E; simpl; [discriminate|].
  intros H. apply andb_prop in H as [H1 H2].
  apply N.leb_le in H1, H2.
  repeat match goal with
         | |- context [(?a <=? ?b)%N] => destruct (N.leb_spec a b); try lia
         | |- context [(?a <=? ?b)%positive] =>
             change (a <=? b)%positive with (N.pos a <=? N.pos b)%N
         end; reflexivity.
Qed.

Lemma space_not_number_char (c : ascii) :
  is_space c = true -> is_digit c = false /\ c <> "."%char.
Proof.
  unfold is_space, is_digit, between. intros H. split.
  - destruct (N.leb_spec 48 (N_of_ascii c)); [|reflexivity].
    destruct (N.leb_spec (N_of_ascii c) 57); [|reflexivity].
    exfalso. revert H.
    repeat match goal with
           | |- context [(?a <=? ?b)%N] => destruct (N.leb_spec a b); try lia
           end; simpl; discriminate.
  - intros ->. discriminate.
Qed.

(** After a number come spaces and then a comma or a parenthesis: the
    greedy reading of the number stops where the grammar stops. *)
Lemma ends_number_spaces (w : string) (c : ascii) (rest : string) :
  spaces w -> is_digit c = false -> c <> "."%char ->
  ends_number (w +:+ String c rest).
Proof.
  intros Hw Hc Hdot. destruct w as [|x w]; simpl; [auto|].
  unfold spaces in Hw. simpl in Hw. apply andb_prop in Hw as [Hx _].
  now apply space_not_number_char.
Qed.

Lemma match_here_complete (m post g1 g2 : string) :
  matches m g1 g2 -> match_here (m +:+ post) = Some (g1, g2).
Proof.
  intros (w1 & w2 & w3 & w4 & H1 & H2 & H3 & H4 & Hg1 & Hg2 & ->).
  unfold match_here. rewrite !append_assoc. simpl.
  rewrite span_snd_app; [| exact H1 | ].
  2:{ pose proof (number_head g1 (w2 +:+ String "," (w3 +:+ g2 +:+ w4
                     +:+ String ")" post)) Hg1) as Hh.
      destruct (g1 +:+ _); [contradiction | exact Hh]. }
  rewrite match_number_complete;
    [| exact Hg1 | apply ends_number_spaces; [exact H2 | reflexivity | discriminate]].
  simpl. rewrite span_snd_app; [| exact H2 | reflexivity].
  simpl. rewrite span_snd_app; [| exact H3 | ].
  2:{ pose proof (number_head g2 (w4 +:+ String ")" post) Hg2) as Hh.
      destruct (g2 +:+ _); [contradiction | exact Hh]. }
  rewrite match_number_complete;
    [| exact Hg2 | apply ends_number_spaces; [exact H4 | reflexivity | discriminate]].
  simpl. rewrite span_snd_app; [| exact H4 | reflexivity].
  reflexivity.
Qed.

Lemma match_here_sound (s g1 g2 : string) :
  match_here s = Some (g1, g2) ->
  exists m post, s = m +:+ post /\ matches m g1 g2.
Proof.
  unfold match_here. intros H.
  destruct (expect "(" s) as [s0|] eqn:E0; [|discriminate]. simpl in H.
  destruct (span is_space s0) as [w1 s1] eqn:Ew1. simpl in H.
  destruct (match_number s1) as [[h1 s2]|] eqn:En1; [|discriminate]. simpl in H.
  destruct (span is_space s2) as [w2 s3] eqn:Ew2. simpl in H.
  destruct (expect "," s3) as [s4|] eqn:E4; [|discriminate]. simpl in H.
  destruct (span is_space s4) as [w3 s5] eqn:Ew3. simpl in H.
  destruct (match_number s5) as [[h2 s6]|] eqn:En2; [|discriminate]. simpl in H.
  destruct (span is_space s6) as [w4 s7] eqn:Ew4. simpl in H.
  destruct (expect ")" s7) as [s8|] eqn:E8; [|discriminate]. simpl in H.
  injection H as <- <-.
  apply expect_spec in E0, E4, E8. subst s s3 s7.
  apply span_spec in Ew1 as (-> & Hw1 & _).
  apply span_spec in Ew2 as (-> & Hw2 & _).
  apply span_spec in Ew3 as (-> & Hw3 & _).
  apply span_spec in Ew4 as (-> & Hw4 & _).
  apply match_number_sound in En1 as [-> Hn1].
  apply match_number_sound in En2 as [-> Hn2].
  exists ("(" +:+ w1 +:+ h1 +:+ w2 +:+ "," +:+ w3 +:+ h2 +:+ w4 +:+ ")"), s8.
  split.
  - rewrite !append_assoc. reflexivity.
  - exists w1, w2, w3, w4. repeat split; assumption.
Qed.

(** The greedy matcher accepts exactly what the grammar of the pattern
    generates, with the same groups. *)
Lemma match_here_iff (s g1 g2 : string) :
  match_here s = Some (g1, g2) <->
  exists m post, s = m +:+ post /\ matches m g1 g2.
Proof.
  split; [apply match_here_sound|].
  intros (m & post & -> & H). now apply match_here_complete.
Qed.

Lemma match_at_iff (s pre g1 g2 : string) :
  match_at s pre g1 g2 <->
  exists rest, s = pre +:+ rest /\ match_here rest = Some (g1, g2).
Proof.
  split.
  - intros (m & post & -> & H). exists (m +:+ post). split; [reflexivity|].
    now apply match_here_complete.
  - intros (rest & -> & H). apply match_here_sound in H as (m & post & -> & H).
    now exists m, post.
Qed.

(** [search] returns the groups of the match at the first position that
    has one. *)
Lemma search_spec (s g1 g2 : string) :
  search s = Some (g1, g2) <->
  exists pre rest,
    s = pre +:+ rest /\ match_here rest = Some (g1, g2) /\
    forall pre' rest', s = pre' +:+ rest' ->
      (String.length pre' < String.length pre)%nat -> match_here rest' = None.
Proof.
  induction s as [|c s IH].
  - simpl. split; [discriminate|].
    intros (pre & rest & E & H & _).
    destruct pre; [|discriminate]. simpl in E. subst rest. discriminate.
  - cbn [search]. destruct (match_here (String c s)) as [g|] eqn:Em.
    + split.
      * intros [= ->]. exists EmptyString, (String c s).
        split; [reflexivity|]. split; [exact Em|].
        intros pre' rest' _ Hlt. simpl in Hlt. lia.
      * intros (pre & rest & E & H & Hmin).
        destruct pre as [|c' pre].
        -- simpl in E. subst rest. congruence.
        -- specialize (Hmin EmptyString (String c s) eq_refl).
           simpl in Hmin. rewrite Hmin in Em; [discriminate | lia].
    + rewrite IH. split.
      * intros (pre & rest & -> & H & Hmin).
        exists (String c pre), rest. split; [reflexivity|]. split; [exact H|].
        intros [|c' pre'] rest' E Hlt.
        -- simpl in E. subst rest'. exact Em.
        -- simpl in E. injection E as -> E. apply (Hmin pre' rest' E).
           simpl in Hlt. lia.
      * intros (pre & rest & E & H & Hmin).
        destruct pre as [|c' pre].
        -- simpl in E. subst rest. congruence.
        -- simpl in E. injection E as -> ->.
           exists pre, rest. split; [reflexivity|]. split; [exact H|].
           intros pre' rest' E Hlt.
           apply (Hmin (String c' pre') rest'); [simpl; now rewrite E|].
           simpl. lia.
Qed.

Lemma search_none (s : string) :
  search s = None <-> forall pre rest, s = pre +:+ rest -> match_here rest = None.
Proof.
  induction s as [|c s IH].
  - simpl. split; [|reflexivity].
    intros _ [|? ?] rest E; [|discriminate]. simpl in E. now subst rest.
  - cbn [search]. destruct (match_here (String c s)) as [g|] eqn:Em.
    + split; [discriminate|]. intros H.
      specialize (H EmptyString (String c s) eq_refl). congruence.
    + rewrite IH. split.
      * intros H [|c' pre] rest E.
        -- simpl in E. now subst rest.
        -- simpl in E. injection E as -> E. now apply (H pre rest).
      * intros H pre rest E. apply (H (String c pre) rest). simpl. now rewrite E.
Qed.

(** A cell that holds a match anywhere is found. *)
Lemma search_complete (s pre g1 g2 : string) :
  match_at s pre g1 g2 -> exists h1 h2, search s = Some (h1, h2).
Proof.
  intros H. destruct (search s) as [[h1 h2]|] eqn:E; [eauto|].
  apply match_at_iff in H as (rest & Hs & Hm).
  rewrite search_none in E. rewrite (E pre rest Hs) in Hm. discriminate.
Qed.

(** ... and the groups are those of the leftmost match. *)
Lemma search_leftmost (s g1 g2 : string) :
  search s = Some (g1, g2) <->
  exists pre,
    match_at s pre g1 g2 /\
    forall pre' h1 h2, match_at s pre' h1 h2 ->
      (String.length pre <= String.length pre')%nat.
Proof.
  rewrite search_spec. split.
  - intros (pre & rest & Hs & Hm & Hmin). exists pre. split.
    + apply match_at_iff. eauto.
    + intros pre' h1 h2 H'. apply match_at_iff in H' as (rest' & Hs' & Hm').
      destruct (Nat.le_gt_cases (String.length pre) (String.length pre'))
        as [Hle | Hlt]; [exact Hle|].
      rewrite (Hmin pre' rest' Hs' Hlt) in Hm'. discriminate.
  - intros (pre & H & Hmin). apply match_at_iff in H as (rest & Hs & Hm).
    exists pre, rest. split; [exact Hs|]. split; [exact Hm|].
    intros pre' rest' Hs' Hlt.
    destruct (match_here rest') as [[h1 h2]|] eqn:E; [|reflexivity].
    assert (H' : match_at s pre' h1 h2) by (apply match_at_iff; eauto).
    apply Hmin in H'. lia.
Qed.

End RegexFacts.

(** ** The effect monad and [write_log] *)

Module LogFacts.
Import Text Py Routes Observe.

Section LogFacts.
Context `{R : Runtime}.

Lemma bind_ret {A B : Type} (m : M A) (k : A -> M B) (w w' : world) (a : A) :
  m w = (Ret a, w') -> (m ≫= k) w = k a w'.
Proof. intros H. unfold mbind, M_bind, bind. now rewrite H. Qed.

Lemma bind_raise {A B : Type} (m : M A) (k : A -> M B) (w w' : world) (e : exn) :
  m w = (Raise e, w') -> (m ≫= k) w = (Raise e, w').
Proof. intros H. unfold mbind, M_bind, bind. now rewrite H. Qed.

Lemma LOG_FILE_unbound : module_globals !! "LOG_FILE" = None.
Proof. vm_compute. reflexivity. Qed.

(** Without a binding for [LOG_FILE] the line is echoed and the lookup of
    the name raises. *)
Lemma write_log_unbound (G : gmap string gval) (message : string) (w : world) :
  G !! "LOG_FILE" = None ->
  write_log G message w
  = (Raise (Exc NameError "name 'LOG_FILE' is not defined"), echoed message w).
Proof.
  intros HG. unfold write_log, global.
  unfold mbind, M_bind, bind, now_strftime, print. simpl.
  rewrite HG. reflexivity.
Qed.

(** With [LOG_FILE] bound to a path that opens for writing the line is
    echoed and appended. *)
Lemma write_log_bound (G : gmap string gval) (path message : string) (w : world) :
  G !! "LOG_FILE" = Some (GStr path) ->
  writable path ->
  write_log G message w = (Ret tt, logged path message w).
Proof.
  intros HG Hw. unfold write_log, global.
  unfold mbind, M_bind, bind, now_strftime, print. simpl.
  rewrite HG. cbn [ret as_path]. unfold append_file. cbn [files].
  unfold writable in Hw. rewrite Hw. reflexivity.
Qed.

(** With [LOG_FILE] bound to a path that does not open, the line is
    echoed and the exception of [open] is raised. *)
Lemma write_log_unwritable (G : gmap string gval) (path message : string)
    (c : exn_class) (msg : string) (w : world) :
  G !! "LOG_FILE" = Some (GStr path) ->
  open_for_writing path = Some (c, msg) ->
  write_log G message w = (Raise (Exc c msg), echoed message w).
Proof.
  intros HG Hw. unfold write_log, global.
  unfold mbind, M_bind, bind, now_strftime, print. simpl.
  rewrite HG. cbn [ret as_path]. unfold append_file. rewrite Hw. reflexivity.
Qed.

(** With [LOG_FILE] bound to something that is no path, [open] refuses
    it. *)
Lemma write_log_object (G : gmap string gval) (message : string) (w : world) :
  G !! "LOG_FILE" = Some GObject ->
  write_log G message w
  = (Raise (Exc TypeError "expected str, bytes or os.PathLike object"),
     echoed message w).
Proof.
  intros HG. unfold write_log, global.
  unfold mbind, M_bind, bind, now_strftime, print. simpl.
  rewrite HG. reflexivity.
Qed.

(** Whatever [LOG_FILE] is, [write_log] ends in one of these three ways. *)
Lemma write_log_cases (G : gmap string gval) (message : string) (w : world) :
  (exists e, write_log G message w = (Raise e, echoed message w)) \/
  (exists path, G !! "LOG_FILE" = Some (GStr path) /\
                write_log G message w = (Ret tt, logged path message w)).
Proof.
  destruct (G !! "LOG_FILE") as [[path|]|] eqn:E.
  - destruct (open_for_writing path) as [[c msg]|] eqn:Hw.
    + left. eexists. apply (write_log_unwritable G path _ c msg); assumption.
    + right. exists path. split; [reflexivity|]. now apply write_log_bound.
  - left. eexists. now apply write_log_object.
  - left. eexists. now apply write_log_unbound.
Qed.

(** [write_log] does what [log_target] says, for every message and in
    every world. *)
Lemma write_log_spec (G : gmap string gval) (message : string) (w : world) :
  write_log G message w
  = match log_target G with
    | Ret path => (Ret tt, logged path message w)
    | Raise e => (Raise e, echoed message w)
    end.
Proof.
  unfold log_target. destruct (G !! "LOG_FILE") as [[path|]|] eqn:E.
  - destruct (open_for_writing path) as [[c msg]|] eqn:Hw.
    + apply (write_log_unwritable G path _ c msg); assumption.
    + now apply write_log_bound.
  - now apply write_log_object.
  - now apply write_log_unbound.
Qed.

(** The path [log_target] yields is the one [LOG_FILE] names, and it
    opens. *)
Lemma log_target_Ret (G : gmap string gval) (path : string) :
  log_target G = Ret path <->
  G !! "LOG_FILE" = Some (GStr path) /\ writable path.
Proof.
  unfold log_target, writable. destruct (G !! "LOG_FILE") as [[p|]|].
  - destruct (open_for_writing p) as [[c msg]|] eqn:Hw.
    + split; [discriminate|]. intros [[= ->] H]. congruence.
    + split; [intros [= ->]; auto|]. now intros [[= ->] _].
  - split; [discriminate | intros [[=] _]].
  - split; [discriminate | intros [[=] _]].
Qed.

End LogFacts.

End LogFacts.

(** ** C1: the log file name is never bound *)

Section Unbound_LOG_FILE.
Import Text Py Routes Observe LogFacts.
Context `{R : Runtime}.

(** C1.  [write_log] reads the global name [LOG_FILE], which the module
    never binds: every call echoes its line and then raises [NameError],
    whatever the message.  [main_route_creator] therefore ends in its first
    statement: its outcome and the world it leaves are those of that one
    [write_log] call, in which no file has changed, no request has been
    sent and [gcloud] has not been run.  The handler of the [__main__]
    block reads [LOG_FILE] too, so the script ends with the same
    [NameError] and exit status 1. *)
Theorem write_log_raises_NameError :
  module_globals !! "LOG_FILE" = None /\
  (forall message w,
      write_log module_globals message w
      = (Raise (Exc NameError "name 'LOG_FILE' is not defined"),
         echoed message w)) /\
  (forall input_filepath config_filepath w,
      main_route_creator module_globals input_filepath config_filepath w
      = write_log module_globals "Route Creator Script started." w) /\
  (forall message w,
      files (echoed message w) = files w /\ offline w (echoed message w)) /\
  (forall input_filepath config_filepath w,
      script module_globals input_filepath config_filepath w
      = write_log module_globals "Route Creator Script started." w /\
      exit_status (script module_globals input_filepath config_filepath w).1 = 1).
Proof.
  pose proof LOG_FILE_unbound as HG.
  assert (Hmain : forall i c w,
             main_route_creator module_globals i c w
             = write_log module_globals "Route Creator Script started." w).
  { intros i c w. unfold main_route_creator.
    rewrite (write_log_unbound _ _ _ HG).
    apply bind_raise. now apply write_log_unbound. }
  split; [exact HG|]. split.
  { intros message w. now apply write_log_unbound. }
  split; [exact Hmain|]. split.
  { intros message w. split; [reflexivity | split; reflexivity]. }
  intros i c w.
  assert (Hs : script module_globals i c w
               = write_log module_globals "Route Creator Script started." w).
  { unfold script, try_except. rewrite Hmain.
    rewrite (write_log_unbound _ _ _ HG).
    unfold global. rewrite HG. reflexivity. }
  split; [exact Hs|]. rewrite Hs.
  now rewrite (write_log_unbound _ _ _ HG).
Qed.

End Unbound_LOG_FILE.

(** ** C2: route identifiers *)

Section Route_identifiers.
Import Text Py Routes Observe TextFacts.

Lemma selected_route_id_shape (config : config_t) (display_name : option string)
    (counter : Z) :
  selected_route_id config display_name counter
  = default EmptyString (route_name_prefix config)
    +:+ route_stem display_name +:+ "-" +:+ str_of_Z counter.
Proof.
  unfold selected_route_id, route_stem.
  destruct display_name as [name|]; [destruct (is_empty name)|]; reflexivity.
Qed.

(** Equal identifiers have equal counters, whatever the labels. *)
Lemma selected_route_id_counter (config : config_t) (l1 l2 : option string)
    (c1 c2 : Z) :
  0 <= c1 -> 0 <= c2 ->
  selected_route_id config l1 c1 = selected_route_id config l2 c2 -> c1 = c2.
Proof.
  intros H1 H2 E.
  rewrite !selected_route_id_shape in E.
  apply append_inv_head in E.
  apply split_at_last_hyphen in E as [_ E]; try now apply str_of_Z_digits.
  now apply str_of_Z_inj.
Qed.

(** C2.  Within a run (one configuration, hence one prefix) two route
    identifiers with different sequence counters differ, whatever the two
    labels are: equal labels, different labels or none.  The counters are
    row counts, so they are not negative. *)
Theorem route_ids_distinct (config : config_t) (l1 l2 : option string) (c1 c2 : Z) :
  0 <= c1 -> 0 <= c2 -> c1 <> c2 ->
  selected_route_id config l1 c1 <> selected_route_id config l2 c2.
Proof.
  intros H1 H2 Hne E. apply Hne.
  rewrite !selected_route_id_shape in E.
  apply append_inv_head in E.
  apply split_at_last_hyphen in E as [_ E]; try now apply str_of_Z_digits.
  now apply str_of_Z_inj.
Qed.

(** Two rows with the same label, counters 1 and 2. *)
Lemma route_ids_distinct_witness :
  0 <= 1 /\ 0 <= 2 /\
  selected_route_id (Sample.config_with "boston-" 100) (Some "Elm St") 1
  <> selected_route_id (Sample.config_with "boston-" 100) (Some "Elm St") 2.
Proof.
  split; [lia|]. split; [lia|].
  apply (route_ids_distinct (Sample.config_with "boston-" 100)
           (Some "Elm St") (Some "Elm St") 1 2); lia.
Defined.

End Route_identifiers.

(** ** Reading the CSV file *)

Module ParseFacts.
Import Text Py Routes Observe LogFacts.

Section ParseFacts.
Context `{R : Runtime}.
Variable G : gmap string gval.

Lemma getitem_Some {V : Type} (d : gmap string V) (key : string) (v : V) (w : world) :
  d !! key = Some v -> getitem d key w = (Ret v, w).
Proof. intros H. unfold getitem. now rewrite H. Qed.

Lemma getitem_None {V : Type} (d : gmap string V) (key : string) (w : world) :
  d !! key = None -> getitem d key w = (Raise (Exc KeyError (repr_str key)), w).
Proof. intros H. unfold getitem. now rewrite H. Qed.

(** The file is there and decodes: [read_csv] yields its records. *)
Lemma read_csv_ok (path bytes text : string) (w : world) :
  files w !! path = Some bytes ->
  Codec.utf_8_sig_decode bytes = Some text ->
  read_csv path w = (Ret (Csv.reader_rows (Codec.universal_newlines text)), w).
Proof.
  intros Hf Hd. unfold read_csv, read_file, mbind, M_bind, bind.
  now rewrite Hf, Hd.
Qed.

(** Both columns of the combined encoding are in the header: the test of
    lines 114-117 sets [use_combined]. *)
Lemma detect_combined_true (fmt : csv_format_t) (cols : gmap string string)
    (ocol dcol : string) (names : list string) (w : world) :
  combined_coordinates fmt = Some cols ->
  cols !! "origin_coord_column" = Some ocol ->
  cols !! "destination_coord_column" = Some dcol ->
  ocol ∈ names -> dcol ∈ names ->
  detect_combined fmt (Some names) w = (Ret true, w).
Proof.
  intros Hc Ho Hd Hio Hid. unfold detect_combined. rewrite Hc.
  unfold mbind, M_bind, bind.
  rewrite (getitem_Some _ _ _ _ Ho). cbn [contains ret].
  unfold isin. rewrite (bool_decide_eq_true_2 _ Hio).
  rewrite (getitem_Some _ _ _ _ Hd). cbn [contains ret].
  now rewrite (bool_decide_eq_true_2 _ Hid).
Qed.

(** ... and then the test of lines 119-122 is not made at all. *)
Lemma detect_separate_skipped (fmt : csv_format_t) (headers : option (list string))
    (w : world) :
  detect_separate true fmt headers w = (Ret false, w).
Proof. reflexivity. Qed.

(** One row under the combined encoding whose two cells hold a match and
    whose four numbers [float] accepts. *)
Lemma parse_row_combined (fmt : csv_format_t) (use_separate : bool)
    (cols : gmap string string) (ocol dcol ocell dcell o1 o2 d1 d2 : string)
    (x1 x2 y1 y2 : pyfloat) (row : gmap string (option string)) (w : world) :
  combined_coordinates fmt = Some cols ->
  cols !! "origin_coord_column" = Some ocol ->
  cols !! "destination_coord_column" = Some dcol ->
  row !! ocol = Some (Some ocell) ->
  row !! dcol = Some (Some dcell) ->
  CoordRegex.search ocell = Some (o1, o2) ->
  CoordRegex.search dcell = Some (d1, d2) ->
  float_of_str o1 = Some x1 -> float_of_str o2 = Some x2 ->
  float_of_str d1 = Some y1 -> float_of_str d2 = Some y2 ->
  parse_row fmt true use_separate row w
  = (Ret ((x1, x2), (y1, y2),
          match segment_name_column fmt with
          | Some col => if is_empty col then None else mjoin (row !! col)
          | None => None
          end), w).
Proof.
  intros Hc Ho Hd Hro Hrd Hso Hsd Hx1 Hx2 Hy1 Hy2.
  unfold parse_row. rewrite Hc. cbn [require_columns].
  unfold mbind at 1, M_bind, bind. cbn [ret].
  unfold mbind at 1, M_bind, bind. rewrite (getitem_Some _ _ _ _ Ho).
  unfold mbind at 1, M_bind, bind. rewrite (getitem_Some _ _ _ _ Hro).
  unfold mbind at 1, M_bind, bind. rewrite (getitem_Some _ _ _ _ Hd).
  unfold mbind at 1, M_bind, bind. rewrite (getitem_Some _ _ _ _ Hrd).
  unfold regex_search, mbind, M_bind, bind. cbn [ret].
  rewrite Hso, Hsd. unfold float_str. rewrite Hx1, Hx2, Hy1, Hy2.
  reflexivity.
Qed.

(** A row that parses is appended and the loop goes on with the next
    line number. *)
Lemma parse_rows_cons_ok (fmt : csv_format_t) (use_combined use_separate : bool)
    (names : list string) (line_num : Z) (rec : list string)
    (recs : list (list string)) (parsed_data : list coord_record)
    (r : coord_record) (w : world) :
  parse_row fmt use_combined use_separate (Csv.row_dict names rec) w = (Ret r, w) ->
  parse_rows G fmt use_combined use_separate names line_num (rec :: recs) parsed_data w
  = parse_rows G fmt use_combined use_separate names (line_num + 1) recs
      (parsed_data ++ [r]) w.
Proof.
  intros H. cbn [parse_rows].
  unfold mbind at 1, M_bind, bind, try_except.
  unfold mbind, M_bind, bind. rewrite H. reflexivity.
Qed.

(** The file is read, its header holds both columns of the combined
    encoding: the rows are parsed under the combined encoding. *)
Lemma parse_coordinate_file_combined (path bytes text : string) (config : config_t)
    (cols : gmap string string) (ocol dcol : string) (names : list string)
    (recs : list (list string)) (w : world) :
  files w !! path = Some bytes ->
  Codec.utf_8_sig_decode bytes = Some text ->
  Csv.reader_rows (Codec.universal_newlines text) = names :: recs ->
  combined_coordinates (csv_format_of config) = Some cols ->
  cols !! "origin_coord_column" = Some ocol ->
  cols !! "destination_coord_column" = Some dcol ->
  ocol ∈ names -> dcol ∈ names ->
  parse_coordinate_file G path config w
  = (parse_rows G (csv_format_of config) true false names 2
       (Csv.data_records (names :: recs)) [] ≫= λ parsed_data, ret (Some parsed_data)) w.
Proof.
  intros Hf Hdec Hrows Hc Ho Hd Hio Hid.
  unfold parse_coordinate_file.
  unfold mbind at 1, M_bind, bind.
  rewrite (read_csv_ok _ _ _ _ Hf Hdec), Hrows. cbn [Csv.fieldnames head].
  unfold mbind at 1, M_bind, bind.
  rewrite (detect_combined_true _ _ _ _ _ _ Hc Ho Hd Hio Hid).
  unfold mbind at 1, M_bind, bind.
  rewrite detect_separate_skipped. reflexivity.
Qed.

End ParseFacts.

End ParseFacts.

(** ** C5, C6, C10: extraction under the combined encoding *)

Section Combined_encoding.
Import Text Py Routes Observe LogFacts ParseFacts RegexFacts.
Context `{R : Runtime}.

(** Under [use_combined] a row is read from the combined columns and the
    label column alone. *)
Lemma parse_row_ignores_separate (fmt fmt' : csv_format_t) (b b' : bool)
    (row : gmap string (option string)) :
  segment_name_column fmt = segment_name_column fmt' ->
  combined_coordinates fmt = combined_coordinates fmt' ->
  parse_row fmt true b row = parse_row fmt' true b' row.
Proof. intros Hs Hc. unfold parse_row. now rewrite Hs, Hc. Qed.

Lemma parse_rows_ignores_separate (G : gmap string gval) (fmt fmt' : csv_format_t)
    (b b' : bool) (names : list string) (recs : list (list string)) :
  segment_name_column fmt = segment_name_column fmt' ->
  combined_coordinates fmt = combined_coordinates fmt' ->
  forall line_num parsed_data w,
    parse_rows G fmt true b names line_num recs parsed_data w
    = parse_rows G fmt' true b' names line_num recs parsed_data w.
Proof.
  intros Hs Hc. induction recs as [|rec recs IH]; intros line_num parsed_data w.
  - reflexivity.
  - cbn [parse_rows]. unfold mbind, M_bind, bind.
    rewrite (parse_row_ignores_separate fmt fmt' b b' _ Hs Hc).
    destruct (try_except _ _ w) as [[parsed_data'|e] w']; [apply IH | reflexivity].
Qed.

(** C6.  When the header of the file holds both columns that the
    configuration names for the combined encoding, [parse_coordinate_file]
    reads the rows under the combined encoding, whether or not the header
    also holds the four columns of the separate encoding: the test for
    the combined columns sets [use_combined], the test for the separate
    columns is then skipped, and the outcome is the same whatever the
    configuration says about the separate encoding. *)
Theorem combined_encoding_has_priority (G : gmap string gval)
    (path bytes text : string) (config : config_t) (cols : gmap string string)
    (ocol dcol : string) (names : list string) (recs : list (list string))
    (w : world) :
  files w !! path = Some bytes ->
  Codec.utf_8_sig_decode bytes = Some text ->
  Csv.reader_rows (Codec.universal_newlines text) = names :: recs ->
  combined_coordinates (csv_format_of config) = Some cols ->
  cols !! "origin_coord_column" = Some ocol ->
  cols !! "destination_coord_column" = Some dcol ->
  ocol ∈ names -> dcol ∈ names ->
  detect_combined (csv_format_of config) (Some names) w = (Ret true, w) /\
  detect_separate true (csv_format_of config) (Some names) w = (Ret false, w) /\
  parse_coordinate_file G path config w
  = (parse_rows G (csv_format_of config) true false names 2
       (Csv.data_records (names :: recs)) []
     ≫= λ parsed_data, ret (Some parsed_data)) w /\
  forall sep,
    parse_coordinate_file G path (with_separate sep config) w
    = parse_coordinate_file G path config w.
Proof.
  intros Hf Hdec Hrows Hc Ho Hd Hio Hid.
  split; [now apply (detect_combined_true _ cols ocol dcol)|].
  split; [reflexivity|].
  split; [now apply (parse_coordinate_file_combined G _ bytes text _ cols ocol dcol)|].
  intros sep.
  rewrite (parse_coordinate_file_combined G _ bytes text config cols ocol dcol
             names recs w) by assumption.
  rewrite (parse_coordinate_file_combined G _ bytes text (with_separate sep config)
             cols ocol dcol names recs w) by assumption.
  unfold mbind, M_bind, bind.
  rewrite (parse_rows_ignores_separate G (csv_format_of (with_separate sep config))
             (csv_format_of config) false false); reflexivity.
Qed.

(** C5.  The worked example: the file with header [name,origin,dest] and
    the one row ["Main St Bridge","(42.35, -71.06)","(42.36, -71.05)"],
    read under the combined encoding with the label in column [name] and
    the prefix [boston-].  Extraction yields one record, whose origin is
    the pair of floats read from 42.35 and -71.06 and whose destination
    is the pair read from 42.36 and -71.05; with counter 1 the record gets
    the identifier [boston-main-st-bridge-1], and the body of its request
    carries origin latitude 42.35 and longitude -71.06. *)
Theorem bridge_example (G : gmap string gval) (path : string) (w : world)
    (project : option string) (sep : option (gmap string string))
    (cap : option Z) (logf : option string) (lat lon dlat dlon : pyfloat) :
  files w !! path = Some Sample.bridge_csv ->
  float_of_str "42.35" = Some lat ->
  float_of_str "-71.06" = Some lon ->
  float_of_str "42.36" = Some dlat ->
  float_of_str "-71.05" = Some dlon ->
  let config :=
    mk_config project
      (Some (mk_csv_format (Some "name") (Some Sample.combined_cols) sep))
      (Some "boston-") cap logf in
  parse_coordinate_file G path config w
  = (Ret (Some [((lat, lon), (dlat, dlon), Some "Main St Bridge")]), w) /\
  selected_route_id config (Some "Main St Bridge") 1 = "boston-main-st-bridge-1" /\
  forall token google_project_id,
    let rq := build_request token (lat, lon) (dlat, dlon) (Some "Main St Bridge") 1
                google_project_id config in
    url rq = "https://roads.googleapis.com/selection/v1/projects/"
             +:+ google_project_id
             +:+ "/selectedRoutes?selectedRouteId=boston-main-st-bridge-1" /\
    latitude (origin (dynamic_route (json rq))) = lat /\
    longitude (origin (dynamic_route (json rq))) = lon /\
    latitude (destination (dynamic_route (json rq))) = dlat /\
    longitude (destination (dynamic_route (json rq))) = dlon.
Proof.
  intros Hf H1 H2 H3 H4 config.
  split; [|split; [reflexivity | intros token pid; repeat split]].
  assert (Hrows : Csv.reader_rows (Codec.universal_newlines Sample.bridge_csv)
                  = [["name"; "origin"; "dest"];
                     ["Main St Bridge"; "(42.35, -71.06)"; "(42.36, -71.05)"]])
    by (vm_compute; reflexivity).
  assert (Hdec : Codec.utf_8_sig_decode Sample.bridge_csv = Some Sample.bridge_csv)
    by (vm_compute; reflexivity).
  assert (Hocol : Sample.combined_cols !! "origin_coord_column" = Some "origin")
    by (vm_compute; reflexivity).
  assert (Hdcol : Sample.combined_cols !! "destination_coord_column" = Some "dest")
    by (vm_compute; reflexivity).
  assert (Hio : "origin" ∈ ["name"; "origin"; "dest"]) by (repeat constructor).
  assert (Hid : "dest" ∈ ["name"; "origin"; "dest"]) by (repeat constructor).
  rewrite (parse_coordinate_file_combined G path _ _ config _ _ _ _ _ w
             Hf Hdec Hrows eq_refl Hocol Hdcol Hio Hid).
  assert (Hdata : Csv.data_records
                    [["name"; "origin"; "dest"];
                     ["Main St Bridge"; "(42.35, -71.06)"; "(42.36, -71.05)"]]
                  = [["Main St Bridge"; "(42.35, -71.06)"; "(42.36, -71.05)"]])
    by (vm_compute; reflexivity).
  rewrite Hdata. unfold mbind, M_bind, bind.
  set (row := Csv.row_dict ["name"; "origin"; "dest"]
                ["Main St Bridge"; "(42.35, -71.06)"; "(42.36, -71.05)"]).
  assert (Hro : row !! "origin" = Some (Some "(42.35, -71.06)"))
    by (vm_compute; reflexivity).
  assert (Hrd : row !! "dest" = Some (Some "(42.36, -71.05)"))
    by (vm_compute; reflexivity).
  assert (Hrn : row !! "name" = Some (Some "Main St Bridge"))
    by (vm_compute; reflexivity).
  assert (Hso : CoordRegex.search "(42.35, -71.06)" = Some ("42.35", "-71.06"))
    by (vm_compute; reflexivity).
  assert (Hsd : CoordRegex.search "(42.36, -71.05)" = Some ("42.36", "-71.05"))
    by (vm_compute; reflexivity).
  rewrite (parse_rows_cons_ok G _ _ _ _ _ _ _ _
             ((lat, lon), (dlat, dlon), Some "Main St Bridge")); [reflexivity|].
  fold row.
  rewrite (parse_row_combined (csv_format_of config) false Sample.combined_cols
             "origin" "dest" _ _ _ _ _ _ lat lon dlat dlon row w
             eq_refl Hocol Hdcol Hro Hrd Hso Hsd H1 H2 H3 H4).
  cbn [csv_format_of csv_format config default from_option id
       segment_name_column is_empty].
  now rewrite Hrn.
Qed.

End Combined_encoding.

Section Combined_encoding_examples.
Import Text Py Routes Observe.

(** The example in the sample run-time system, where [float] reads 42.35
    as 4235 / 10^2. *)
Lemma bridge_example_witness :
  let R := Sample.runtime None Sample.gcloud_ok Sample.server_created in
  let w := Sample.fresh_world (<["segments.csv" := Sample.bridge_csv]> ∅) in
  let config := Sample.config_with "boston-" 100 in
  parse_coordinate_file module_globals "segments.csv" config w
  = (Ret (Some [((Sample.mk_decimal 4235 2, Sample.mk_decimal (-7106) 2),
                 (Sample.mk_decimal 4236 2, Sample.mk_decimal (-7105) 2),
                 Some "Main St Bridge")]), w) /\
  selected_route_id config (Some "Main St Bridge") 1 = "boston-main-st-bridge-1".
Proof.
  intros R0 w config.
  pose proof (@bridge_example R0 module_globals "segments.csv" w
                (Some "demo-project") None (Some 100) (Some "route_creator_log.txt")
                (Sample.mk_decimal 4235 2) (Sample.mk_decimal (-7106) 2)
                (Sample.mk_decimal 4236 2) (Sample.mk_decimal (-7105) 2)
                eq_refl eq_refl eq_refl eq_refl eq_refl) as H.
  split; [exact (proj1 H) | exact (proj1 (proj2 H))].
Defined.

(** A file with the columns of both encodings, a configuration that
    names both. *)
Lemma combined_encoding_has_priority_witness :
  let R := Sample.runtime None Sample.gcloud_ok Sample.server_created in
  let w := Sample.fresh_world (<["segments.csv" := Sample.both_csv]> ∅) in
  let names := ["name"; "origin"; "dest"; "olat"; "olon"; "dlat"; "dlon"] in
  Forall (fun col => Text.isin col names = true)
    ["origin"; "dest"; "olat"; "olon"; "dlat"; "dlon"] /\
  detect_combined (csv_format_of Sample.config_both) (Some names) w = (Ret true, w) /\
  forall sep,
    parse_coordinate_file module_globals "segments.csv"
      (with_separate sep Sample.config_both) w
    = parse_coordinate_file module_globals "segments.csv" Sample.config_both w.
Proof.
  intros R0 w names.
  pose proof (@combined_encoding_has_priority R0 module_globals "segments.csv"
                Sample.both_csv Sample.both_csv Sample.config_both
                Sample.combined_cols "origin" "dest" names
                [["Oak St"; "(1.5,2.5)"; "(3.5,4.5)"; "9.5"; "8.5"; "7.5"; "6.5"]]
                w eq_refl eq_refl eq_refl eq_refl eq_refl eq_refl
                ltac:(repeat constructor) ltac:(repeat constructor)) as H.
  split; [repeat constructor|].
  split; [exact (proj1 H) | exact (proj2 (proj2 (proj2 H)))].
Defined.

End Combined_encoding_examples.

(** ** C10: the coordinate pattern is searched for, not matched in full *)

Section Pattern_search.
Import Text Py Routes Observe CoordRegex RegexFacts TextFacts ParseFacts.
Context `{R : Runtime}.

(** A run of digits alone, with a point after it, or with a minus sign
    before it, is a number of the pattern. *)
Lemma number_shapes (ds : string) :
  ds <> EmptyString -> digits ds ->
  number ds /\ number (ds +:+ ".") /\ number ("-" +:+ ds).
Proof.
  intros Hne Hds.
  pose proof (number_intro EmptyString ds EmptyString EmptyString
                (or_introl eq_refl) Hne Hds (or_introl eq_refl) eq_refl) as H1.
  pose proof (number_intro EmptyString ds "." EmptyString
                (or_introl eq_refl) Hne Hds (or_intror eq_refl) eq_refl) as H2.
  pose proof (number_intro "-" ds EmptyString EmptyString
                (or_intror eq_refl) Hne Hds (or_introl eq_refl) eq_refl) as H3.
  simpl in H1, H2, H3. rewrite ?append_nil_r in *. auto.
Qed.

(** A cell with a match somewhere has a leftmost one, and [search]
    returns its groups. *)
Lemma search_finds_leftmost (s pre g1 g2 : string) :
  match_at s pre g1 g2 ->
  exists h1 h2, search s = Some (h1, h2) /\ leftmost_match s h1 h2 /\
                number h1 /\ number h2.
Proof.
  intros H. destruct (search_complete s pre g1 g2 H) as (h1 & h2 & Hs).
  exists h1, h2. split; [exact Hs|]. split.
  - now apply search_leftmost.
  - apply search_leftmost in Hs as (p & (m & post & _ & Hm) & _).
    destruct Hm as (w1 & w2 & w3 & w4 & _ & _ & _ & _ & Hn1 & Hn2 & _). auto.
Qed.

(** C10.  Under the combined encoding a row parses as soon as each of its
    two cells holds, anywhere in it, a text that matches the pattern
    "( number , number )": the pattern is searched for, so what stands
    before and after the match is ignored.  The coordinates are the
    [float]s of the two groups of the leftmost match of each cell.  A
    number is an optional minus sign, digits, an optional point and more
    digits: a bare integer, an integer with a point after it and a
    negative one all qualify.  ([float] accepts every such numeral; the
    theorem takes that as its first premise.) *)
Theorem combined_cell_is_searched (fmt : csv_format_t) (use_separate : bool)
    (cols : gmap string string) (ocol dcol ocell dcell : string)
    (pre1 a1 a2 pre2 b1 b2 : string) (row : gmap string (option string)) :
  (forall g, number g -> is_Some (float_of_str g)) ->
  combined_coordinates fmt = Some cols ->
  cols !! "origin_coord_column" = Some ocol ->
  cols !! "destination_coord_column" = Some dcol ->
  row !! ocol = Some (Some ocell) ->
  row !! dcol = Some (Some dcell) ->
  match_at ocell pre1 a1 a2 ->
  match_at dcell pre2 b1 b2 ->
  (exists o1 o2 d1 d2 x1 x2 y1 y2 display_name,
      search ocell = Some (o1, o2) /\ leftmost_match ocell o1 o2 /\
      search dcell = Some (d1, d2) /\ leftmost_match dcell d1 d2 /\
      float_of_str o1 = Some x1 /\ float_of_str o2 = Some x2 /\
      float_of_str d1 = Some y1 /\ float_of_str d2 = Some y2 /\
      forall w, parse_row fmt true use_separate row w
                = (Ret ((x1, x2), (y1, y2), display_name), w)) /\
  (forall ds, ds <> EmptyString -> digits ds ->
              number ds /\ number (ds +:+ ".") /\ number ("-" +:+ ds)).
Proof.
  intros Hfloat Hc Ho Hd Hro Hrd Hm1 Hm2. split; [|exact number_shapes].
  destruct (search_finds_leftmost _ _ _ _ Hm1) as (o1 & o2 & Hso & Hlo & Hno1 & Hno2).
  destruct (search_finds_leftmost _ _ _ _ Hm2) as (d1 & d2 & Hsd & Hld & Hnd1 & Hnd2).
  destruct (Hfloat o1 Hno1) as [x1 Hx1]. destruct (Hfloat o2 Hno2) as [x2 Hx2].
  destruct (Hfloat d1 Hnd1) as [y1 Hy1]. destruct (Hfloat d2 Hnd2) as [y2 Hy2].
  exists o1, o2, d1, d2, x1, x2, y1, y2. eexists.
  repeat (split; [eassumption|]).
  intros w.
  apply (parse_row_combined fmt use_separate cols ocol dcol ocell dcell
           o1 o2 d1 d2 x1 x2 y1 y2 row w); assumption.
Qed.

End Pattern_search.

Section Pattern_search_example.
Import Text Py Routes Observe CoordRegex RegexFacts TextFacts.

(** The sample [float] accepts every numeral of the pattern. *)
Lemma decimal_accepts_numbers (g : string) :
  number g -> is_Some (Sample.decimal_of_str g).
Proof.
  intros Hn. unfold Sample.decimal_of_str.
  pose proof (match_number_complete g EmptyString Hn I) as H.
  rewrite append_nil_r in H. rewrite H.
  destruct (Sample.numeral_value g 0 None). eauto.
Defined.

Lemma match_at_intro (pre w1 g1 w2 w3 g2 w4 post : string) :
  spaces w1 -> spaces w2 -> spaces w3 -> spaces w4 -> number g1 -> number g2 ->
  match_at (pre +:+ ("(" +:+ w1 +:+ g1 +:+ w2 +:+ "," +:+ w3 +:+ g2 +:+ w4 +:+ ")")
            +:+ post) pre g1 g2.
Proof.
  intros. eexists _, post. split; [reflexivity|].
  exists w1, w2, w3, w4. repeat split; assumption.
Defined.

(** A row whose origin cell carries text around the pair, a bare integer
    and a negative number with a point after it, and whose destination
    cell holds two pairs. *)
Lemma combined_cell_is_searched_witness :
  let R := Sample.runtime None Sample.gcloud_ok Sample.server_created in
  let fmt := mk_csv_format None (Some Sample.combined_cols) None in
  let row : gmap string (option string) :=
    <["origin" := Some "from ( 7 ,-3.) north"]>
      (<["dest" := Some "(1.5,2.5) or (9,9)"]> ∅) in
  search "from ( 7 ,-3.) north" = Some ("7", "-3.") /\
  search "(1.5,2.5) or (9,9)" = Some ("1.5", "2.5") /\
  exists x1 x2 y1 y2 display_name,
  forall w, parse_row fmt true false row w
            = (Ret ((x1, x2), (y1, y2), display_name), w).
Proof.
  intros R0 fmt row.
  assert (Hd : forall s, forallb_str is_digit s = true -> digits s) by (intros; assumption).
  assert (n7 : number "7").
  { apply (number_intro EmptyString "7" EmptyString EmptyString); auto; discriminate. }
  assert (n3 : number "-3.").
  { apply (number_intro "-" "3" "." EmptyString); auto; discriminate. }
  assert (n15 : number "1.5").
  { apply (number_intro EmptyString "1" "." "5"); auto; discriminate. }
  assert (n25 : number "2.5").
  { apply (number_intro EmptyString "2" "." "5"); auto; discriminate. }
  pose proof (@combined_cell_is_searched R0 fmt false Sample.combined_cols
                "origin" "dest" "from ( 7 ,-3.) north" "(1.5,2.5) or (9,9)"
                "from " "7" "-3." EmptyString "1.5" "2.5" row
                decimal_accepts_numbers eq_refl eq_refl eq_refl eq_refl eq_refl
                (match_at_intro "from " " " "7" " " EmptyString "-3." EmptyString
                   " north" eq_refl eq_refl eq_refl eq_refl n7 n3)
                (match_at_intro EmptyString EmptyString "1.5" EmptyString EmptyString
                   "2.5" EmptyString " or (9,9)" eq_refl eq_refl eq_refl eq_refl
                   n15 n25)) as [H _].
  destruct H as (o1 & o2 & d1 & d2 & x1 & x2 & y1 & y2 & name & _ & _ & _ & _
                 & _ & _ & _ & _ & H).
  split; [reflexivity|]. split; [reflexivity|].
  exists x1, x2, y1, y2, name. exact H.
Defined.

End Pattern_search_example.

(** ** Frames: what a computation leaves alone

    [stable P m]: whatever [m] does, the world it leaves is related to
    the world it found by [P].  For a preorder [P] that the primitives of
    logging respect, so do the functions that only log and read. *)

Module Frame.
Import Text Py Routes Observe LogFacts TextFacts.

Section Stable.
Context `{R : Runtime}.
Variable P : world -> world -> Prop.
Hypothesis P_refl : forall w, P w w.
Hypothesis P_trans : forall w1 w2 w3, P w1 w2 -> P w2 w3 -> P w1 w3.

Lemma stable_ret {A : Type} (a : A) : stable P (ret a).
Proof. intros w. apply P_refl. Qed.

Lemma stable_raise {A : Type} (e : exn) : stable P (@raise R A e).
Proof. intros w. apply P_refl. Qed.

Lemma stable_sys_exit {A : Type} (code : Z) : stable P (@sys_exit R A code).
Proof. intros w. apply P_refl. Qed.

Lemma stable_bind {A B : Type} (m : M A) (k : A -> M B) :
  stable P m -> (forall a, stable P (k a)) -> stable P (m ≫= k).
Proof.
  intros Hm Hk w. unfold mbind, M_bind, bind.
  specialize (Hm w). destruct (m w) as [[a|e] w']; simpl in *.
  - eapply P_trans; [exact Hm | apply Hk].
  - exact Hm.
Qed.

Lemma stable_try_except {A : Type} (body : M A)
    (handler : exn_class -> string -> option (M A)) :
  stable P body ->
  (forall c msg h, handler c msg = Some h -> stable P h) ->
  stable P (try_except body handler).
Proof.
  intros Hb Hh w. unfold try_except.
  specialize (Hb w).
  destruct (body w) as [[a|[c msg|code|]] w']; simpl in *; try exact Hb.
  destruct (handler c msg) as [h|] eqn:E; simpl; [|exact Hb].
  eapply P_trans; [exact Hb | now apply (Hh c msg h)].
Qed.

Ltac frame_step :=
  match goal with
  | |- stable _ (mbind _ _) => apply stable_bind; [| intros ?]
  | |- stable _ (try_except _ _) => apply stable_try_except; [| intros ? ? ? ?]
  | H : (if ?b then _ else _) = Some _ |- _ => destruct b
  | H : Some _ = Some _ |- _ => injection H as <-
  | H : None = Some _ |- _ => discriminate H
  | |- stable _ (if ?b then _ else _) => destruct b
  | |- stable _ (match ?x with _ => _ end) => destruct x
  end.

Lemma stable_getitem {V : Type} (d : gmap string V) (key : string) :
  stable P (getitem d key).
Proof. intros w. unfold getitem. destruct (d !! key); apply P_refl. Qed.

Lemma stable_read_file (path : string) : stable P (read_file path).
Proof. intros w. unfold read_file. destruct (files w !! path); apply P_refl. Qed.

(** The primitives of logging. *)
Hypothesis P_print : forall s, stable P (print s).
Hypothesis P_now : stable P now_strftime.
Hypothesis P_append : forall path text, stable P (append_file path text).

Variable G : gmap string gval.

Lemma stable_global (name : string) : stable P (global G name).
Proof. unfold global. destruct (G !! name); [apply stable_ret | apply stable_raise]. Qed.

Lemma stable_as_path (v : gval) : stable P (as_path v).
Proof. destruct v; [apply stable_ret | apply stable_raise]. Qed.

Lemma stable_write_log (message : string) : stable P (write_log G message).
Proof.
  unfold write_log.
  repeat first [ frame_step | apply P_now | apply P_print | apply P_append
               | apply stable_global | apply stable_as_path ].
Qed.

Lemma stable_load_config (filepath : string) : stable P (load_config G filepath).
Proof.
  unfold load_config.
  repeat first [ frame_step | apply stable_read_file | apply stable_ret
               | apply stable_raise | apply stable_write_log ].
Qed.

Lemma stable_contains (col : string) (headers : option (list string)) :
  stable P (contains col headers).
Proof. destruct headers; [apply stable_ret | apply stable_raise]. Qed.

Lemma stable_all_contained (cols : list string) (headers : option (list string)) :
  stable P (all_contained cols headers).
Proof.
  induction cols as [|col cols IH]; cbn [all_contained]; [apply stable_ret|].
  apply stable_bind; [apply stable_contains|].
  intros [|]; [exact IH | apply stable_ret].
Qed.

Lemma stable_detect_combined (fmt : csv_format_t) (headers : option (list string)) :
  stable P (detect_combined fmt headers).
Proof.
  unfold detect_combined.
  repeat first [ frame_step | apply stable_getitem | apply stable_contains
               | apply stable_ret ].
Qed.

Lemma stable_detect_separate (b : bool) (fmt : csv_format_t)
    (headers : option (list string)) :
  stable P (detect_separate b fmt headers).
Proof.
  unfold detect_separate.
  repeat first [ frame_step | apply stable_getitem | apply stable_all_contained
               | apply stable_ret ].
Qed.

Lemma stable_float_str (s : string) : stable P (float_str s).
Proof. unfold float_str. destruct (float_of_str s); [apply stable_ret | apply stable_raise]. Qed.

Lemma stable_float_cell (cell : option string) : stable P (float_cell cell).
Proof. destruct cell; [apply stable_float_str | apply stable_raise]. Qed.

Lemma stable_regex_search (cell : option string) : stable P (regex_search cell).
Proof. destruct cell; [apply stable_ret | apply stable_raise]. Qed.

Lemma stable_require_columns (key : string) (d : option (gmap string string)) :
  stable P (require_columns key d).
Proof. destruct d; [apply stable_ret | apply stable_raise]. Qed.

Lemma stable_parse_row (fmt : csv_format_t) (b1 b2 : bool)
    (row : gmap string (option string)) :
  stable P (parse_row fmt b1 b2 row).
Proof.
  unfold parse_row.
  repeat first [ frame_step | apply stable_getitem | apply stable_require_columns
               | apply stable_regex_search | apply stable_float_str
               | apply stable_float_cell | apply stable_ret | apply stable_raise ].
Qed.

Lemma stable_parse_rows (fmt : csv_format_t) (b1 b2 : bool) (names : list string)
    (recs : list (list string)) :
  forall line_num parsed_data,
    stable P (parse_rows G fmt b1 b2 names line_num recs parsed_data).
Proof.
  induction recs as [|rec recs IH]; intros line_num parsed_data; cbn [parse_rows].
  - apply stable_ret.
  - apply stable_bind; [|intros ?; apply IH].
    repeat first [ frame_step | apply stable_parse_row | apply stable_ret
                 | apply stable_write_log ].
Qed.

Lemma stable_read_csv (path : string) : stable P (read_csv path).
Proof.
  unfold read_csv.
  repeat first [ frame_step | apply stable_read_file | apply stable_ret
               | apply stable_raise ].
Qed.

Lemma stable_parse_coordinate_file (path : string) (config : config_t) :
  stable P (parse_coordinate_file G path config).
Proof.
  unfold parse_coordinate_file.
  repeat first [ frame_step | apply stable_read_csv | apply stable_detect_combined
               | apply stable_detect_separate | apply stable_parse_rows
               | apply stable_write_log | apply stable_ret ].
Qed.

(** The primitives of the batch loop. *)
Hypothesis P_sleep : stable P sleep.
Hypothesis P_run_gcloud : stable P run_gcloud.
Hypothesis P_post : forall rq, stable P (post rq).

Lemma stable_get_gcloud_token : stable P (get_gcloud_token G).
Proof.
  unfold get_gcloud_token.
  repeat first [ frame_step | apply P_run_gcloud | apply stable_ret
               | apply stable_raise | apply stable_write_log
               | match goal with |- stable _ (let '(_, _) := ?p in _) => destruct p end ].
Qed.

Lemma stable_create_route_segment (token : string) (o d : pyfloat * pyfloat)
    (name : option string) (counter : Z) (pid : string) (config : config_t) :
  stable P (create_route_segment G token o d name counter pid config).
Proof.
  unfold create_route_segment.
  repeat first [ frame_step | apply P_post | apply stable_ret
               | apply stable_raise | apply stable_write_log
               | match goal with |- stable _ (let '(_, _) := ?p in _) => destruct p end ].
Qed.

Lemma stable_batch_loop (max_routes : Z) (pid : string) (config : config_t)
    (data : list coord_record) :
  forall created attempted,
    stable P (batch_loop G max_routes pid config data created attempted).
Proof.
  induction data as [|[[o d] name] data IH]; intros created attempted;
    cbn [batch_loop].
  - apply stable_ret.
  - destruct (created >=? max_routes).
    + apply stable_bind; [apply stable_write_log | intros ?; apply stable_ret].
    + apply stable_bind.
      * repeat first [ frame_step | apply stable_get_gcloud_token | apply stable_ret
                     | apply stable_write_log ].
      * intros [token|]; [|apply stable_ret].
        apply stable_bind; [apply stable_create_route_segment|].
        intros ok. apply stable_bind; [exact P_sleep | intros ?; apply IH].
Qed.

End Stable.

End Frame.

(** ** C9: the activity log *)

Module FsFacts.
Import Text Py Routes Observe.

Section FsFacts.
Context `{R : Runtime}.

(** Two spellings of one file read the same bytes. *)
Lemma fs_lookup_same (fs : file_system) (p q : string) :
  same_file p q -> fs !! p = fs !! q.
Proof. unfold same_file, lookup, fs_lookup. now intros ->. Qed.

Lemma fs_lookup_insert_eq (fs : file_system) (p : string) (data : string) :
  <[p := data]> fs !! p = Some data.
Proof. unfold lookup, fs_lookup, insert, fs_insert. cbn. apply lookup_insert_eq. Qed.

Lemma fs_lookup_insert_same (fs : file_system) (p q : string) (data : string) :
  same_file q p -> <[p := data]> fs !! q = Some data.
Proof.
  intros H. rewrite (fs_lookup_same _ q p H). apply fs_lookup_insert_eq.
Qed.

Lemma fs_lookup_insert_ne (fs : file_system) (p q : string) (data : string) :
  ~ same_file q p -> <[p := data]> fs !! q = fs !! q.
Proof.
  unfold same_file, lookup, fs_lookup, insert, fs_insert. cbn. intros H.
  apply lookup_insert_ne. congruence.
Qed.

Lemma same_file_dec (p q : string) : {same_file p q} + {~ same_file p q}.
Proof. unfold same_file. apply String.string_dec. Qed.

End FsFacts.

End FsFacts.

Module AppendOnly.
Import Text Py Routes Observe LogFacts TextFacts Frame FsFacts.

Lemma continues_refl (a : string) : continues a a.
Proof. exists EmptyString. now rewrite append_nil_r. Qed.

Lemma continues_trans (a b c : string) : continues a b -> continues b c -> continues a c.
Proof. intros [t1 ->] [t2 ->]. exists (t1 +:+ t2). apply append_assoc. Qed.

Lemma continues_startswith (a b : string) :
  continues a b <-> startswith b a = true.
Proof.
  split.
  - intros [t ->]. induction a as [|c a IH]; simpl; [reflexivity|].
    now rewrite Ascii.eqb_refl.
  - revert b. induction a as [|c a IH]; intros b H.
    + now exists b.
    + destruct b as [|c' b]; simpl in H; [discriminate|].
      apply andb_prop in H as [Hc H]. apply Ascii.eqb_eq in Hc as <-.
      destruct (IH b H) as [t ->]. now exists t.
Qed.

Section AppendOnly.
Context `{R : Runtime}.

Lemma append_only_refl (w : world) : append_only w w.
Proof. intros path old H. exists old. split; [exact H | apply continues_refl]. Qed.

Lemma append_only_trans (w1 w2 w3 : world) :
  append_only w1 w2 -> append_only w2 w3 -> append_only w1 w3.
Proof.
  intros H12 H23 path old H.
  destruct (H12 path old H) as (mid & Hm & Hc1).
  destruct (H23 path mid Hm) as (new & Hn & Hc2).
  exists new. split; [exact Hn | now apply (continues_trans _ mid)].
Qed.

Lemma append_only_same_files (w w' : world) : files w' = files w -> append_only w w'.
Proof. intros E path old H. exists old. rewrite E. split; [exact H | apply continues_refl]. Qed.

Lemma append_only_print (s : string) : stable append_only (print s).
Proof. intros w. now apply append_only_same_files. Qed.

Lemma append_only_now : stable append_only now_strftime.
Proof. intros w. now apply append_only_same_files. Qed.

Lemma append_only_sleep : stable append_only sleep.
Proof. intros w. now apply append_only_same_files. Qed.

Lemma append_only_run_gcloud : stable append_only run_gcloud.
Proof.
  intros w. unfold run_gcloud.
  destruct (subprocess_run (gcloud_runs w)); now apply append_only_same_files.
Qed.

Lemma append_only_post (rq : request pyfloat) : stable append_only (post rq).
Proof.
  intros w. unfold post.
  destruct (requests_post (length (posted w)) rq); now apply append_only_same_files.
Qed.

(** Opening in mode ['a'] and writing: the file keeps what it held. *)
Lemma append_only_append_file (path text : string) :
  stable append_only (append_file path text).
Proof.
  intros w q old H. unfold append_file.
  destruct (open_for_writing path) as [[c msg]|]; cbn [snd set_files files].
  { exists old. split; [exact H | apply continues_refl]. }
  destruct (same_file_dec q path) as [Hs | Hne].
  - rewrite (fs_lookup_insert_same _ _ _ _ Hs).
    rewrite <- (fs_lookup_same _ q path Hs), H. cbn [default].
    eexists. split; [reflexivity|]. now eexists.
  - rewrite (fs_lookup_insert_ne _ _ _ _ Hne). exists old.
    split; [exact H | apply continues_refl].
Qed.

End AppendOnly.

End AppendOnly.

Section Log_file.
Import Text Py Routes Observe LogFacts TextFacts Frame AppendOnly FsFacts.
Context `{R : Runtime}.

Ltac append_only_frame lem :=
  intros; apply lem;
  first [ exact append_only_refl | exact append_only_trans
        | exact append_only_print | exact append_only_now
        | exact append_only_append_file | exact append_only_sleep
        | exact append_only_run_gcloud | exact append_only_post ].

Lemma append_only_write_log (G : gmap string gval) (message : string) :
  stable append_only (write_log G message).
Proof. append_only_frame stable_write_log. Qed.

Lemma append_only_load_config (G : gmap string gval) (path : string) :
  stable append_only (load_config G path).
Proof. append_only_frame stable_load_config. Qed.

Lemma append_only_parse_coordinate_file (G : gmap string gval) (path : string)
    (config : config_t) :
  stable append_only (parse_coordinate_file G path config).
Proof. append_only_frame stable_parse_coordinate_file. Qed.

Lemma append_only_get_gcloud_token (G : gmap string gval) :
  stable append_only (get_gcloud_token G).
Proof. append_only_frame stable_get_gcloud_token. Qed.

Lemma append_only_create_route_segment (G : gmap string gval) (token : string)
    (o d : pyfloat * pyfloat) (name : option string) (counter : Z) (pid : string)
    (config : config_t) :
  stable append_only (create_route_segment G token o d name counter pid config).
Proof. append_only_frame stable_create_route_segment. Qed.

Lemma append_only_batch_loop (G : gmap string gval) (max_routes : Z) (pid : string)
    (config : config_t) (data : list coord_record) (created attempted : Z) :
  stable append_only (batch_loop G max_routes pid config data created attempted).
Proof. append_only_frame stable_batch_loop. Qed.

(** What [main_route_creator] does once the log file has been reset
    only appends. *)
Lemma main_after_reset (G : gmap string gval) (input : string) (config : config_t)
    (pid : string) (max_routes : Z) :
  stable append_only (after_reset G input config pid max_routes).
Proof.
  unfold after_reset.
  apply (stable_bind _ append_only_trans);
    [apply append_only_parse_coordinate_file|].
  intros [[|r data]|].
  - apply append_only_write_log.
  - apply (stable_bind _ append_only_trans); [apply append_only_batch_loop|].
    intros [c a].
    repeat (apply (stable_bind _ append_only_trans);
            [apply append_only_write_log | intros ?]).
    apply append_only_write_log.
  - apply (stable_bind _ append_only_trans); [apply append_only_write_log|].
    intros ?. apply (stable_sys_exit _ append_only_refl).
Qed.

(** No logging call and no other step of a run removes or changes what
    a file already holds: [write_log] opens its target in append mode, and
    the token fetch, the submission, the loading of the configuration, the
    parsing and the batch loop touch files through [write_log] only.  The
    one exception is the reset in [main_route_creator]: once the first
    line is logged and a configuration with a project id is loaded, the
    configured log file is opened in write mode and, when it opens, left
    empty (lines 239-241); the run goes on from there, appending only.  A
    run that stops before that point, or in which that file does not
    open, has only appended. *)
Theorem log_grows_except_at_reset :
  (forall G message, stable append_only (write_log G message)) /\
  (forall G, stable append_only (get_gcloud_token G)) /\
  (forall G token o d name counter pid config,
      stable append_only (create_route_segment G token o d name counter pid config)) /\
  (forall G path, stable append_only (load_config G path)) /\
  (forall G path config, stable append_only (parse_coordinate_file G path config)) /\
  (forall G max_routes pid config data created attempted,
      stable append_only (batch_loop G max_routes pid config data created attempted)) /\
  (forall path w, files (reset_file path w) !! path = Some EmptyString) /\
  (forall G input config_path w w0 w1 config pid,
      write_log G "Route Creator Script started." w = (Ret tt, w0) ->
      load_config G config_path w0 = (Ret (Some config), w1) ->
      google_project_id config = Some pid -> is_empty pid = false ->
      writable (log_path config) ->
      main_route_creator G input config_path w
      = after_reset G input config pid (default 100 (max_routes_to_create config))
          (reset_file (log_path config) w1)) /\
  (forall G input config pid max_routes,
      stable append_only (after_reset G input config pid max_routes)) /\
  (forall G input config_path w,
      append_only w (main_route_creator G input config_path w).2 \/
      exists config pid w1,
        append_only w w1 /\ writable (log_path config) /\
        main_route_creator G input config_path w
        = after_reset G input config pid (default 100 (max_routes_to_create config))
            (reset_file (log_path config) w1)).
Proof.
  split; [exact append_only_write_log|].
  split; [exact append_only_get_gcloud_token|].
  split; [exact append_only_create_route_segment|].
  split; [exact append_only_load_config|].
  split; [exact append_only_parse_coordinate_file|].
  split; [exact append_only_batch_loop|].
  split; [intros path w; apply fs_lookup_insert_eq|].
  assert (Hreach : forall G input config_path w w0 w1 config pid,
      write_log G "Route Creator Script started." w = (Ret tt, w0) ->
      load_config G config_path w0 = (Ret (Some config), w1) ->
      google_project_id config = Some pid -> is_empty pid = false ->
      writable (log_path config) ->
      main_route_creator G input config_path w
      = after_reset G input config pid (default 100 (max_routes_to_create config))
          (reset_file (log_path config) w1)).
  { intros G input config_path w w0 w1 config pid Hlog Hload Hpid Hne Hw.
    unfold main_route_creator.
    rewrite (bind_ret _ _ _ _ _ Hlog), (bind_ret _ _ _ _ _ Hload), Hpid, Hne.
    rewrite (bind_ret _ _ w1 (reset_file (log_path config) w1) tt); [reflexivity|].
    unfold truncate_file. unfold writable, log_path in Hw. now rewrite Hw. }
  split; [exact Hreach|].
  split; [exact main_after_reset|].
  intros G input config_path w.
  pose proof (append_only_write_log G "Route Creator Script started." w) as H0.
  destruct (write_log G "Route Creator Script started." w) as [[[]|e] w0] eqn:Hlog.
  2:{ left. unfold main_route_creator. now rewrite (bind_raise _ _ _ _ _ Hlog). }
  pose proof (append_only_load_config G config_path w0) as H1.
  destruct (load_config G config_path w0) as [[loaded|e] w1] eqn:Hload.
  2:{ left. unfold main_route_creator.
      rewrite (bind_ret _ _ _ _ _ Hlog), (bind_raise _ _ _ _ _ Hload).
      now apply (append_only_trans _ w0). }
  simpl in H0, H1.
  assert (H01 : append_only w w1) by now apply (append_only_trans _ w0).
  destruct loaded as [config|].
  2:{ left. unfold main_route_creator.
      now rewrite (bind_ret _ _ _ _ _ Hlog), (bind_ret _ _ _ _ _ Hload). }
  destruct (google_project_id config) as [pid|] eqn:Hpid.
  2:{ left. unfold main_route_creator.
      rewrite (bind_ret _ _ _ _ _ Hlog), (bind_ret _ _ _ _ _ Hload), Hpid.
      apply (append_only_trans _ w1); [exact H01|].
      apply (stable_bind _ append_only_trans);
        [apply append_only_write_log | intros ?; apply (stable_sys_exit _ append_only_refl)]. }
  destruct (is_empty pid) eqn:Hne.
  { left. unfold main_route_creator.
    rewrite (bind_ret _ _ _ _ _ Hlog), (bind_ret _ _ _ _ _ Hload), Hpid, Hne.
    apply (append_only_trans _ w1); [exact H01|].
    apply (stable_bind _ append_only_trans);
      [apply append_only_write_log | intros ?; apply (stable_sys_exit _ append_only_refl)]. }
  destruct (open_for_writing (log_path config)) as [[c msg]|] eqn:Hw.
  { left. unfold main_route_creator.
    rewrite (bind_ret _ _ _ _ _ Hlog), (bind_ret _ _ _ _ _ Hload), Hpid, Hne.
    rewrite (bind_raise _ _ w1 w1 (Exc c msg)); [exact H01|].
    unfold truncate_file. unfold log_path in Hw. now rewrite Hw. }
  right. exists config, pid, w1. split; [exact H01|]. split; [exact Hw|].
  now apply (Hreach G input config_path w w0 w1 config pid).
Qed.

(** C9.  In the module as it stands no event is ever recorded.
    [write_log] prints its timestamped line to the console and then
    raises [NameError] where it opens the log file, so nothing is
    appended: after every call, and after every run of
    [main_route_creator] and of the script, every file holds exactly what
    it held before; the log file of the configuration is not even reset.
    Only the echo to the console takes place. *)
Theorem activity_log_is_never_written :
  (forall message w,
      (write_log module_globals message w).1 = Raise name_error /\
      console (write_log module_globals message w).2
      = console w ++ [strip (log_entry message w)] /\
      files (write_log module_globals message w).2 = files w) /\
  (forall input config_path w,
      (main_route_creator module_globals input config_path w).1 = Raise name_error /\
      files (main_route_creator module_globals input config_path w).2 = files w /\
      files (script module_globals input config_path w).2 = files w /\
      console (script module_globals input config_path w).2
      = console w ++ [strip (log_entry "Route Creator Script started." w)]).
Proof.
  pose proof LOG_FILE_unbound as HG.
  split.
  - intros message w. rewrite (write_log_unbound _ _ _ HG). repeat split.
  - intros input config_path w.
    assert (Hmain : main_route_creator module_globals input config_path w
                    = (Raise name_error,
                       echoed "Route Creator Script started." w)).
    { unfold main_route_creator. apply bind_raise. now apply write_log_unbound. }
    assert (Hs : script module_globals input config_path w
                 = (Raise name_error, echoed "Route Creator Script started." w)).
    { unfold script, try_except. rewrite Hmain. unfold name_error at 1.
      cbv beta iota. unfold global. rewrite HG. reflexivity. }
    rewrite Hmain, Hs. repeat split.
Qed.

End Log_file.

(** ** C3, C7: what the unbound name does to the batch loop *)

Section Unbound_in_the_loop.
Import Text Py Routes Observe LogFacts.
Context `{R : Runtime}.

Lemma get_gcloud_token_unbound (G : gmap string gval) (w : world) :
  G !! "LOG_FILE" = None ->
  get_gcloud_token G w
  = (Raise name_error,
     echoed "An unexpected error occurred during token generation: name 'LOG_FILE' is not defined"
       (echoed "Attempting to fetch gcloud access token..." w)).
Proof.
  intros HG. unfold get_gcloud_token, try_except.
  rewrite (bind_raise _ _ _ _ _ (write_log_unbound G _ w HG)).
  cbv beta iota.
  change (subclass NameError FileNotFoundError) with false. cbv beta iota.
  now rewrite (bind_raise _ _ _ _ _ (write_log_unbound G _ _ HG)).
Qed.

Lemma create_route_segment_unbound (G : gmap string gval) (token : string)
    (o d : pyfloat * pyfloat) (name : option string) (counter : Z) (pid : string)
    (config : config_t) (w : world) :
  G !! "LOG_FILE" = None ->
  create_route_segment G token o d name counter pid config w
  = (Raise name_error,
     echoed ("Attempting to create route: " +:+ selected_route_id config name counter
             +:+ " with Origin: " +:+ repr_pair o +:+ ", Dest: " +:+ repr_pair d) w).
Proof.
  intros HG. unfold create_route_segment.
  apply bind_raise. now apply write_log_unbound.
Qed.

(** C7, at the code.  In the module's namespace [create_route_segment]
    returns no boolean: for every token, record, counter, project id and
    configuration it echoes its first log line and raises [NameError]
    from the [write_log] call that stands before the [try]; no request is
    sent. *)
Theorem create_route_segment_raises_NameError (token : string)
    (o d : pyfloat * pyfloat) (name : option string) (counter : Z) (pid : string)
    (config : config_t) (w : world) :
  exists w',
    create_route_segment module_globals token o d name counter pid config w
    = (Raise name_error, w') /\
    posted w' = posted w /\ files w' = files w.
Proof.
  eexists. split; [apply create_route_segment_unbound, LOG_FILE_unbound|].
  split; reflexivity.
Qed.

(** In the module's namespace token acquisition never raises
    [TokenGenerationError]: the first [write_log] inside the [try]
    raises [NameError], the handler for [Exception] logs again and raises
    [NameError] in its turn, and [gcloud] is never run.  [NameError] is no
    [TokenGenerationError], so the loop's handler does not catch it. *)
Theorem token_fetch_raises_NameError (w : world) :
  exists w',
    get_gcloud_token module_globals w = (Raise name_error, w') /\
    gcloud_runs w' = gcloud_runs w /\ posted w' = posted w /\
    subclass NameError TokenGenerationError = false.
Proof.
  eexists. split; [apply get_gcloud_token_unbound, LOG_FILE_unbound|].
  repeat split; reflexivity.
Qed.

(** C3, at the code.  In the module's namespace the batch loop over a
    list that is not empty raises [NameError] in its first iteration,
    whatever the cap and the counters are: when the cap is reached, from
    the log line that says so; otherwise from the token fetch.  It sends
    no request and does not run [gcloud]. *)
Theorem batch_loop_raises_NameError (max_routes : Z) (pid : string)
    (config : config_t) (r : coord_record) (rest : list coord_record)
    (created attempted : Z) (w : world) :
  exists w',
    batch_loop module_globals max_routes pid config (r :: rest) created attempted w
    = (Raise name_error, w') /\
    posted w' = posted w /\ gcloud_runs w' = gcloud_runs w.
Proof.
  pose proof LOG_FILE_unbound as HG.
  destruct r as [[o d] name]. cbn [batch_loop].
  destruct (created >=? max_routes).
  - eexists. split.
    + apply bind_raise. now apply write_log_unbound.
    + split; reflexivity.
  - eexists. split.
    + apply bind_raise. unfold try_except.
      rewrite (bind_raise _ _ _ _ _ (get_gcloud_token_unbound _ w HG)).
      reflexivity.
    + split; reflexivity.
Qed.

End Unbound_in_the_loop.

(** ** C8: a file without any record *)

Section Empty_file.
Import Text Py Routes Observe LogFacts ParseFacts.
Context `{R : Runtime}.

(** [headers] is [None]: the test for the combined encoding answers
    false (no such entry in the configuration) or raises. *)
Lemma detect_combined_no_header (fmt : csv_format_t) (w : world) :
  detect_combined fmt None w = (Ret false, w) \/
  exists e, detect_combined fmt None w = (Raise e, w).
Proof.
  unfold detect_combined. destruct (combined_coordinates fmt) as [cols|]; [|now left].
  right. unfold mbind, M_bind, bind, getitem.
  destruct (cols !! "origin_coord_column"); eexists; reflexivity.
Qed.

Lemma detect_separate_no_header (b : bool) (fmt : csv_format_t) (w : world) :
  detect_separate b fmt None w = (Ret false, w) \/
  exists e, detect_separate b fmt None w = (Raise e, w).
Proof.
  unfold detect_separate. destruct b; [now left|].
  destruct (separate_coordinates fmt) as [cols|]; [|now left].
  right. unfold mbind, M_bind, bind, getitem.
  destruct (cols !! "origin_lat_column"); [|eexists; reflexivity].
  destruct (cols !! "origin_lon_column"); [|eexists; reflexivity].
  destruct (cols !! "destination_lat_column"); [|eexists; reflexivity].
  destruct (cols !! "destination_lon_column"); eexists; reflexivity.
Qed.

(** C8, at the code.  For a file that holds no record at all (no bytes,
    or the signature alone) [DictReader.fieldnames] is [None], and
    [parse_coordinate_file] never returns a sequence, empty or not: it
    raises, or it returns [None] after logging that the headers match no
    encoding.  With the combined encoding configured it raises
    [TypeError] from the test [... in headers]. *)
Theorem empty_file_is_no_sequence (G : gmap string gval) (path bytes : string)
    (config : config_t) (w : world) :
  files w !! path = Some bytes ->
  Codec.utf_8_sig_decode bytes = Some EmptyString ->
  (forall parsed_data w',
      parse_coordinate_file G path config w <> (Ret (Some parsed_data), w')) /\
  (forall cols ocol,
      combined_coordinates (csv_format_of config) = Some cols ->
      cols !! "origin_coord_column" = Some ocol ->
      parse_coordinate_file G path config w
      = (Raise (Exc TypeError "argument of type 'NoneType' is not iterable"), w)).
Proof.
  intros Hf Hdec.
  assert (Hread : read_csv path w = (Ret [], w)).
  { rewrite (read_csv_ok path bytes EmptyString w Hf Hdec). reflexivity. }
  split.
  - intros parsed_data w'. unfold parse_coordinate_file.
    rewrite (bind_ret _ _ _ _ _ Hread). cbn [Csv.fieldnames head].
    destruct (detect_combined_no_header (csv_format_of config) w) as [Hc | [e Hc]].
    2:{ rewrite (bind_raise _ _ _ _ _ Hc). discriminate. }
    rewrite (bind_ret _ _ _ _ _ Hc).
    destruct (detect_separate_no_header false (csv_format_of config) w) as [Hs | [e Hs]].
    2:{ rewrite (bind_raise _ _ _ _ _ Hs). discriminate. }
    rewrite (bind_ret _ _ _ _ _ Hs). cbn [negb andb].
    unfold mbind, M_bind, bind.
    destruct (write_log G _ w) as [[[]|e] w0]; discriminate.
  - intros cols ocol Hcols Hocol. unfold parse_coordinate_file.
    rewrite (bind_ret _ _ _ _ _ Hread). cbn [Csv.fieldnames head].
    apply bind_raise. unfold detect_combined. rewrite Hcols.
    rewrite (bind_ret _ _ _ _ _ (getitem_Some _ _ _ w Hocol)).
    reflexivity.
Qed.

End Empty_file.

Section Empty_file_example.
Import Text Py Routes Observe.

(** An empty file, the combined encoding configured. *)
Lemma empty_file_is_no_sequence_witness :
  let R := Sample.runtime None Sample.gcloud_ok Sample.server_created in
  let w := Sample.fresh_world (<["segments.csv" := EmptyString]> ∅) in
  parse_coordinate_file module_globals "segments.csv" (Sample.config_with "boston-" 100) w
  = (Raise (Exc TypeError "argument of type 'NoneType' is not iterable"), w).
Proof.
  intros R0 w.
  exact (proj2 (@empty_file_is_no_sequence R0 module_globals "segments.csv"
                  EmptyString (Sample.config_with "boston-" 100) w eq_refl eq_refl)
           Sample.combined_cols "origin" eq_refl eq_refl).
Defined.

End Empty_file_example.

(** ** The batch loop when logging works

    With [LOG_FILE] bound to a path that opens for writing the functions
    do what their docstrings say.  The lemmas below describe them in that
    case. *)

Module BoundFacts.
Import Text Py Routes Observe LogFacts.

Section BoundFacts.
Context `{R : Runtime}.
Variable G : gmap string gval.
Variable log : string.
Hypothesis LOG_FILE_bound : G !! "LOG_FILE" = Some (GStr log).
Hypothesis log_writable : writable log.

Lemma write_log_works (message : string) (w : world) :
  write_log G message w = (Ret tt, logged log message w).
Proof. now apply write_log_bound. Qed.

Lemma log_then {A : Type} (message : string) (k : unit -> M A) (w : world) :
  (write_log G message ≫= k) w = k tt (logged log message w).
Proof. apply bind_ret. apply write_log_works. Qed.

Lemma logged_posted (message : string) (w : world) :
  posted (logged log message w) = posted w.
Proof. reflexivity. Qed.

Lemma logged_gcloud_runs (message : string) (w : world) :
  gcloud_runs (logged log message w) = gcloud_runs w.
Proof. reflexivity. Qed.

(** A run of [gcloud] that yields a token: the token is returned. *)
Lemma get_gcloud_token_ok (w : world) :
  token_ok (subprocess_run (gcloud_runs w)) = true ->
  exists w',
    get_gcloud_token G w = (Ret (token_at (gcloud_runs w)), w') /\
    posted w' = posted w /\ gcloud_runs w' = S (gcloud_runs w).
Proof.
  intros Hok. unfold get_gcloud_token, try_except, token_at.
  rewrite log_then. unfold mbind at 1, M_bind, bind, run_gcloud.
  rewrite logged_gcloud_runs.
  destruct (subprocess_run (gcloud_runs w)) as [rc out err|c msg]; [|discriminate].
  simpl in Hok. apply andb_prop in Hok as [Hrc Hne].
  rewrite Hrc. apply negb_true_iff in Hne. rewrite Hne.
  rewrite log_then. eexists. split; [reflexivity|]. split; reflexivity.
Qed.

(** Any other run: [TokenGenerationError]. *)
Lemma get_gcloud_token_fails (w : world) :
  token_ok (subprocess_run (gcloud_runs w)) = false ->
  exists msg w',
    get_gcloud_token G w = (Raise (Exc TokenGenerationError msg), w') /\
    posted w' = posted w /\ gcloud_runs w' = S (gcloud_runs w).
Proof.
  intros Hbad. unfold get_gcloud_token, try_except.
  rewrite log_then. unfold mbind at 1, M_bind, bind, run_gcloud.
  rewrite logged_gcloud_runs.
  destruct (subprocess_run (gcloud_runs w)) as [rc out err|c msg].
  - simpl in Hbad. destruct (rc =? 0) eqn:Hrc.
    + simpl in Hbad. apply negb_false_iff in Hbad. rewrite Hbad.
      rewrite log_then. cbv beta iota. unfold raise at 1. cbv beta iota.
      change (subclass TokenGenerationError FileNotFoundError) with false.
      cbv beta iota. rewrite log_then.
      do 2 eexists. split; [reflexivity|]. split; reflexivity.
    + rewrite log_then. unfold raise at 1. cbv beta iota.
      change (subclass TokenGenerationError FileNotFoundError) with false.
      cbv beta iota. rewrite log_then.
      do 2 eexists. split; [reflexivity|]. split; reflexivity.
  - cbv beta iota.
    destruct (subclass c FileNotFoundError); rewrite log_then;
      do 2 eexists; (split; [reflexivity|]); split; reflexivity.
Qed.

(** One submission: the request goes out, and the function returns
    whether the server answered 200 or 201. *)
Lemma create_route_segment_bound (token : string) (o d : pyfloat * pyfloat)
    (name : option string) (counter : Z) (pid : string) (config : config_t)
    (w : world) :
  let rq := build_request token o d name counter pid config in
  exists w',
    create_route_segment G token o d name counter pid config w
    = (Ret (post_ok (requests_post (length (posted w)) rq)), w') /\
    posted w' = posted w ++ [rq] /\ gcloud_runs w' = gcloud_runs w.
Proof.
  intros rq. unfold create_route_segment. rewrite log_then.
  unfold try_except, mbind at 1, M_bind, bind, post. rewrite logged_posted.
  fold rq.
  destruct (requests_post (length (posted w)) rq) as [status text|c msg]; cbn [post_ok].
  - destruct ((status =? 200) || (status =? 201)); rewrite log_then;
      eexists; (split; [reflexivity|]); split; reflexivity.
  - destruct (subclass c RequestException); rewrite log_then;
      eexists; (split; [reflexivity|]); split; reflexivity.
Qed.

(** The loop is its plan: the counters it returns, the requests it
    sends and the runs of [gcloud] it makes are those [plan] computes from
    the answers of [gcloud] and the server; it never raises. *)
Lemma batch_loop_plan (max_routes : Z) (pid : string) (config : config_t)
    (data : list coord_record) :
  forall created attempted w,
    exists w',
      let '(c, a, rqs, fetches) :=
        plan max_routes pid config data created attempted
          (gcloud_runs w) (length (posted w)) in
      batch_loop G max_routes pid config data created attempted w = (Ret (c, a), w') /\
      posted w' = posted w ++ rqs /\
      gcloud_runs w' = (gcloud_runs w + fetches)%nat.
Proof.
  induction data as [|[[o d] name] data IH]; intros created attempted w;
    cbn [plan batch_loop].
  - exists w. rewrite app_nil_r, Nat.add_0_r. auto.
  - destruct (created >=? max_routes).
    + rewrite log_then. eexists. split; [reflexivity|].
      rewrite app_nil_r, Nat.add_0_r. split; reflexivity.
    + destruct (token_ok (subprocess_run (gcloud_runs w))) eqn:Hok.
      * destruct (get_gcloud_token_ok w Hok) as (w1 & Htok & Hp1 & Hg1).
        destruct (create_route_segment_bound (token_at (gcloud_runs w)) o d name
                    (attempted + 1) pid config w1) as (w2 & Hseg & Hp2 & Hg2).
        rewrite Hp1 in Hseg, Hp2.
        set (rq := build_request (token_at (gcloud_runs w)) o d name
                     (attempted + 1) pid config) in *.
        set (created' := if post_ok (requests_post (length (posted w)) rq)
                         then created + 1 else created).
        remember (mk_world (files w2) (console w2) (errstream w2) (posted w2)
                    (gcloud_runs w2) (clock_reads w2) (S (naps w2))) as w2s eqn:Ew.
        assert (Hp2s : posted w2s = posted w ++ [rq]) by (subst w2s; exact Hp2).
        assert (Hg2s : gcloud_runs w2s = S (gcloud_runs w))
          by (subst w2s; cbn; now rewrite Hg2, Hg1).
        destruct (IH created' (attempted + 1) w2s) as (w3 & IH').
        rewrite Hg2s, Hp2s, length_app, Nat.add_1_r in IH'.
        destruct (plan max_routes pid config data created' (attempted + 1)
                    (S (gcloud_runs w)) (S (length (posted w))))
          as [[[c a] rqs] fetches].
        destruct IH' as (Hloop & Hp3 & Hg3).
        exists w3. split; [|split].
        -- unfold mbind at 1, M_bind, bind, try_except.
           unfold mbind at 1, M_bind, bind. rewrite Htok. cbn [ret].
           unfold mbind at 1, M_bind, bind. rewrite Hseg.
           unfold mbind at 1, M_bind, bind, sleep. rewrite <- Ew. exact Hloop.
        -- rewrite Hp3, <- app_assoc. reflexivity.
        -- rewrite Hg3. lia.
      * destruct (get_gcloud_token_fails w Hok) as (msg & w1 & Htok & Hp1 & Hg1).
        eexists. split; [|split].
        -- unfold mbind at 1, M_bind, bind, try_except.
           unfold mbind at 1, M_bind, bind. rewrite Htok.
           change (subclass TokenGenerationError TokenGenerationError) with true.
           cbv beta iota. rewrite log_then. reflexivity.
        -- cbn. now rewrite Hp1, app_nil_r.
        -- cbn. rewrite Hg1. lia.
Qed.

(** The plan when every run of [gcloud] yields a token and the server
    accepts every request: the loop stops at the cap. *)
Lemma plan_all_succeed (max_routes : Z) (pid : string) (config : config_t) :
  (forall n, token_ok (subprocess_run n) = true) ->
  (forall n rq, post_ok (requests_post n rq) = true) ->
  forall (n : nat) data created attempted run sent,
    max_routes - created = Z.of_nat n -> (n <= length data)%nat ->
    plan max_routes pid config data created attempted run sent
    = (max_routes, attempted + Z.of_nat n,
       submissions pid config run attempted (firstn n data), n).
Proof.
  intros Htok Hpost. induction n as [|n IH]; intros data created attempted run sent Hn Hlen.
  - assert (created = max_routes) as -> by lia.
    rewrite Z.add_0_r, take_0.
    destruct data as [|[[o d] name] data]; cbn [plan submissions]; [reflexivity|].
    now rewrite (proj2 (Z.geb_le _ _)) by lia.
  - destruct data as [|[[o d] name] data]; [simpl in Hlen; lia|].
    cbn [plan firstn submissions].
    destruct (created >=? max_routes) eqn:Hge; [apply Z.geb_le in Hge; lia|].
    rewrite Htok, Hpost.
    rewrite (IH data (created + 1) (attempted + 1) (S run) (S sent))
      by (simpl in Hlen; lia).
    do 3 f_equal. lia.
Qed.

(** The shape of every plan: one token fetch per attempted row; one
    request per fetch, except that a last fetch that fails sends none;
    the requests are those of the first rows, in order; the count of
    created routes grows by at most one per request. *)
Lemma plan_shape (max_routes : Z) (pid : string) (config : config_t)
    (data : list coord_record) :
  forall created attempted run sent,
    let '(c, a, rqs, fetches) :=
      plan max_routes pid config data created attempted run sent in
    a = attempted + Z.of_nat fetches /\
    rqs = submissions pid config run attempted (firstn (length rqs) data) /\
    created <= c <= created + Z.of_nat (length rqs) /\
    ((length rqs = fetches /\
      forall k, fetches = S k -> token_ok (subprocess_run (run + k)) = true) \/
     (exists k, fetches = S k /\ length rqs = k /\
                token_ok (subprocess_run (run + k)) = false)).
Proof.
  induction data as [|[[o d] name] data IH]; intros created attempted run sent;
    cbn [plan].
  - repeat split; try lia. left. split; [reflexivity | discriminate].
  - destruct (created >=? max_routes).
    { repeat split; try lia. left. split; [reflexivity | discriminate]. }
    destruct (token_ok (subprocess_run run)) eqn:Hok.
    + set (rq := build_request (token_at run) o d name (attempted + 1) pid config).
      set (created' := if post_ok (requests_post sent rq) then created + 1 else created).
      specialize (IH created' (attempted + 1) (S run) (S sent)).
      destruct (plan max_routes pid config data created' (attempted + 1) (S run) (S sent))
        as [[[c a] rqs] fetches].
      destruct IH as (Ha & Hrqs & Hc & Hlast).
      assert (Hc' : created <= created' <= created + 1)
        by (subst created'; destruct (post_ok _); lia).
      split; [lia|]. split; [cbn [length firstn submissions]; now rewrite <- Hrqs|].
      split; [cbn [length]; lia|].
      destruct Hlast as [[Hlen Hall] | (k & -> & Hlen & Hbad)].
      * left. split; [cbn [length]; now rewrite Hlen|].
        intros k [= <-]. destruct fetches as [|k'].
        -- now rewrite Nat.add_0_r.
        -- rewrite <- Nat.add_succ_comm. now apply Hall.
      * right. exists (S k). split; [reflexivity|]. split; [cbn [length]; now rewrite Hlen|].
        now rewrite <- Nat.add_succ_comm.
    + split; [lia|]. split; [reflexivity|]. split; [cbn [length]; lia|].
      right. exists O. rewrite Nat.add_0_r. auto.
Qed.

(** No more token fetches than rows. *)
Lemma plan_fetches (max_routes : Z) (pid : string) (config : config_t)
    (data : list coord_record) :
  forall created attempted run sent,
    let '(c, a, rqs, fetches) :=
      plan max_routes pid config data created attempted run sent in
    (fetches <= length data)%nat.
Proof.
  induction data as [|[[o d] name] data IH]; intros created attempted run sent;
    cbn [plan].
  - cbn [length]. lia.
  - destruct (created >=? max_routes); [cbn [length]; lia|].
    destruct (token_ok (subprocess_run run)); [|cbn [length]; lia].
    set (rq := build_request (token_at run) o d name (attempted + 1) pid config).
    set (created' := if post_ok (requests_post sent rq) then created + 1 else created).
    specialize (IH created' (attempted + 1) (S run) (S sent)).
    destruct (plan max_routes pid config data created' (attempted + 1) (S run) (S sent))
      as [[[c a] rqs] fetches].
    cbn [length]. lia.
Qed.

(** Every token fetch of a plan but the last one gave a token. *)
Lemma plan_tokens (max_routes : Z) (pid : string) (config : config_t)
    (data : list coord_record) :
  forall created attempted run sent,
    let '(c, a, rqs, fetches) :=
      plan max_routes pid config data created attempted run sent in
    forall k, (S k < fetches)%nat -> token_ok (subprocess_run (run + k)) = true.
Proof.
  induction data as [|[[o d] name] data IH]; intros created attempted run sent;
    cbn [plan].
  - intros k Hk. lia.
  - destruct (created >=? max_routes); [intros k Hk; lia|].
    destruct (token_ok (subprocess_run run)) eqn:Hok; [|intros k Hk; lia].
    set (rq := build_request (token_at run) o d name (attempted + 1) pid config).
    set (created' := if post_ok (requests_post sent rq) then created + 1 else created).
    specialize (IH created' (attempted + 1) (S run) (S sent)).
    destruct (plan max_routes pid config data created' (attempted + 1) (S run) (S sent))
      as [[[c a] rqs] fetches].
    intros [|k] Hk.
    + now rewrite Nat.add_0_r.
    + rewrite Nat.add_succ_r. apply (IH k). lia.
Qed.

Lemma offline_refl (w : world) : offline w w.
Proof. split; reflexivity. Qed.

Lemma offline_trans (w1 w2 w3 : world) : offline w1 w2 -> offline w2 w3 -> offline w1 w3.
Proof. intros [H1 H2] [H3 H4]. split; congruence. Qed.

Lemma offline_print (s : string) : stable offline (print s).
Proof. intros w. split; reflexivity. Qed.

Lemma offline_now : stable offline now_strftime.
Proof. intros w. split; reflexivity. Qed.

Lemma offline_append_file (path text : string) : stable offline (append_file path text).
Proof.
  intros w. unfold append_file.
  destruct (open_for_writing path) as [[c msg]|]; split; reflexivity.
Qed.

Lemma offline_write_log (message : string) : stable offline (write_log G message).
Proof.
  apply Frame.stable_write_log;
    [ exact offline_refl | exact offline_trans | exact offline_print
    | exact offline_now | exact offline_append_file ].
Qed.

Lemma offline_load_config (path : string) : stable offline (load_config G path).
Proof.
  apply Frame.stable_load_config;
    [ exact offline_refl | exact offline_trans | exact offline_print
    | exact offline_now | exact offline_append_file ].
Qed.

Lemma offline_parse_coordinate_file (path : string) (config : config_t) :
  stable offline (parse_coordinate_file G path config).
Proof.
  apply Frame.stable_parse_coordinate_file;
    [ exact offline_refl | exact offline_trans | exact offline_print
    | exact offline_now | exact offline_append_file ].
Qed.

(** A run of [main_route_creator] either stays offline (it stops before
    the loop: no configuration, no project id, no usable input, no rows)
    or enters the batch loop with the parsed rows and, when the loop is
    left, logs the tally and returns. *)
Lemma main_route_creator_cases (input config_path : string) (w : world) :
  offline w (main_route_creator G input config_path w).2 \/
  exists config pid r data wa,
    offline w wa /\
    forall c a wb,
      batch_loop G (default 100 (max_routes_to_create config)) pid config
        (r :: data) 0 0 wa = (Ret (c, a), wb) ->
      main_route_creator G input config_path w
      = (Ret tt, tally_logged log (length (r :: data)) c a wb).
Proof.
  unfold main_route_creator. rewrite log_then.
  set (w0 := logged log "Route Creator Script started." w).
  assert (H0 : offline w w0) by (split; reflexivity).
  pose proof (offline_load_config config_path w0) as H1.
  destruct (load_config G config_path w0) as [[loaded|e] w1] eqn:Hload; simpl in H1.
  2:{ left. rewrite (bind_raise _ _ _ _ _ Hload). now apply (offline_trans _ w0). }
  rewrite (bind_ret _ _ _ _ _ Hload).
  assert (H01 : offline w w1) by now apply (offline_trans _ w0).
  destruct loaded as [config|]; [|left; exact H01].
  destruct (google_project_id config) as [pid|];
    [|left; rewrite log_then; exact H01].
  destruct (is_empty pid); [left; rewrite log_then; exact H01|].
  destruct (open_for_writing (log_path config)) as [[c0 msg0]|] eqn:Hopen.
  { left. rewrite (bind_raise _ _ w1 w1 (Exc c0 msg0)); [exact H01|].
    unfold truncate_file. unfold log_path in Hopen. now rewrite Hopen. }
  rewrite (bind_ret _ _ w1 (reset_file (log_path config) w1) tt)
    by (unfold truncate_file; unfold log_path in Hopen; now rewrite Hopen).
  set (w2 := reset_file (log_path config) w1).
  assert (H02 : offline w w2) by exact H01.
  pose proof (offline_parse_coordinate_file input config w2) as H3.
  destruct (parse_coordinate_file G input config w2) as [[parsed|e] w3] eqn:Hparse;
    simpl in H3.
  2:{ left. rewrite (bind_raise _ _ _ _ _ Hparse). now apply (offline_trans _ w2). }
  rewrite (bind_ret _ _ _ _ _ Hparse).
  assert (H03 : offline w w3) by now apply (offline_trans _ w2).
  destruct parsed as [[|r data]|].
  - left. rewrite (write_log_works _ _). exact H03.
  - right. exists config, pid, r, data, w3. split; [exact H03|].
    intros c a wb Hloop. rewrite (bind_ret _ _ _ _ _ Hloop).
    rewrite !log_then. now rewrite (write_log_works _ _).
  - left. rewrite log_then. exact H03.
Qed.

End BoundFacts.

End BoundFacts.

(** ** When logging does not work

    [LOG_FILE] is unbound, is no path, or names a file that does not
    open: every [write_log] raises, and with it every function that logs
    before it does anything else. *)

Module MuteFacts.
Import Text Py Routes Observe LogFacts BoundFacts.

Section MuteFacts.
Context `{R : Runtime}.
Variable G : gmap string gval.
Variable c : exn_class.
Variable msg : string.
Hypothesis log_fails : log_target G = Raise (Exc c msg).

Lemma write_log_mute (message : string) (w : world) :
  write_log G message w = (Raise (Exc c msg), echoed message w).
Proof. rewrite write_log_spec. now rewrite log_fails. Qed.

(** The token fetch raises before [gcloud] is run. *)
Lemma get_gcloud_token_mute (w : world) :
  exists e w',
    get_gcloud_token G w = (Raise e, w') /\
    offline w w' /\ files w' = files w /\ naps w' = naps w.
Proof.
  unfold get_gcloud_token, try_except.
  rewrite (bind_raise _ _ _ _ _ (write_log_mute _ w)).
  cbv beta iota.
  destruct (subclass c FileNotFoundError);
    rewrite (bind_raise _ _ _ _ _ (write_log_mute _ _));
    do 2 eexists; (split; [reflexivity|]); repeat split.
Qed.

(** The submission raises before the request is sent. *)
Lemma create_route_segment_mute (token : string) (o d : pyfloat * pyfloat)
    (name : option string) (counter : Z) (pid : string) (config : config_t)
    (w : world) :
  exists w',
    create_route_segment G token o d name counter pid config w
    = (Raise (Exc c msg), w') /\
    offline w w' /\ files w' = files w /\ naps w' = naps w.
Proof.
  unfold create_route_segment.
  rewrite (bind_raise _ _ _ _ _ (write_log_mute _ w)).
  eexists. split; [reflexivity|]. repeat split.
Qed.

(** The loop sends nothing, does not run [gcloud] and does not pause. *)
Lemma batch_loop_mute (max_routes : Z) (pid : string) (config : config_t)
    (data : list coord_record) (created attempted : Z) (w : world) :
  offline w (batch_loop G max_routes pid config data created attempted w).2 /\
  naps (batch_loop G max_routes pid config data created attempted w).2 = naps w.
Proof.
  remember (batch_loop G max_routes pid config data created attempted w) as r eqn:Hr.
  destruct data as [|[[o d] name] data]; cbn [batch_loop] in Hr;
    [subst r; split; [split|]; reflexivity|].
  destruct (created >=? max_routes).
  - rewrite (bind_raise _ _ _ _ _ (write_log_mute _ w)) in Hr.
    subst r. split; [split|]; reflexivity.
  - destruct (get_gcloud_token_mute w) as (e & w1 & Htok & Hoff & _ & Hn).
    unfold mbind at 1, M_bind, bind, try_except in Hr.
    unfold mbind at 1, M_bind, bind in Hr. rewrite Htok in Hr. cbv beta iota in Hr.
    destruct e as [c' msg'| |]; cbv beta iota in Hr;
      try (subst r; split; [exact Hoff | exact Hn]).
    destruct (subclass c' TokenGenerationError).
    + rewrite (bind_raise _ _ _ _ _ (write_log_mute _ w1)) in Hr.
      subst r. split; [exact Hoff | exact Hn].
    + subst r. split; [exact Hoff | exact Hn].
Qed.

(** [main_route_creator] ends in its first statement. *)
Lemma main_route_creator_mute (input config_path : string) (w : world) :
  main_route_creator G input config_path w
  = (Raise (Exc c msg), echoed "Route Creator Script started." w).
Proof. unfold main_route_creator. apply bind_raise. apply write_log_mute. Qed.

End MuteFacts.

(** Logging works or it does not, once and for all. *)
Lemma log_target_cases `{R : Runtime} (G : gmap string gval) :
  (exists log, G !! "LOG_FILE" = Some (GStr log) /\ writable log) \/
  (exists c msg, log_target G = Raise (Exc c msg)).
Proof.
  destruct (log_target G) as [log|e] eqn:E.
  - left. exists log. now apply log_target_Ret.
  - right. revert E. unfold log_target, name_error.
    destruct (G !! "LOG_FILE") as [[path|]|].
    + destruct (open_for_writing path) as [[c msg]|]; [|discriminate].
      intros [= <-]. eauto.
    + intros [= <-]. eauto.
    + intros [= <-]. eauto.
Qed.

End MuteFacts.

(** ** The loop when logging works, and C4 *)

Section When_logging_works.
Import Text Py Routes Observe LogFacts BoundFacts MuteFacts.
Context `{R : Runtime}.

(** With [LOG_FILE] bound to a path that opens for writing,
    [create_route_segment] never raises: it sends its one request and
    returns a boolean, [True] exactly when the server answers with status
    200 or 201, [False] for every other status and for every exception of
    [requests.post], time-outs included. *)
Theorem create_route_segment_returns_bool (G : gmap string gval) (log token : string)
    (o d : pyfloat * pyfloat) (name : option string) (counter : Z) (pid : string)
    (config : config_t) (w : world) :
  G !! "LOG_FILE" = Some (GStr log) ->
  writable log ->
  let rq := build_request token o d name counter pid config in
  exists w',
    create_route_segment G token o d name counter pid config w
    = (Ret (post_ok (requests_post (length (posted w)) rq)), w') /\
    posted w' = posted w ++ [rq] /\
    (post_ok (requests_post (length (posted w)) rq) = true <->
     exists text, requests_post (length (posted w)) rq = Response 200 text \/
                  requests_post (length (posted w)) rq = Response 201 text).
Proof.
  intros HG Hw rq.
  destruct (create_route_segment_bound G log HG Hw token o d name counter pid config w)
    as (w' & Hrun & Hp & _).
  exists w'. split; [exact Hrun|]. split; [exact Hp|].
  fold rq. destruct (requests_post (length (posted w)) rq) as [status text|c msg];
    cbn [post_ok].
  - rewrite orb_true_iff, !Z.eqb_eq. split.
    + intros [-> | ->]; exists text; auto.
    + intros (t & [[= -> _] | [= -> _]]); auto.
  - split; [discriminate|]. intros (t & [H | H]); discriminate.
Qed.

(** With [LOG_FILE] bound to a path that opens for writing, a cap of
    [K], more than [K] parsed rows, a token from every run of [gcloud] and
    success from the server for every request: the loop sends exactly [K]
    requests, those of the first [K] rows with the counters 1 to [K],
    fetches exactly [K] tokens, and leaves both counters at [K]; row
    [K + 1] is not attempted. *)
Theorem cap_stops_the_loop (G : gmap string gval) (log : string) (K : Z)
    (pid : string) (config : config_t) (data : list coord_record) (w : world) :
  G !! "LOG_FILE" = Some (GStr log) ->
  writable log ->
  (forall n, token_ok (subprocess_run n) = true) ->
  (forall n rq, post_ok (requests_post n rq) = true) ->
  0 <= K < Z.of_nat (length data) ->
  exists w',
    batch_loop G K pid config data 0 0 w = (Ret (K, K), w') /\
    posted w' = posted w
                ++ submissions pid config (gcloud_runs w) 0 (firstn (Z.to_nat K) data) /\
    length (posted w') = (length (posted w) + Z.to_nat K)%nat /\
    gcloud_runs w' = (gcloud_runs w + Z.to_nat K)%nat.
Proof.
  intros HG Hw Htok Hpost HK.
  destruct (batch_loop_plan G log HG Hw K pid config data 0 0 w) as (w' & H).
  rewrite (plan_all_succeed K pid config Htok Hpost (Z.to_nat K)) in H by lia.
  destruct H as (Hrun & Hp & Hg).
  exists w'. rewrite Z2Nat.id, Z.add_0_l in Hrun by lia.
  split; [exact Hrun|]. split; [exact Hp|]. split; [|exact Hg].
  rewrite Hp, length_app. f_equal.
  assert (Hlen : forall l run a, length (submissions pid config run a l) = length l).
  { induction l as [|[[? ?] ?] l IH]; intros; cbn [submissions length];
      [reflexivity | now rewrite IH]. }
  rewrite Hlen, length_take. lia.
Qed.

(** The loop after a failed token fetch, when logging works. *)
Lemma token_failure_in_the_loop (G : gmap string gval) (log : string) (K : Z)
    (pid : string) (config : config_t) (data : list coord_record) (w w' : world)
    (o : outcome (Z * Z)) (M : nat) :
  G !! "LOG_FILE" = Some (GStr log) ->
  writable log ->
  batch_loop G K pid config data 0 0 w = (o, w') ->
  gcloud_runs w' = (gcloud_runs w + S M)%nat ->
  token_ok (subprocess_run (gcloud_runs w + M)) = false ->
  exists created,
    o = Ret (created, Z.of_nat (S M)) /\
    0 <= created <= Z.of_nat M /\
    posted w' = posted w ++ submissions pid config (gcloud_runs w) 0 (firstn M data) /\
    length (posted w') = (length (posted w) + M)%nat.
Proof.
  intros HG Hw Hrun Hg Hbad.
  destruct (batch_loop_plan G log HG Hw K pid config data 0 0 w) as (w1 & H).
  pose proof (plan_shape K pid config data 0 0 (gcloud_runs w) (length (posted w)))
    as Hshape.
  destruct (plan K pid config data 0 0 (gcloud_runs w) (length (posted w)))
    as [[[c a] rqs] fetches].
  destruct H as (Hrun1 & Hp & Hg1). rewrite Hrun in Hrun1.
  injection Hrun1 as -> <-.
  assert (fetches = S M) as -> by lia.
  destruct Hshape as (Ha & Hrqs & Hc & Hlast).
  destruct Hlast as [[Hlen Hall] | (k & [= <-] & Hlen & _)].
  { rewrite (Hall M eq_refl) in Hbad. discriminate. }
  exists c. split; [now rewrite Ha|]. split; [lia|].
  rewrite Hlen in Hrqs. split; [now rewrite Hp, Hrqs at 1|].
  now rewrite Hp, length_app, Hlen.
Qed.

(** In every namespace: in every run of the loop in which the token
    fetch number M + 1 is made and fails, the loop stops there without
    raising; the attempted counter stands at M + 1, and exactly the M
    requests of the first M rows have been sent; what was sent before
    stays sent.  (A token fetch that runs [gcloud] has logged a line
    first, so in such a run logging works.) *)
Theorem token_failure_stops_the_loop (G : gmap string gval) (K : Z)
    (pid : string) (config : config_t) (data : list coord_record) (w w' : world)
    (o : outcome (Z * Z)) (M : nat) :
  batch_loop G K pid config data 0 0 w = (o, w') ->
  gcloud_runs w' = (gcloud_runs w + S M)%nat ->
  token_ok (subprocess_run (gcloud_runs w + M)) = false ->
  exists created,
    o = Ret (created, Z.of_nat (S M)) /\
    0 <= created <= Z.of_nat M /\
    posted w' = posted w ++ submissions pid config (gcloud_runs w) 0 (firstn M data) /\
    length (posted w') = (length (posted w) + M)%nat.
Proof.
  intros Hrun Hg Hbad.
  destruct (log_target_cases G) as [(log & HG & Hw) | (c & msg & He)].
  - now apply (token_failure_in_the_loop G log K pid config data w w' o M).
  - pose proof (batch_loop_mute G c msg He K pid config data 0 0 w) as [[_ Hoff] _].
    rewrite Hrun in Hoff. cbn [snd] in Hoff. lia.
Qed.

(** C4.  In every namespace and for every answer of [gcloud] and the
    server: take a run of [main_route_creator] that gets as far as an M-th
    token acquisition ([gcloud] is run at least M times) in which that
    acquisition, the call of [get_gcloud_token] made when [gcloud] has
    been run M - 1 times, raises [TokenGenerationError].  Then the loop
    stops there: no further token is fetched, exactly M - 1 requests have
    been sent, and what was sent before stays sent; the created counter
    is at most M - 1; the tally is logged with M rows processed, M being
    at most the number of rows; the function returns normally and the
    script ends with exit status 0.  Such a run exists only where
    [LOG_FILE] names a file that opens: the fetch logs a line before it
    runs [gcloud].  In the module's own namespace the premise never holds,
    since no run gets as far as a token fetch. *)
Theorem token_failure_exit_status (G : gmap string gval)
    (input config_path : string) (w w' : world) (o : outcome unit) (M : nat) :
  main_route_creator G input config_path w = (o, w') ->
  (1 <= M)%nat ->
  (gcloud_runs w + M <= gcloud_runs w')%nat ->
  (exists wM msg wM',
      gcloud_runs wM = (gcloud_runs w + (M - 1))%nat /\
      get_gcloud_token G wM = (Raise (Exc TokenGenerationError msg), wM')) ->
  o = Ret tt /\
  script G input config_path w = (Ret tt, w') /\
  exit_status (script G input config_path w).1 = 0 /\
  gcloud_runs w' = (gcloud_runs w + M)%nat /\
  exists log available created rqs wb,
    G !! "LOG_FILE" = Some (GStr log) /\ writable log /\
    (M <= available)%nat /\
    posted w' = posted w ++ rqs /\ length rqs = (M - 1)%nat /\
    0 <= created <= Z.of_nat (M - 1) /\
    w' = tally_logged log available created (Z.of_nat M) wb.
Proof.
  intros Hmain HM Hg (wM & msg & wM' & HgM & HtokM).
  destruct M as [|M]; [lia|]. cbn [Nat.sub] in *. rewrite Nat.sub_0_r in *.
  destruct (log_target_cases G) as [(log & HG & Hw) | (c0 & msg0 & He)].
  2:{ rewrite (main_route_creator_mute G c0 msg0 He) in Hmain.
      injection Hmain as <- <-. cbn [echoed gcloud_runs] in Hg. lia. }
  assert (Hbad : token_ok (subprocess_run (gcloud_runs w + M)) = false).
  { destruct (token_ok (subprocess_run (gcloud_runs w + M))) eqn:Hok; [|reflexivity].
    rewrite <- HgM in Hok.
    destruct (get_gcloud_token_ok G log HG Hw wM Hok) as (w1 & Htok & _).
    rewrite Htok in HtokM. discriminate. }
  destruct (main_route_creator_cases G log HG Hw input config_path w)
    as [Hoff | (config & pid & r & data & wa & [Hpa Hga] & Hloop)].
  { rewrite Hmain in Hoff. destruct Hoff as [_ Hoff]. simpl in Hoff. lia. }
  destruct (batch_loop_plan G log HG Hw (default 100 (max_routes_to_create config))
              pid config (r :: data) 0 0 wa) as (wb & H).
  pose proof (plan_shape (default 100 (max_routes_to_create config)) pid config
                (r :: data) 0 0 (gcloud_runs wa) (length (posted wa))) as Hshape.
  pose proof (plan_fetches (default 100 (max_routes_to_create config)) pid config
                (r :: data) 0 0 (gcloud_runs wa) (length (posted wa))) as Hfetch.
  pose proof (plan_tokens (default 100 (max_routes_to_create config)) pid config
                (r :: data) 0 0 (gcloud_runs wa) (length (posted wa))) as Htokens.
  destruct (plan (default 100 (max_routes_to_create config)) pid config (r :: data)
              0 0 (gcloud_runs wa) (length (posted wa))) as [[[c a] rqs] fetches].
  destruct H as (Hrun & Hp & Hgb).
  rewrite (Hloop c a wb Hrun) in Hmain. injection Hmain as <- <-.
  assert (Hgt : forall n, gcloud_runs (tally_logged log n c a wb) = gcloud_runs wb)
    by reflexivity.
  assert (Hpt : forall n, posted (tally_logged log n c a wb) = posted wb)
    by reflexivity.
  rewrite Hgt in Hg. rewrite Hgt, Hpt.
  assert (fetches = S M) as ->.
  { destruct (Nat.le_gt_cases fetches (S M)) as [Hle | Hgt']; [lia|].
    rewrite Hga in Htokens. rewrite (Htokens M Hgt') in Hbad. discriminate. }
  destruct Hshape as (Ha & Hrqs & Hc & Hlast).
  destruct Hlast as [[Hlen Hall] | (k & [= <-] & Hlen & _)].
  { rewrite Hga in Hall. rewrite (Hall M eq_refl) in Hbad. discriminate. }
  assert (Hmain' : main_route_creator G input config_path w
                   = (Ret tt, tally_logged log (length (r :: data)) c a wb))
    by now apply Hloop.
  split; [reflexivity|].
  assert (Hs : script G input config_path w
               = (Ret tt, tally_logged log (length (r :: data)) c a wb)).
  { unfold script, try_except. now rewrite Hmain'. }
  split; [exact Hs|]. split; [now rewrite Hs|].
  split; [lia|].
  exists log, (length (r :: data)), c, rqs, wb.
  split; [exact HG|]. split; [exact Hw|]. split; [exact Hfetch|].
  split; [now rewrite Hp, Hpa|]. split; [exact Hlen|]. split; [lia|].
  now rewrite Ha.
Qed.

End When_logging_works.

Section When_logging_works_examples.
Import Text Py Routes Observe.

(** A request the server answers with 201, one it answers with 500. *)
Lemma create_route_segment_returns_bool_witness :
  let G := Sample.globals_with_log "route_creator_log.txt" in
  let config := Sample.config_with "boston-" 100 in
  let o := (Sample.mk_decimal 4235 2, Sample.mk_decimal (-7106) 2) in
  let d := (Sample.mk_decimal 4236 2, Sample.mk_decimal (-7105) 2) in
  (@create_route_segment
     (Sample.runtime None Sample.gcloud_ok Sample.server_created) G "ya29.token"
     o d (Some "Main St Bridge") 1 "demo-project" config (Sample.fresh_world ∅)).1
  = Ret true /\
  (@create_route_segment
     (Sample.runtime None Sample.gcloud_ok Sample.server_error) G "ya29.token"
     o d (Some "Main St Bridge") 1 "demo-project" config (Sample.fresh_world ∅)).1
  = Ret false.
Proof.
  intros G config o d. split.
  - destruct (@create_route_segment_returns_bool
                (Sample.runtime None Sample.gcloud_ok Sample.server_created)
                G "route_creator_log.txt" "ya29.token" o d (Some "Main St Bridge") 1
                "demo-project" config (Sample.fresh_world ∅) eq_refl eq_refl)
      as (w' & H & _).
    rewrite H. reflexivity.
  - destruct (@create_route_segment_returns_bool
                (Sample.runtime None Sample.gcloud_ok Sample.server_error)
                G "route_creator_log.txt" "ya29.token" o d (Some "Main St Bridge") 1
                "demo-project" config (Sample.fresh_world ∅) eq_refl eq_refl)
      as (w' & H & _).
    rewrite H. reflexivity.
Defined.

(** Two rows, a cap of one. *)
Lemma cap_stops_the_loop_witness :
  let R := Sample.runtime None Sample.gcloud_ok Sample.server_created in
  let G := Sample.globals_with_log "route_creator_log.txt" in
  let r1 := ((Sample.mk_decimal 15 1, Sample.mk_decimal 25 1),
             (Sample.mk_decimal 35 1, Sample.mk_decimal 45 1), Some "Elm St") in
  let r2 := ((Sample.mk_decimal 55 1, Sample.mk_decimal 65 1),
             (Sample.mk_decimal 75 1, Sample.mk_decimal 85 1), Some "Elm St") in
  exists w',
    batch_loop G 1 "demo-project" (Sample.config_with "boston-" 1) [r1; r2] 0 0
      (Sample.fresh_world ∅) = (Ret (1, 1), w') /\
    length (posted w') = 1%nat /\ gcloud_runs w' = 1%nat.
Proof.
  intros R0 G r1 r2.
  destruct (@cap_stops_the_loop R0 G "route_creator_log.txt" 1 "demo-project"
              (Sample.config_with "boston-" 1) [r1; r2] (Sample.fresh_world ∅)
              eq_refl eq_refl (fun n => eq_refl) (fun n rq => eq_refl)
              ltac:(simpl; lia))
    as (w' & H & _ & Hlen & Hg).
  exists w'. split; [exact H|]. split; [exact Hlen | exact Hg].
Defined.

(** Two rows; the first token fetch succeeds, the second fails. *)
Lemma token_failure_stops_the_loop_witness :
  let R := Sample.runtime None Sample.gcloud_once Sample.server_created in
  let G := Sample.globals_with_log "route_creator_log.txt" in
  let r1 := ((Sample.mk_decimal 15 1, Sample.mk_decimal 25 1),
             (Sample.mk_decimal 35 1, Sample.mk_decimal 45 1), Some "Elm St") in
  let r2 := ((Sample.mk_decimal 55 1, Sample.mk_decimal 65 1),
             (Sample.mk_decimal 75 1, Sample.mk_decimal 85 1), Some "Elm St") in
  exists created w',
    batch_loop G 100 "demo-project" (Sample.config_with "boston-" 100)
      [r1; r2] 0 0 (Sample.fresh_world ∅) = (Ret (created, 2), w') /\
    length (posted w') = 1%nat.
Proof.
  intros R0 G r1 r2.
  assert (Hg : gcloud_runs
                 (batch_loop G 100 "demo-project" (Sample.config_with "boston-" 100)
                    [r1; r2] 0 0 (Sample.fresh_world ∅)).2 = 2%nat)
    by (vm_compute; reflexivity).
  assert (Hbad : token_ok (subprocess_run 1) = false) by (vm_compute; reflexivity).
  destruct (@batch_loop R0 G 100 "demo-project" (Sample.config_with "boston-" 100)
              [r1; r2] 0 0 (Sample.fresh_world ∅)) as [o w'] eqn:Hrun.
  destruct (@token_failure_stops_the_loop R0 G 100
              "demo-project" (Sample.config_with "boston-" 100) [r1; r2]
              (Sample.fresh_world ∅) w' o 1%nat Hrun Hg Hbad)
    as (created & Ho & _ & _ & Hlen).
  exists created, w'. split; [now rewrite Ho | exact Hlen].
Defined.

(** A file with two rows; [gcloud] gives a token the first time and
    ends with status 1 the second time: token acquisition raises
    [TokenGenerationError] on row 2, one request has been sent, exit
    status 0. *)
Lemma token_failure_exit_status_witness :
  let R := Sample.runtime (Some (Sample.config_with "boston-" 100))
             Sample.gcloud_once Sample.server_created in
  let G := Sample.globals_with_log "route_creator_log.txt" in
  let w := Sample.fresh_world
             (<["config.yaml" := "google_project_id: demo-project"]>
                (<["segments.csv" := Sample.two_rows_csv]> ∅)) in
  exists w',
    script G "segments.csv" "config.yaml" w = (Ret tt, w') /\
    exit_status (script G "segments.csv" "config.yaml" w).1 = 0 /\
    length (posted w') = 1%nat.
Proof.
  intros R0 G w.
  assert (Hg : (gcloud_runs w + 2
                <= gcloud_runs (main_route_creator G "segments.csv" "config.yaml" w).2)%nat)
    by (vm_compute; repeat constructor).
  pose (wM := mk_world (files w) [] [] [] 1%nat O O).
  assert (Hraise : exists msg wM',
             @get_gcloud_token R0 G wM = (Raise (Exc TokenGenerationError msg), wM')).
  { destruct (@BoundFacts.get_gcloud_token_fails R0 G "route_creator_log.txt"
                eq_refl eq_refl wM eq_refl) as (msg & wM' & Htok & _).
    exists msg, wM'. exact Htok. }
  destruct Hraise as (msg & wM' & Htok).
  destruct (@main_route_creator R0 G "segments.csv" "config.yaml" w) as [o w'] eqn:Hrun.
  destruct (@token_failure_exit_status R0 G "segments.csv"
              "config.yaml" w w' o 2%nat Hrun ltac:(lia) Hg
              (ex_intro _ wM (ex_intro _ msg (ex_intro _ wM' (conj eq_refl Htok)))))
    as (_ & Hs & He & _ & log & available & created & rqs & wb & _ & _ & _
        & Hp & Hlen & _).
  exists w'. split; [exact Hs|]. split; [exact He|].
  rewrite Hp. exact Hlen.
Defined.

End When_logging_works_examples.


(** ** The byte-order mark (second half of C8) and the identifiers of a
    whole run (C2 over the loop) *)

Section Signature_and_run.
Import Text Py Routes Observe LogFacts TextFacts ParseFacts.
Context `{R : Runtime}.

Lemma utf_8_sig_decode_BOM (b : string) :
  Codec.utf_8_sig_decode (Codec.BOM +:+ b) = Codec.utf_8_decode b.
Proof. reflexivity. Qed.

Lemma utf_8_sig_decode_plain (b : string) :
  startswith b Codec.BOM = false ->
  Codec.utf_8_sig_decode b = Codec.utf_8_decode b.
Proof.
  intros H. unfold Codec.utf_8_sig_decode.
  destruct b as [|c1 [|c2 [|c3 rest]]]; try reflexivity.
  destruct (String.eqb_spec (String c1 (String c2 (String c3 EmptyString))) Codec.BOM)
    as [E|]; [|reflexivity].
  injection E as -> -> ->. discriminate H.
Qed.

(** The file is opened with the codec [utf-8-sig]: a byte-order mark
    before the first header cell is dropped, so the records read from the
    file, the header among them, are those of the file without the mark,
    and the header matches the configured columns exactly when it does
    without the mark. *)
Theorem bom_is_skipped (path bytes : string) (w w0 : world) :
  files w !! path = Some (Codec.BOM +:+ bytes) ->
  files w0 !! path = Some bytes ->
  startswith bytes Codec.BOM = false ->
  (read_csv path w).1 = (read_csv path w0).1 /\
  forall fmt rows,
    (read_csv path w0).1 = Ret rows ->
    (read_csv path w).1 = Ret rows /\
    (detect_combined fmt (Csv.fieldnames rows) w).1
    = (detect_combined fmt (Csv.fieldnames rows) w0).1.
Proof.
  intros Hf Hf0 Hplain.
  assert (E : (read_csv path w).1 = (read_csv path w0).1).
  { unfold read_csv, read_file, mbind, M_bind, bind. rewrite Hf, Hf0.
    rewrite utf_8_sig_decode_BOM, (utf_8_sig_decode_plain _ Hplain).
    destruct (Codec.utf_8_decode bytes); reflexivity. }
  split; [exact E|]. intros fmt rows Hrows. split; [now rewrite E|].
  unfold detect_combined, mbind, M_bind, bind, getitem, contains.
  destruct (combined_coordinates fmt) as [cols|]; [|reflexivity].
  destruct (cols !! "origin_coord_column"); [|reflexivity]. cbn [ret].
  destruct (Csv.fieldnames rows) as [names|]; [|reflexivity].
  destruct (isin _ names); [|reflexivity].
  destruct (cols !! "destination_coord_column"); reflexivity.
Qed.

Lemma build_request_url (token : string) (o d : pyfloat * pyfloat)
    (name : option string) (counter : Z) (pid : string) (config : config_t) :
  url (build_request token o d name counter pid config)
  = route_url pid (selected_route_id config name counter).
Proof. reflexivity. Qed.

(** Every request of a run carries a counter above the one the run
    started from. *)
Lemma submissions_counters (pid : string) (config : config_t)
    (data : list coord_record) :
  forall run attempted rq,
    rq ∈ submissions pid config run attempted data ->
    exists name counter,
      attempted < counter /\
      url rq = route_url pid (selected_route_id config name counter).
Proof.
  induction data as [|[[o d] name] data IH]; intros run attempted rq Hin;
    cbn [submissions] in Hin.
  - now apply not_elem_of_nil in Hin.
  - apply elem_of_cons in Hin as [-> | Hin].
    + exists name, (attempted + 1). split; [lia | apply build_request_url].
    + destruct (IH _ _ _ Hin) as (n & c & Hc & Hu). exists n, c. split; [lia | exact Hu].
Qed.

(** The requests of one run go to pairwise different addresses: the
    counter in the identifier grows with every attempted row, so two rows
    never collide, not even rows with the same label. *)
Theorem run_urls_distinct (pid : string) (config : config_t)
    (data : list coord_record) (run : nat) (attempted : Z) :
  0 <= attempted ->
  NoDup (url <$> submissions pid config run attempted data).
Proof.
  revert run attempted.
  induction data as [|[[o d] name] data IH]; intros run attempted Ha;
    cbn [submissions fmap list_fmap].
  - constructor.
  - constructor; [|apply IH; lia].
    intros Hin. apply list_elem_of_fmap in Hin as (rq & Hu & Hin).
    destruct (submissions_counters pid config data _ _ rq Hin) as (n & c & Hc & Hu').
    rewrite build_request_url, Hu' in Hu. unfold route_url in Hu.
    do 3 apply append_inv_head in Hu.
    apply selected_route_id_counter in Hu; lia.
Qed.

End Signature_and_run.

Section Signature_and_run_examples.
Import Text Py Routes Observe.

(** The example file with and without the mark. *)
Lemma bom_is_skipped_witness :
  let R := Sample.runtime None Sample.gcloud_ok Sample.server_created in
  let w := Sample.fresh_world
             (<["segments.csv" := Codec.BOM +:+ Sample.bridge_csv]> ∅) in
  let w0 := Sample.fresh_world (<["segments.csv" := Sample.bridge_csv]> ∅) in
  (read_csv "segments.csv" w).1 = (read_csv "segments.csv" w0).1 /\
  (read_csv "segments.csv" w).1
  = Ret [["name"; "origin"; "dest"];
         ["Main St Bridge"; "(42.35, -71.06)"; "(42.36, -71.05)"]].
Proof.
  intros R0 w w0.
  pose proof (@bom_is_skipped R0 "segments.csv" Sample.bridge_csv w w0
                eq_refl eq_refl eq_refl) as [H _].
  split; [exact H|]. rewrite H. vm_compute. reflexivity.
Defined.

(** Three rows with the same label. *)
Lemma run_urls_distinct_witness :
  let R := Sample.runtime None Sample.gcloud_ok Sample.server_created in
  let r := ((Sample.mk_decimal 15 1, Sample.mk_decimal 25 1),
            (Sample.mk_decimal 35 1, Sample.mk_decimal 45 1), Some "Elm St") in
  NoDup (url <$> submissions "demo-project" (Sample.config_with "boston-" 100)
                   O 0 [r; r; r]).
Proof.
  intros R0 r.
  apply (@run_urls_distinct R0 "demo-project" (Sample.config_with "boston-" 100)
           [r; r; r] O 0). lia.
Defined.

End Signature_and_run_examples.

(** ** Frames over the logger

    The same closure as [Frame], from a weaker premise: it is enough that
    [write_log] itself respects [P].  This covers relations that only hold
    because the log goes to one known file. *)

Module FrameLog.
Import Text Py Routes Observe LogFacts Frame.

Section Stable.
Context `{R : Runtime}.
Variable P : world -> world -> Prop.
Hypothesis P_refl : forall w, P w w.
Hypothesis P_trans : forall w1 w2 w3, P w1 w2 -> P w2 w3 -> P w1 w3.
Variable G : gmap string gval.
Hypothesis P_write_log : forall message, stable P (write_log G message).

Ltac pure_step :=
  first [ apply (stable_ret P P_refl)
        | apply (stable_raise P P_refl)
        | apply (stable_sys_exit P P_refl)
        | apply (stable_read_file P P_refl)
        | apply (stable_read_csv P P_refl P_trans)
        | apply (stable_detect_combined P P_refl P_trans)
        | apply (stable_detect_separate P P_refl P_trans)
        | apply (stable_parse_row P P_refl P_trans)
        | apply P_write_log ].

Ltac log_step :=
  match goal with
  | |- stable _ (mbind _ _) => apply (stable_bind P P_trans); [| intros ?]
  | |- stable _ (try_except _ _) =>
      apply (stable_try_except P P_trans); [| intros ? ? ? ?]
  | H : (if ?b then _ else _) = Some _ |- _ => destruct b
  | H : Some _ = Some _ |- _ => injection H as <-
  | H : None = Some _ |- _ => discriminate H
  | |- stable _ (if ?b then _ else _) => destruct b
  | |- stable _ (let '(_, _) := ?p in _) => destruct p
  | |- stable _ (match ?x with _ => _ end) => destruct x
  end.

Lemma log_load_config (filepath : string) : stable P (load_config G filepath).
Proof. unfold load_config. repeat first [ log_step | pure_step ]. Qed.

Lemma log_parse_rows (fmt : csv_format_t) (b1 b2 : bool) (names : list string)
    (recs : list (list string)) :
  forall line_num parsed_data,
    stable P (parse_rows G fmt b1 b2 names line_num recs parsed_data).
Proof.
  induction recs as [|rec recs IH]; intros line_num parsed_data; cbn [parse_rows].
  - pure_step.
  - apply (stable_bind P P_trans); [|intros ?; apply IH].
    repeat first [ log_step | pure_step ].
Qed.

Lemma log_parse_coordinate_file (path : string) (config : config_t) :
  stable P (parse_coordinate_file G path config).
Proof.
  unfold parse_coordinate_file.
  repeat first [ log_step | apply log_parse_rows | pure_step ].
Qed.

Hypothesis P_run_gcloud : stable P run_gcloud.

Lemma log_get_gcloud_token : stable P (get_gcloud_token G).
Proof.
  unfold get_gcloud_token.
  repeat first [ log_step | apply P_run_gcloud | pure_step ].
Qed.

Hypothesis P_post : forall rq, stable P (post rq).

Lemma log_create_route_segment (token : string) (o d : pyfloat * pyfloat)
    (name : option string) (counter : Z) (pid : string) (config : config_t) :
  stable P (create_route_segment G token o d name counter pid config).
Proof.
  unfold create_route_segment.
  repeat first [ log_step | apply P_post | pure_step ].
Qed.

Hypothesis P_sleep : stable P sleep.

Lemma log_batch_loop (max_routes : Z) (pid : string) (config : config_t)
    (data : list coord_record) :
  forall created attempted,
    stable P (batch_loop G max_routes pid config data created attempted).
Proof.
  induction data as [|[[o d] name] data IH]; intros created attempted;
    cbn [batch_loop].
  - pure_step.
  - destruct (created >=? max_routes).
    + repeat first [ log_step | pure_step ].
    + apply (stable_bind P P_trans).
      * repeat first [ log_step | apply log_get_gcloud_token | pure_step ].
      * intros [token|]; [|pure_step].
        apply (stable_bind P P_trans); [apply log_create_route_segment|].
        intros ok. apply (stable_bind P P_trans); [exact P_sleep | intros ?; apply IH].
Qed.

End Stable.

End FrameLog.

(** ** Rows: what the row loop keeps and what it skips *)

Module RowFacts.
Import Text Py Routes Observe LogFacts ParseFacts.

Section RowFacts.
Context `{R : Runtime}.

Lemma pure_ret {A : Type} (a : A) : pure (ret a).
Proof. exists (Ret a). split; [reflexivity | discriminate]. Qed.

Lemma pure_raise {A : Type} (c : exn_class) (msg : string) :
  pure (@raise R A (Exc c msg)).
Proof. exists (Raise (Exc c msg)). split; [reflexivity|]. intros e [= <-]. eauto. Qed.

Lemma pure_bind {A B : Type} (m : M A) (k : A -> M B) :
  pure m -> (forall a, pure (k a)) -> pure (m ≫= k).
Proof.
  intros (o & Hm & He) Hk. destruct o as [a|e].
  - destruct (Hk a) as (o' & Hk' & He'). exists o'. split; [|exact He'].
    intros w. unfold mbind, M_bind, bind. now rewrite Hm, Hk'.
  - exists (Raise e). split.
    + intros w. unfold mbind, M_bind, bind. now rewrite Hm.
    + intros e' [= <-]. now apply He.
Qed.

Lemma pure_getitem {V : Type} (d : gmap string V) (key : string) : pure (getitem d key).
Proof. unfold getitem. destruct (d !! key); [apply pure_ret | apply pure_raise]. Qed.

Lemma pure_require_columns (key : string) (d : option (gmap string string)) :
  pure (require_columns key d).
Proof. destruct d; [apply pure_ret | apply pure_raise]. Qed.

Lemma pure_regex_search (cell : option string) : pure (regex_search cell).
Proof. destruct cell; [apply pure_ret | apply pure_raise]. Qed.

Lemma pure_float_str (s : string) : pure (float_str s).
Proof. unfold float_str. destruct (float_of_str s); [apply pure_ret | apply pure_raise]. Qed.

Lemma pure_float_cell (cell : option string) : pure (float_cell cell).
Proof. destruct cell; [apply pure_float_str | apply pure_raise]. Qed.

(** The body of the [try] of the row loop touches nothing outside the
    row, and only ever raises an [Exception]. *)
Lemma pure_parse_row (fmt : csv_format_t) (b1 b2 : bool)
    (row : gmap string (option string)) :
  pure (parse_row fmt b1 b2 row).
Proof.
  unfold parse_row.
  repeat first
    [ apply pure_ret | apply pure_raise | apply pure_getitem
    | apply pure_require_columns | apply pure_regex_search
    | apply pure_float_str | apply pure_float_cell
    | apply pure_bind; [| intros ?]
    | match goal with
      | |- pure (if ?b then _ else _) => destruct b
      | |- pure (let '(_, _) := ?p in _) => destruct p
      | |- pure (match ?x with _ => _ end) => destruct x
      end ].
Qed.

(** The outcome of the body in any world is the one [parsed_row] reads. *)
Lemma parse_row_parsed (fmt : csv_format_t) (b1 b2 : bool) (names rec : list string)
    (w : world) :
  match parsed_row fmt b1 b2 names rec with
  | Some r => parse_row fmt b1 b2 (Csv.row_dict names rec) w = (Ret r, w)
  | None => exists c msg,
      parse_row fmt b1 b2 (Csv.row_dict names rec) w = (Raise (Exc c msg), w)
  end.
Proof.
  unfold parsed_row.
  destruct (pure_parse_row fmt b1 b2 (Csv.row_dict names rec)) as (o & Ho & He).
  rewrite !Ho. cbn [fst]. destruct o as [r|e]; [reflexivity|].
  destruct (He e eq_refl) as (c & msg & ->). eauto.
Qed.

End RowFacts.

End RowFacts.

Section Rows.
Import Text Py Routes Observe LogFacts ParseFacts RowFacts BoundFacts CoordRegex RegexFacts.
Context `{R : Runtime}.

(** The row loop when logging works: good rows are kept, the others
    logged and skipped. *)
Lemma parse_rows_skips (G : gmap string gval) (log : string)
    (fmt : csv_format_t) (use_combined use_separate : bool) (names : list string)
    (recs : list (list string)) (line_num : Z) (parsed_data : list coord_record)
    (w : world) :
  G !! "LOG_FILE" = Some (GStr log) ->
  writable log ->
  let good := omap (parsed_row fmt use_combined use_separate names) recs in
  exists w',
    parse_rows G fmt use_combined use_separate names line_num recs parsed_data w
    = (Ret (parsed_data ++ good), w') /\
    (length (console w') = length (console w) + (length recs - length good))%nat /\
    (length good <= length recs)%nat /\
    offline w w'.
Proof.
  intros HG Hw. cbv zeta.
  revert line_num parsed_data w.
  induction recs as [|rec recs IH]; intros line_num parsed_data w.
  - exists w. cbn [parse_rows omap list_omap length]. rewrite app_nil_r.
    split; [reflexivity|]. split; [lia|]. split; [lia | split; reflexivity].
  - cbn [parse_rows omap list_omap].
    pose proof (parse_row_parsed fmt use_combined use_separate names rec w) as Hrow.
    destruct (parsed_row fmt use_combined use_separate names rec) as [r|].
    + destruct (IH (line_num + 1) (parsed_data ++ [r]) w)
        as (w' & Hrun & Hc & Hle & Hoff).
      exists w'. split.
      * unfold mbind at 1, M_bind, bind, try_except.
        unfold mbind at 1, M_bind, bind. rewrite Hrow. cbn [ret].
        rewrite Hrun. now rewrite <- app_assoc.
      * cbn [length]. split; [lia|]. split; [lia | exact Hoff].
    + destruct Hrow as (c & msg & Hrow).
      assert (Hstep : exists message,
                 parse_rows G fmt use_combined use_separate names line_num
                   (rec :: recs) parsed_data w
                 = parse_rows G fmt use_combined use_separate names (line_num + 1)
                     recs parsed_data (logged log message w)).
      { cbn [parse_rows]. unfold mbind at 1, M_bind at 1, bind at 1, try_except.
        unfold mbind at 1, M_bind at 1, bind at 1. rewrite Hrow.
        destruct (subclass c ValueError || subclass c KeyError); cbv beta iota;
          eexists; rewrite (@log_then R G log HG Hw); reflexivity. }
      destruct Hstep as (message & Hstep).
      destruct (IH (line_num + 1) parsed_data (logged log message w))
        as (w' & Hrun & Hc & Hle & [Hp Hg]).
      exists w'. split.
      * change (parse_rows G fmt use_combined use_separate names line_num
                  (rec :: recs) parsed_data w
                = (Ret (parsed_data
                        ++ omap (parsed_row fmt use_combined use_separate names) recs),
                   w')).
        now rewrite Hstep.
      * cbn [length]. split.
        { rewrite Hc. cbn [logged set_files echoed console]. rewrite length_app.
          cbn [length]. lia. }
        split; [lia|]. split; [exact Hp | exact Hg].
Qed.

(** With [LOG_FILE] bound to a path that opens for writing, the row loop
    of [parse_coordinate_file] never raises.  It returns the records of the
    rows whose [try] body succeeds, in file order, after the records it
    started with; every other row costs exactly one log line and nothing
    else: no row stops the loop, nothing is sent, [gcloud] is not run.
    Whether a row succeeds does not depend on the rows before it. *)
Theorem bad_rows_are_skipped (G : gmap string gval) (log : string)
    (fmt : csv_format_t) (use_combined use_separate : bool) (names : list string)
    (recs : list (list string)) (line_num : Z) (parsed_data : list coord_record)
    (w : world) :
  G !! "LOG_FILE" = Some (GStr log) ->
  writable log ->
  let good := omap (parsed_row fmt use_combined use_separate names) recs in
  exists w',
    parse_rows G fmt use_combined use_separate names line_num recs parsed_data w
    = (Ret (parsed_data ++ good), w') /\
    (length (console w') = length (console w) + (length recs - length good))%nat /\
    (length good <= length recs)%nat /\
    offline w w'.
Proof.
  exact (parse_rows_skips G log fmt use_combined use_separate names recs line_num
           parsed_data w).
Qed.

End Rows.

Section Row_errors.
Import Text Py Routes Observe LogFacts ParseFacts RowFacts BoundFacts CoordRegex RegexFacts.
Context `{R : Runtime}.

(** A cell without a match has no result of the search. *)
Lemma search_unmatched (s : string) :
  (forall pre g1 g2, ~ match_at s pre g1 g2) -> search s = None.
Proof.
  intros H. destruct (search s) as [[g1 g2]|] eqn:E; [|reflexivity].
  apply search_leftmost in E as (pre & Hm & _). now destruct (H pre g1 g2).
Qed.

(** Under the combined encoding, a row in which the origin cell or the
    destination cell holds no match of the coordinate pattern raises
    [ValueError] with the text [Could not parse combined coordinates.];
    no [float] conversion is attempted.  With [LOG_FILE] bound to a path
    that opens for writing the row loop logs one warning that names the
    row number and goes on with the next row, the list of parsed records
    unchanged. *)
Theorem unmatched_cell_is_skipped (G : gmap string gval) (log : string)
    (fmt : csv_format_t) (use_separate : bool) (cols : gmap string string)
    (ocol dcol ocell dcell : string) (names rec : list string)
    (recs : list (list string)) (line_num : Z) (parsed_data : list coord_record)
    (w : world) :
  combined_coordinates fmt = Some cols ->
  cols !! "origin_coord_column" = Some ocol ->
  cols !! "destination_coord_column" = Some dcol ->
  Csv.row_dict names rec !! ocol = Some (Some ocell) ->
  Csv.row_dict names rec !! dcol = Some (Some dcell) ->
  (forall pre g1 g2, ~ match_at ocell pre g1 g2) \/
  (forall pre g1 g2, ~ match_at dcell pre g1 g2) ->
  parse_row fmt true use_separate (Csv.row_dict names rec) w
  = (Raise (Exc ValueError "Could not parse combined coordinates."), w) /\
  (G !! "LOG_FILE" = Some (GStr log) ->
   writable log ->
   parse_rows G fmt true use_separate names line_num (rec :: recs) parsed_data w
   = parse_rows G fmt true use_separate names (line_num + 1) recs parsed_data
       (logged log
          ("Warning: Skipping row " +:+ str_of_Z line_num
           +:+ " due to error: Could not parse combined coordinates.. Row: "
           +:+ repr_row names rec) w)).
Proof.
  intros Hc Ho Hd Hro Hrd Hno.
  assert (Hrow : parse_row fmt true use_separate (Csv.row_dict names rec) w
                 = (Raise (Exc ValueError "Could not parse combined coordinates."), w)).
  { unfold parse_row. rewrite Hc. cbn [require_columns].
    unfold mbind at 1, M_bind at 1, bind at 1. cbn [ret].
    unfold mbind at 1, M_bind at 1, bind at 1. rewrite (getitem_Some _ _ _ _ Ho).
    unfold mbind at 1, M_bind at 1, bind at 1. rewrite (getitem_Some _ _ _ _ Hro).
    unfold mbind at 1, M_bind at 1, bind at 1. rewrite (getitem_Some _ _ _ _ Hd).
    unfold mbind at 1, M_bind at 1, bind at 1. rewrite (getitem_Some _ _ _ _ Hrd).
    unfold regex_search, mbind, M_bind, bind. cbn [ret].
    destruct Hno as [Hno | Hno]; rewrite (search_unmatched _ Hno).
    - reflexivity.
    - now destruct (search ocell) as [[? ?]|]. }
  split; [exact Hrow|]. intros HG Hw.
  cbn [parse_rows]. unfold mbind at 1, M_bind at 1, bind at 1, try_except.
  unfold mbind at 1, M_bind at 1, bind at 1. rewrite Hrow.
  change (subclass ValueError ValueError || subclass ValueError KeyError) with true.
  cbv beta iota. rewrite (@log_then R G log HG Hw). reflexivity.
Qed.

(** The test of lines 114-117 fails when one of the two columns is not
    in the header. *)
Lemma detect_combined_false (fmt : csv_format_t) (names : list string) (w : world) :
  combined_coordinates fmt = None \/
  (exists cols ocol dcol,
      combined_coordinates fmt = Some cols /\
      cols !! "origin_coord_column" = Some ocol /\
      cols !! "destination_coord_column" = Some dcol /\
      (ocol ∉ names \/ dcol ∉ names)) ->
  detect_combined fmt (Some names) w = (Ret false, w).
Proof.
  intros [Hc | (cols & ocol & dcol & Hc & Ho & Hd & Hnot)];
    unfold detect_combined; rewrite Hc; [reflexivity|].
  unfold mbind, M_bind, bind.
  rewrite (getitem_Some _ _ _ _ Ho). cbn [contains ret]. unfold isin.
  destruct (bool_decide (ocol ∈ names)) eqn:Eo; [|reflexivity].
  rewrite (getitem_Some _ _ _ _ Hd). cbn [contains ret].
  destruct Hnot as [Hn | Hn].
  - apply bool_decide_eq_true_1 in Eo. now destruct Hn.
  - now rewrite (bool_decide_eq_false_2 _ Hn).
Qed.

(** The separate encoding is the fallback: when the combined encoding is
    not configured, or one of its two columns is missing from the header,
    and the header has the four columns of the separate encoding, the file
    is parsed under the separate encoding, and a row yields [float] of its
    four cells: no pattern is searched. *)
Theorem separate_encoding_is_fallback (G : gmap string gval) (path bytes text : string)
    (config : config_t) (scols : gmap string string) (c1 c2 c3 c4 : string)
    (names : list string) (recs : list (list string)) (w : world) :
  files w !! path = Some bytes ->
  Codec.utf_8_sig_decode bytes = Some text ->
  Csv.reader_rows (Codec.universal_newlines text) = names :: recs ->
  combined_coordinates (csv_format_of config) = None \/
  (exists cols ocol dcol,
      combined_coordinates (csv_format_of config) = Some cols /\
      cols !! "origin_coord_column" = Some ocol /\
      cols !! "destination_coord_column" = Some dcol /\
      (ocol ∉ names \/ dcol ∉ names)) ->
  separate_coordinates (csv_format_of config) = Some scols ->
  scols !! "origin_lat_column" = Some c1 ->
  scols !! "origin_lon_column" = Some c2 ->
  scols !! "destination_lat_column" = Some c3 ->
  scols !! "destination_lon_column" = Some c4 ->
  c1 ∈ names -> c2 ∈ names -> c3 ∈ names -> c4 ∈ names ->
  parse_coordinate_file G path config w
  = (parse_rows G (csv_format_of config) false true names 2
       (Csv.data_records (names :: recs)) []
     ≫= λ parsed_data, ret (Some parsed_data)) w /\
  forall (row : gmap string (option string)) v1 v2 v3 v4 x1 x2 x3 x4 w1,
    row !! c1 = Some (Some v1) -> row !! c2 = Some (Some v2) ->
    row !! c3 = Some (Some v3) -> row !! c4 = Some (Some v4) ->
    float_of_str v1 = Some x1 -> float_of_str v2 = Some x2 ->
    float_of_str v3 = Some x3 -> float_of_str v4 = Some x4 ->
    parse_row (csv_format_of config) false true row w1
    = (Ret ((x1, x2), (x3, x4), display_name_of (csv_format_of config) row), w1).
Proof.
  intros Hf Hdec Hrows Hcomb Hs H1 H2 H3 H4 I1 I2 I3 I4. split.
  - unfold parse_coordinate_file.
    unfold mbind at 1, M_bind at 1, bind at 1.
    rewrite (read_csv_ok _ _ _ _ Hf Hdec), Hrows. cbn [Csv.fieldnames head].
    unfold mbind at 1, M_bind at 1, bind at 1.
    rewrite (detect_combined_false _ _ _ Hcomb).
    unfold mbind at 1, M_bind at 1, bind at 1.
    assert (Hsep : detect_separate false (csv_format_of config) (Some names) w
                   = (Ret true, w)).
    { unfold detect_separate. rewrite Hs. unfold mbind, M_bind, bind.
      rewrite (getitem_Some _ _ _ _ H1), (getitem_Some _ _ _ _ H2),
        (getitem_Some _ _ _ _ H3), (getitem_Some _ _ _ _ H4).
      cbn [all_contained contains ret]. unfold mbind, M_bind, bind, isin. cbn [ret].
      now rewrite !bool_decide_eq_true_2. }
    rewrite Hsep. reflexivity.
  - intros row v1 v2 v3 v4 x1 x2 x3 x4 w1 R1 R2 R3 R4 F1 F2 F3 F4.
    unfold parse_row, display_name_of. rewrite Hs. cbn [require_columns].
    unfold mbind, M_bind, bind. cbn [ret].
    rewrite (getitem_Some _ _ _ _ H1), (getitem_Some _ _ _ _ R1).
    cbn [float_cell]. unfold float_str at 1. rewrite F1. cbn [ret].
    rewrite (getitem_Some _ _ _ _ H2), (getitem_Some _ _ _ _ R2).
    cbn [float_cell]. unfold float_str at 1. rewrite F2. cbn [ret].
    rewrite (getitem_Some _ _ _ _ H3), (getitem_Some _ _ _ _ R3).
    cbn [float_cell]. unfold float_str at 1. rewrite F3. cbn [ret].
    rewrite (getitem_Some _ _ _ _ H4), (getitem_Some _ _ _ _ R4).
    cbn [float_cell]. unfold float_str at 1. rewrite F4. cbn [ret].
    reflexivity.
Qed.

End Row_errors.

Section Row_examples.
Import Text Py Routes Observe.

(** Four records: the second has no pair in its origin cell, the third
    is short of a cell. *)
Lemma bad_rows_are_skipped_witness :
  let R := Sample.runtime None Sample.gcloud_ok Sample.server_created in
  let G := Sample.globals_with_log "route_creator_log.txt" in
  let fmt := mk_csv_format (Some "name") (Some Sample.combined_cols) None in
  let recs := [["A"; "(1.5,2.5)"; "(3.5,4.5)"]; ["B"; "north"; "(3.5,4.5)"];
               ["C"; "(5.5,6.5)"]; ["D"; "(5.5,6.5)"; "(7.5,8.5)"]] in
  exists w',
    parse_rows G fmt true false ["name"; "origin"; "dest"] 2 recs []
      (Sample.fresh_world ∅)
    = (Ret [((Sample.mk_decimal 15 1, Sample.mk_decimal 25 1),
             (Sample.mk_decimal 35 1, Sample.mk_decimal 45 1), Some "A");
            ((Sample.mk_decimal 55 1, Sample.mk_decimal 65 1),
             (Sample.mk_decimal 75 1, Sample.mk_decimal 85 1), Some "D")], w') /\
    length (console w') = 2%nat.
Proof.
  intros R0 G fmt recs.
  assert (HG : G !! "LOG_FILE" = Some (GStr "route_creator_log.txt"))
    by (vm_compute; reflexivity).
  destruct (@bad_rows_are_skipped R0 G "route_creator_log.txt" fmt true false
              ["name"; "origin"; "dest"] recs 2 [] (Sample.fresh_world ∅) HG eq_refl)
    as (w' & Hrun & Hc & _).
  assert (E : omap (@parsed_row R0 fmt true false ["name"; "origin"; "dest"]) recs
              = [((Sample.mk_decimal 15 1, Sample.mk_decimal 25 1),
                  (Sample.mk_decimal 35 1, Sample.mk_decimal 45 1), Some "A");
                 ((Sample.mk_decimal 55 1, Sample.mk_decimal 65 1),
                  (Sample.mk_decimal 75 1, Sample.mk_decimal 85 1), Some "D")])
    by (vm_compute; reflexivity).
  rewrite E in Hrun, Hc. exists w'. split; [exact Hrun | exact Hc].
Defined.

(** A row whose origin cell names a place instead of a pair: it is the
    only row, and the loop ends with no record and one line on the
    console. *)
Lemma unmatched_cell_is_skipped_witness :
  let R := Sample.runtime None Sample.gcloud_ok Sample.server_created in
  let G := Sample.globals_with_log "route_creator_log.txt" in
  let fmt := mk_csv_format (Some "name") (Some Sample.combined_cols) None in
  (parse_row fmt true false
     (Csv.row_dict ["name"; "origin"; "dest"] ["B"; "north"; "(3.5,4.5)"])
     (Sample.fresh_world ∅)).1
  = Raise (Exc ValueError "Could not parse combined coordinates.") /\
  (parse_rows G fmt true false ["name"; "origin"; "dest"] 2
     [["B"; "north"; "(3.5,4.5)"]] [] (Sample.fresh_world ∅)).1 = Ret [] /\
  length (console
            (parse_rows G fmt true false ["name"; "origin"; "dest"] 2
               [["B"; "north"; "(3.5,4.5)"]] [] (Sample.fresh_world ∅)).2) = 1%nat.
Proof.
  intros R0 G fmt.
  assert (Hno : forall pre g1 g2, ~ CoordRegex.match_at "north" pre g1 g2).
  { intros pre g1 g2 Hm.
    destruct (RegexFacts.search_complete _ _ _ _ Hm) as (h1 & h2 & E).
    vm_compute in E. discriminate E. }
  destruct (@unmatched_cell_is_skipped R0 G "route_creator_log.txt" fmt false
              Sample.combined_cols
              "origin" "dest" "north" "(3.5,4.5)" ["name"; "origin"; "dest"]
              ["B"; "north"; "(3.5,4.5)"] [] 2 [] (Sample.fresh_world ∅)
              eq_refl eq_refl eq_refl eq_refl eq_refl (or_introl Hno)) as [H Hloop].
  split; [now rewrite H|].
  rewrite (Hloop eq_refl eq_refl). split; reflexivity.
Defined.

(** A file in the separate encoding, read with a configuration that
    names no combined encoding. *)
Lemma separate_encoding_is_fallback_witness :
  let R := Sample.runtime None Sample.gcloud_ok Sample.server_created in
  let w := Sample.fresh_world (<["segments.csv" := Sample.separate_csv]> ∅) in
  (parse_coordinate_file (Sample.globals_with_log "route_creator_log.txt")
     "segments.csv" Sample.config_separate w).1
  = Ret (Some [((Sample.mk_decimal 95 1, Sample.mk_decimal 85 1),
                (Sample.mk_decimal 75 1, Sample.mk_decimal 65 1), Some "Oak St")]).
Proof.
  intros R0 w.
  assert (Hrows : Csv.reader_rows (Codec.universal_newlines Sample.separate_csv)
                  = ["name"; "olat"; "olon"; "dlat"; "dlon"]
                    :: [["Oak St"; "9.5"; "8.5"; "7.5"; "6.5"]])
    by (vm_compute; reflexivity).
  assert (Hdec : Codec.utf_8_sig_decode Sample.separate_csv = Some Sample.separate_csv)
    by (vm_compute; reflexivity).
  destruct (@separate_encoding_is_fallback R0
              (Sample.globals_with_log "route_creator_log.txt") "segments.csv"
              Sample.separate_csv Sample.separate_csv Sample.config_separate
              Sample.separate_cols "olat" "olon" "dlat" "dlon"
              ["name"; "olat"; "olon"; "dlat"; "dlon"]
              [["Oak St"; "9.5"; "8.5"; "7.5"; "6.5"]] w
              eq_refl Hdec Hrows (or_introl eq_refl) eq_refl
              eq_refl eq_refl eq_refl eq_refl
              ltac:(repeat constructor) ltac:(repeat constructor)
              ltac:(repeat constructor) ltac:(repeat constructor)) as [H _].
  rewrite H. vm_compute. reflexivity.
Defined.

End Row_examples.

Section Token.
Import Text Py Routes Observe LogFacts BoundFacts.
Context `{R : Runtime}.

(** With [LOG_FILE] bound to a path that opens for writing,
    [get_gcloud_token] runs [gcloud] exactly once and sends nothing.  It returns the stripped output when the exit
    status is 0 and the stripped output is not empty; in every other case
    it raises [TokenGenerationError] and nothing else.  The two errors it
    raises inside its own [try] block are caught by its own
    [except Exception] clause, logged a second time and raised again with
    the text wrapped; only a missing [gcloud] command keeps its own
    text. *)
Theorem get_gcloud_token_outcomes (G : gmap string gval) (log : string) (w : world) :
  G !! "LOG_FILE" = Some (GStr log) ->
  writable log ->
  exists w',
    get_gcloud_token G w
    = (match subprocess_run (gcloud_runs w) with
       | Completed rc out err =>
           if rc =? 0 then
             if is_empty (strip out) then
               Raise (Exc TokenGenerationError
                        "Unexpected error during token generation: gcloud produced an empty token.")
             else Ret (strip out)
           else
             Raise (Exc TokenGenerationError
                      ("Unexpected error during token generation: "
                       +:+ "gcloud command failed with return code " +:+ str_of_Z rc
                       +:+ "." +:+ nl +:+ "Stderr: " +:+ strip err))
       | RunRaises c msg =>
           if subclass c FileNotFoundError then
             Raise (Exc TokenGenerationError "gcloud command not found.")
           else
             Raise (Exc TokenGenerationError
                      ("Unexpected error during token generation: " +:+ msg))
       end, w') /\
    gcloud_runs w' = S (gcloud_runs w) /\
    posted w' = posted w /\
    length (console w')
    = (length (console w)
       + match subprocess_run (gcloud_runs w) with
         | Completed rc out _ =>
             if (rc =? 0)%Z && negb (is_empty (strip out)) then 2 else 3
         | RunRaises _ _ => 2
         end)%nat.
Proof.
  intros HG Hw. unfold get_gcloud_token, try_except.
  rewrite (@log_then R G log HG Hw).
  unfold mbind at 1, M_bind at 1, bind at 1, run_gcloud.
  rewrite logged_gcloud_runs.
  destruct (subprocess_run (gcloud_runs w)) as [rc out err|c msg].
  - destruct (rc =? 0) eqn:Hrc.
    + destruct (is_empty (strip out)) eqn:He; cbv beta iota.
      * rewrite (@log_then R G log HG Hw). unfold raise at 1. cbv beta iota.
        change (subclass TokenGenerationError FileNotFoundError) with false.
        cbv beta iota. rewrite (@log_then R G log HG Hw).
        eexists. split; [reflexivity|]. repeat split.
        cbn [logged set_files echoed console]. rewrite !length_app. cbn. lia.
      * rewrite (@log_then R G log HG Hw).
        eexists. split; [reflexivity|]. repeat split.
        cbn [logged set_files echoed console]. rewrite !length_app. cbn. lia.
    + cbv beta iota. rewrite (@log_then R G log HG Hw). unfold raise at 1. cbv beta iota.
      change (subclass TokenGenerationError FileNotFoundError) with false.
      cbv beta iota. rewrite (@log_then R G log HG Hw).
      eexists. split; [reflexivity|]. repeat split.
      cbn [logged set_files echoed console]. rewrite !length_app. cbn. lia.
  - cbv beta iota.
    destruct (subclass c FileNotFoundError); rewrite (@log_then R G log HG Hw);
      eexists; (split; [reflexivity|]); repeat split;
      cbn [logged set_files echoed console]; rewrite !length_app; cbn; lia.
Qed.

End Token.

Section Token_example.
Import Text Py Routes Observe.

(** [gcloud] ends with status 1 and a message on its error stream. *)
Lemma get_gcloud_token_outcomes_witness :
  let R := Sample.runtime None Sample.gcloud_down Sample.server_created in
  (get_gcloud_token (Sample.globals_with_log "route_creator_log.txt")
     (Sample.fresh_world ∅)).1
  = Raise (Exc TokenGenerationError
             ("Unexpected error during token generation: "
              +:+ "gcloud command failed with return code 1." +:+ nl
              +:+ "Stderr: ERROR: (gcloud.auth) not logged in")).
Proof.
  intros R0.
  assert (HG : Sample.globals_with_log "route_creator_log.txt" !! "LOG_FILE"
               = Some (GStr "route_creator_log.txt")) by (vm_compute; reflexivity).
  destruct (@get_gcloud_token_outcomes R0 _ _ (Sample.fresh_world ∅) HG eq_refl)
    as (w' & H & _).
  rewrite H. vm_compute. reflexivity.
Defined.

End Token_example.

(** ** More on the batch loop when logging works *)

Module LoopFacts.
Import Text Py Routes Observe LogFacts BoundFacts.

Section Plan.
Context `{R : Runtime}.

(** The created counter stays under the cap, a loop that starts at the
    cap does nothing, and there is at most one token fetch per row and at
    most one request per fetch. *)
Lemma plan_bounds (max_routes : Z) (pid : string) (config : config_t)
    (data : list coord_record) :
  forall created attempted run sent,
    let '(c, a, rqs, fetches) :=
      plan max_routes pid config data created attempted run sent in
    (created <= max_routes -> c <= max_routes) /\
    (max_routes <= created -> c = created /\ rqs = [] /\ fetches = O) /\
    (fetches <= length data)%nat /\
    (length rqs <= fetches <= length rqs + 1)%nat.
Proof.
  induction data as [|[[o d] name] data IH]; intros created attempted run sent;
    cbn [plan].
  - cbn [length]. repeat split; lia.
  - destruct (created >=? max_routes) eqn:Hcap.
    { cbn [length]. repeat split; lia. }
    assert (Hlt : created < max_routes).
    { destruct (Z.geb_spec created max_routes); [discriminate | lia]. }
    destruct (token_ok (subprocess_run run)).
    + set (rq := build_request (token_at run) o d name (attempted + 1) pid config).
      set (created' := if post_ok (requests_post sent rq) then created + 1 else created).
      specialize (IH created' (attempted + 1) (S run) (S sent)).
      destruct (plan max_routes pid config data created' (attempted + 1) (S run) (S sent))
        as [[[c a] rqs] fetches].
      destruct IH as (Hle & _ & Hf & Hr).
      assert (Hc' : created' <= max_routes)
        by (subst created'; destruct (post_ok _); lia).
      cbn [length]. repeat split; lia.
    + cbn [length]. repeat split; lia.
Qed.

(** The i-th request of the loop is the request for the i-th row, built
    with the token of the i-th run of [gcloud], which was a good one. *)
Lemma plan_requests (max_routes : Z) (pid : string) (config : config_t)
    (data : list coord_record) :
  forall created attempted run sent (i : nat) (rq : request pyfloat),
    (plan max_routes pid config data created attempted run sent).1.2 !! i = Some rq ->
    exists o d name,
      data !! i = Some (o, d, name) /\
      rq = build_request (token_at (run + i)) o d name
             (attempted + 1 + Z.of_nat i) pid config /\
      token_ok (subprocess_run (run + i)) = true.
Proof.
  induction data as [|[[o d] name] data IH]; intros created attempted run sent i rq;
    cbn [plan].
  - intros H. destruct i; discriminate H.
  - destruct (created >=? max_routes); [intros H; destruct i; discriminate H|].
    destruct (token_ok (subprocess_run run)) eqn:Hok;
      [|intros H; destruct i; discriminate H].
    specialize (IH (if post_ok
                         (requests_post sent
                            (build_request (token_at run) o d name (attempted + 1)
                               pid config))
                    then created + 1 else created)
                 (attempted + 1) (S run) (S sent)).
    destruct (plan max_routes pid config data _ (attempted + 1) (S run) (S sent))
      as [[[c a] rqs] fetches].
    cbn [fst snd] in *. destruct i as [|i]; cbn [lookup list_lookup].
    + intros [= <-]. exists o, d, name. rewrite Nat.add_0_r, Z.add_0_r. auto.
    + intros H. destruct (IH i rq H) as (o' & d' & name' & Hd & Hrq & Ht).
      exists o', d', name'. split; [exact Hd|].
      rewrite <- Nat.add_succ_comm. split; [|exact Ht].
      rewrite Hrq. f_equal. lia.
Qed.

(** When every token fetch succeeds and the server accepts nothing, the
    cap never bites: every row is attempted. *)
Lemma plan_all_fail (max_routes : Z) (pid : string) (config : config_t) :
  (forall n, token_ok (subprocess_run n) = true) ->
  (forall n rq, post_ok (requests_post n rq) = false) ->
  forall data created attempted run sent,
    created < max_routes ->
    plan max_routes pid config data created attempted run sent
    = (created, attempted + Z.of_nat (length data),
       submissions pid config run attempted data, length data).
Proof.
  intros Htok Hpost.
  induction data as [|[[o d] name] data IH]; intros created attempted run sent Hlt;
    cbn [plan submissions length].
  - now rewrite Z.add_0_r.
  - destruct (Z.geb_spec created max_routes); [lia|].
    rewrite Htok, Hpost, (IH created (attempted + 1) (S run) (S sent) Hlt).
    f_equal. f_equal. f_equal. lia.
Qed.

Lemma token_ok_not_empty (n : nat) :
  token_ok (subprocess_run n) = true -> is_empty (token_at n) = false.
Proof.
  unfold token_ok, token_at. destruct (subprocess_run n); [|discriminate].
  intros H. apply andb_prop in H as [_ H]. now apply negb_true_iff in H.
Qed.

End Plan.

End LoopFacts.

Section Loop_accounts.
Import Text Py Routes Observe LogFacts BoundFacts MuteFacts LoopFacts.
Context `{R : Runtime}.

(** With [LOG_FILE] bound to a path that opens for writing, whatever
    [gcloud] and the server answer: the loop returns; the created counter ends between 0 and the cap (0 for a
    cap that is not positive); created <= requests sent <= rows attempted
    <= rows available; there is exactly one token fetch per attempted row
    and at most one attempted row without a request (the one whose token
    fetch failed).  With a cap of 0 or less nothing is sent and no token
    is fetched. *)
Theorem loop_counters_are_bounded (G : gmap string gval) (log : string) (K : Z)
    (pid : string) (config : config_t) (data : list coord_record) (w : world) :
  G !! "LOG_FILE" = Some (GStr log) ->
  writable log ->
  exists c a w' rqs,
    batch_loop G K pid config data 0 0 w = (Ret (c, a), w') /\
    posted w' = posted w ++ rqs /\
    gcloud_runs w' = (gcloud_runs w + Z.to_nat a)%nat /\
    0 <= c <= Z.max 0 K /\
    c <= Z.of_nat (length rqs) <= a /\
    a <= Z.of_nat (length rqs) + 1 /\
    a <= Z.of_nat (length data) /\
    (K <= 0 -> c = 0 /\ a = 0 /\ rqs = []).
Proof.
  intros HG Hw.
  destruct (batch_loop_plan G log HG Hw K pid config data 0 0 w) as (w' & H).
  pose proof (plan_shape K pid config data 0 0 (gcloud_runs w) (length (posted w)))
    as Hshape.
  pose proof (plan_bounds K pid config data 0 0 (gcloud_runs w) (length (posted w)))
    as Hb.
  destruct (plan K pid config data 0 0 (gcloud_runs w) (length (posted w)))
    as [[[c a] rqs] fetches].
  destruct H as (Hrun & Hp & Hg).
  destruct Hshape as (Ha & _ & Hc & _).
  destruct Hb as (Hle & Hcap & Hf & Hr).
  exists c, a, w', rqs. split; [exact Hrun|]. split; [exact Hp|].
  split; [rewrite Hg; f_equal; lia|].
  split; [destruct (Z.le_gt_cases 0 K); [specialize (Hle ltac:(lia)); lia
                                       | destruct (Hcap ltac:(lia)) as (-> & _); lia]|].
  split; [lia|]. split; [lia|]. split; [lia|].
  intros HK. destruct (Hcap HK) as (-> & -> & ->). repeat split. lia.
Qed.

(** Rows the server refuses do not use up the cap: with [LOG_FILE] bound
    to a path that opens for writing, a positive cap, a token from every
    run of [gcloud] and no request accepted, every row is attempted and
    one request is sent per row, however small the cap is. *)
Theorem failed_requests_do_not_count (G : gmap string gval) (log : string) (K : Z)
    (pid : string) (config : config_t) (data : list coord_record) (w : world) :
  G !! "LOG_FILE" = Some (GStr log) ->
  writable log ->
  (forall n, token_ok (subprocess_run n) = true) ->
  (forall n rq, post_ok (requests_post n rq) = false) ->
  0 < K ->
  exists w',
    batch_loop G K pid config data 0 0 w = (Ret (0, Z.of_nat (length data)), w') /\
    posted w' = posted w ++ submissions pid config (gcloud_runs w) 0 data /\
    gcloud_runs w' = (gcloud_runs w + length data)%nat.
Proof.
  intros HG Hw Htok Hpost HK.
  destruct (batch_loop_plan G log HG Hw K pid config data 0 0 w) as (w' & H).
  rewrite (plan_all_fail K pid config Htok Hpost data 0 0) in H by lia.
  exists w'. exact H.
Qed.

(** With [LOG_FILE] bound, the requests of a run are, in order, the
    requests for the first rows of the file: the i-th request (from 0) is
    built from row i with the counter i + 1 and carries the token that
    the i-th run of [gcloud] gave, a token that is not empty.  No row is
    sent twice or out of order, and no token is used for two requests. *)
Theorem ith_request_is_ith_row (G : gmap string gval) (log : string) (K : Z)
    (pid : string) (config : config_t) (data : list coord_record) (w : world)
    (i : nat) (rq : request pyfloat) :
  G !! "LOG_FILE" = Some (GStr log) ->
  posted (batch_loop G K pid config data 0 0 w).2 !! (length (posted w) + i)%nat
  = Some rq ->
  exists o d name,
    data !! i = Some (o, d, name) /\
    rq = build_request (token_at (gcloud_runs w + i)) o d name
           (Z.of_nat i + 1) pid config /\
    is_empty (token_at (gcloud_runs w + i)) = false.
Proof.
  intros HG Hi.
  destruct (open_for_writing log) as [[c0 msg]|] eqn:Hw.
  { assert (He : log_target G = Raise (Exc c0 msg))
      by (unfold log_target; now rewrite HG, Hw).
    destruct (batch_loop_mute G c0 msg He K pid config data 0 0 w) as [[Hp _] _].
    rewrite Hp in Hi. rewrite lookup_ge_None_2 in Hi by lia. discriminate. }
  destruct (batch_loop_plan G log HG Hw K pid config data 0 0 w) as (w' & H).
  pose proof (plan_requests K pid config data 0 0 (gcloud_runs w) (length (posted w)) i rq)
    as Hreq.
  destruct (plan K pid config data 0 0 (gcloud_runs w) (length (posted w)))
    as [[[c a] rqs] fetches].
  destruct H as (Hrun & Hp & _). rewrite Hrun in Hi. cbn [snd fst] in *.
  rewrite Hp, lookup_app_r, Nat.add_comm, Nat.add_sub in Hi by lia.
  destruct (Hreq Hi) as (o & d & name & Hd & Hrq & Hok).
  exists o, d, name. split; [exact Hd|]. split.
  - rewrite Hrq. f_equal. lia.
  - now apply token_ok_not_empty.
Qed.

End Loop_accounts.

Section Pauses.
Import Text Py Routes Observe LogFacts BoundFacts LoopFacts Frame FrameLog.
Context `{R : Runtime}.
Variable G : gmap string gval.
Variable log : string.
Hypothesis LOG_FILE_bound : G !! "LOG_FILE" = Some (GStr log).
Hypothesis log_writable : writable log.

Let same_naps (w w' : world) : Prop := naps w' = naps w.

Lemma same_naps_token (w : world) : naps (get_gcloud_token G w).2 = naps w.
Proof.
  apply (log_get_gcloud_token same_naps); unfold same_naps, stable.
  - reflexivity.
  - intros w1 w2 w3 H1 H2. now rewrite H2.
  - intros message w0. now rewrite (write_log_bound G log message w0 LOG_FILE_bound log_writable).
  - intros w0. unfold run_gcloud. now destruct (subprocess_run (gcloud_runs w0)).
Qed.

Lemma same_naps_segment (token : string) (o d : pyfloat * pyfloat)
    (name : option string) (counter : Z) (pid : string) (config : config_t) (w : world) :
  naps (create_route_segment G token o d name counter pid config w).2 = naps w.
Proof.
  apply (log_create_route_segment same_naps); unfold same_naps, stable.
  - reflexivity.
  - intros w1 w2 w3 H1 H2. now rewrite H2.
  - intros message w0. now rewrite (write_log_bound G log message w0 LOG_FILE_bound log_writable).
  - intros rq w0. unfold post. now destruct (requests_post (length (posted w0)) rq).
Qed.

(** In the loop every request is followed by one pause, and there is no
    other pause. *)
Lemma batch_loop_naps (max_routes : Z) (pid : string) (config : config_t)
    (data : list coord_record) :
  forall created attempted w r,
    batch_loop G max_routes pid config data created attempted w = r ->
    (naps r.2 + length (posted w) = naps w + length (posted r.2))%nat.
Proof.
  induction data as [|[[o d] name] data IH]; intros created attempted w r Hr;
    cbn [batch_loop] in Hr.
  - now subst r.
  - destruct (created >=? max_routes).
    + rewrite (log_then G log LOG_FILE_bound log_writable) in Hr. now subst r.
    + destruct (token_ok (subprocess_run (gcloud_runs w))) eqn:Hok.
      * destruct (get_gcloud_token_ok G log LOG_FILE_bound log_writable w Hok)
          as (w1 & Htok & Hp1 & _).
        pose proof (same_naps_token w) as Hn1. rewrite Htok in Hn1. cbn [snd] in Hn1.
        destruct (create_route_segment_bound G log LOG_FILE_bound log_writable
                    (token_at (gcloud_runs w)) o d name (attempted + 1) pid config w1)
          as (w2 & Hseg & Hp2 & _).
        pose proof (same_naps_segment (token_at (gcloud_runs w)) o d name
                      (attempted + 1) pid config w1) as Hn2.
        rewrite Hseg in Hn2. cbn [snd] in Hn2.
        unfold mbind at 1, M_bind at 1, bind at 1, try_except in Hr.
        unfold mbind at 1, M_bind at 1, bind at 1 in Hr. rewrite Htok in Hr.
        cbn [ret] in Hr.
        unfold mbind at 1, M_bind at 1, bind at 1 in Hr. rewrite Hseg in Hr.
        unfold mbind at 1, M_bind at 1, bind at 1, sleep in Hr.
        apply IH in Hr. cbn [naps posted] in Hr.
        rewrite Hp2, Hp1, length_app in Hr. cbn [length] in Hr. lia.
      * destruct (get_gcloud_token_fails G log LOG_FILE_bound log_writable w Hok)
          as (msg & w1 & Htok & Hp1 & _).
        pose proof (same_naps_token w) as Hn1. rewrite Htok in Hn1. cbn [snd] in Hn1.
        unfold mbind at 1, M_bind at 1, bind at 1, try_except in Hr.
        unfold mbind at 1, M_bind at 1, bind at 1 in Hr. rewrite Htok in Hr.
        change (subclass TokenGenerationError TokenGenerationError) with true in Hr.
        cbv beta iota in Hr. rewrite (log_then G log LOG_FILE_bound log_writable) in Hr.
        subst r. cbn [snd logged set_files echoed naps posted ret fst].
        now rewrite Hn1, Hp1.
Qed.

End Pauses.

Section Pause_accounts.
Import Text Py Routes Observe LogFacts BoundFacts MuteFacts.
Context `{R : Runtime}.

(** In every namespace, whether the log file opens or not, the loop
    pauses exactly once per request it sends: after every call of
    [create_route_segment] that returns, also the last one and also a
    failed one, and not after a failed token fetch or when the cap stops
    it. *)
Theorem one_pause_per_request (G : gmap string gval) (K : Z)
    (pid : string) (config : config_t) (data : list coord_record)
    (created attempted : Z) (w : world) :
  exists n,
    length (posted (batch_loop G K pid config data created attempted w).2)
    = (length (posted w) + n)%nat /\
    naps (batch_loop G K pid config data created attempted w).2 = (naps w + n)%nat.
Proof.
  destruct (log_target_cases G) as [(log & HG & Hw) | (c0 & msg & He)].
  2:{ destruct (batch_loop_mute G c0 msg He K pid config data created attempted w)
        as [[Hp _] Hn].
      exists O. rewrite Hp, Hn, !Nat.add_0_r. split; reflexivity. }
  pose proof (batch_loop_naps G log HG Hw K pid config data created attempted w _ eq_refl)
    as Hn.
  destruct (batch_loop_plan G log HG Hw K pid config data created attempted w)
    as (w' & H).
  destruct (plan K pid config data created attempted (gcloud_runs w) (length (posted w)))
    as [[[c a] rqs] fetches].
  destruct H as (Hrun & Hp & _). rewrite Hrun in *. cbn [snd] in *.
  exists (length rqs). rewrite Hp, length_app in *. split; [reflexivity | lia].
Qed.

End Pause_accounts.

Section Loop_examples.
Import Text Py Routes Observe.

(** Two rows and a cap of 0. *)
Lemma loop_counters_are_bounded_witness :
  let R := Sample.runtime None Sample.gcloud_ok Sample.server_created in
  let G := Sample.globals_with_log "route_creator_log.txt" in
  let r := ((Sample.mk_decimal 15 1, Sample.mk_decimal 25 1),
            (Sample.mk_decimal 35 1, Sample.mk_decimal 45 1), Some "Elm St") in
  exists w',
    batch_loop G 0 "demo-project" (Sample.config_with "boston-" 0) [r; r] 0 0
      (Sample.fresh_world ∅) = (Ret (0, 0), w') /\
    posted w' = [] /\ gcloud_runs w' = O.
Proof.
  intros R0 G r.
  assert (HG : G !! "LOG_FILE" = Some (GStr "route_creator_log.txt"))
    by (vm_compute; reflexivity).
  destruct (@loop_counters_are_bounded R0 G "route_creator_log.txt" 0 "demo-project"
              (Sample.config_with "boston-" 0) [r; r] (Sample.fresh_world ∅) HG
              eq_refl)
    as (c & a & w' & rqs & Hrun & Hp & Hg & _ & _ & _ & _ & Hz).
  destruct (Hz ltac:(lia)) as (-> & -> & ->).
  exists w'. split; [exact Hrun|]. split; [exact Hp | exact Hg].
Defined.

(** Three rows, a cap of 1 and a server that answers 500 to everything. *)
Lemma failed_requests_do_not_count_witness :
  let R := Sample.runtime None Sample.gcloud_ok Sample.server_error in
  let G := Sample.globals_with_log "route_creator_log.txt" in
  let r := ((Sample.mk_decimal 15 1, Sample.mk_decimal 25 1),
            (Sample.mk_decimal 35 1, Sample.mk_decimal 45 1), Some "Elm St") in
  exists w',
    batch_loop G 1 "demo-project" (Sample.config_with "boston-" 1) [r; r; r] 0 0
      (Sample.fresh_world ∅) = (Ret (0, 3), w') /\
    length (posted w') = 3%nat.
Proof.
  intros R0 G r.
  assert (HG : G !! "LOG_FILE" = Some (GStr "route_creator_log.txt"))
    by (vm_compute; reflexivity).
  destruct (@failed_requests_do_not_count R0 G "route_creator_log.txt" 1
              "demo-project" (Sample.config_with "boston-" 1) [r; r; r]
              (Sample.fresh_world ∅) HG eq_refl (fun n => eq_refl)
              (fun n rq => eq_refl) ltac:(lia))
    as (w' & Hrun & Hp & _).
  exists w'. split; [exact Hrun|]. now rewrite Hp.
Defined.

(** The second request of a run over two rows. *)
Lemma ith_request_is_ith_row_witness :
  let R := Sample.runtime None Sample.gcloud_ok Sample.server_created in
  let G := Sample.globals_with_log "route_creator_log.txt" in
  let r1 := ((Sample.mk_decimal 15 1, Sample.mk_decimal 25 1),
             (Sample.mk_decimal 35 1, Sample.mk_decimal 45 1), Some "Elm St") in
  let r2 := ((Sample.mk_decimal 55 1, Sample.mk_decimal 65 1),
             (Sample.mk_decimal 75 1, Sample.mk_decimal 85 1), Some "Oak St") in
  let config := Sample.config_with "boston-" 100 in
  let rq := build_request "ya29.token" r2.1.1 r2.1.2 r2.2 2 "demo-project" config in
  posted (batch_loop G 100 "demo-project" config [r1; r2] 0 0
            (Sample.fresh_world ∅)).2 !! 1%nat = Some rq /\
  url rq = "https://roads.googleapis.com/selection/v1/projects/demo-project/selectedRoutes?selectedRouteId=boston-oak-st-2".
Proof.
  intros R0 G r1 r2 config rq.
  assert (HG : G !! "LOG_FILE" = Some (GStr "route_creator_log.txt"))
    by (vm_compute; reflexivity).
  assert (Hi : posted (@batch_loop R0 G 100 "demo-project" config [r1; r2] 0 0
                         (Sample.fresh_world ∅)).2
               !! (length (posted (@Sample.fresh_world R0 ∅)) + 1)%nat = Some rq)
    by (vm_compute; reflexivity).
  destruct (@ith_request_is_ith_row R0 G "route_creator_log.txt" 100 "demo-project"
              config [r1; r2] (Sample.fresh_world ∅) 1%nat rq HG Hi)
    as (o & d & name & Hd & Hrq & _).
  split; [exact Hi|]. rewrite Hrq. injection Hd as <- <- <-.
  vm_compute. reflexivity.
Defined.

(** Two rows, both sent: two pauses. *)
Lemma one_pause_per_request_example :
  let R := Sample.runtime None Sample.gcloud_ok Sample.server_created in
  let G := Sample.globals_with_log "route_creator_log.txt" in
  let r := ((Sample.mk_decimal 15 1, Sample.mk_decimal 25 1),
            (Sample.mk_decimal 35 1, Sample.mk_decimal 45 1), Some "Elm St") in
  let w' := (batch_loop G 100 "demo-project" (Sample.config_with "boston-" 100)
               [r; r] 0 0 (Sample.fresh_world ∅)).2 in
  length (posted w') = 2%nat /\ naps w' = 2%nat.
Proof.
  intros R0 G r w'.
  split; vm_compute; reflexivity.
Qed.

End Loop_examples.

(** ** Exit codes *)

Module ExitFacts.
Import Text Py Routes Observe LogFacts RowFacts.

Section Exits.
Context `{R : Runtime}.
Variable codes : Z -> Prop.

Lemma exits_ret {A : Type} (a : A) : exits_in codes (ret a).
Proof. intros w code H. discriminate H. Qed.

Lemma exits_raise_exc {A : Type} (c : exn_class) (msg : string) :
  exits_in codes (@raise R A (Exc c msg)).
Proof. intros w code H. discriminate H. Qed.

Lemma exits_raise_unmodelled {A : Type} : exits_in codes (@raise R A Unmodelled).
Proof. intros w code H. discriminate H. Qed.

Lemma exits_sys_exit {A : Type} (code : Z) :
  codes code -> exits_in codes (@sys_exit R A code).
Proof. intros Hc w code' [= <-]. exact Hc. Qed.

Lemma exits_bind {A B : Type} (m : M A) (k : A -> M B) :
  exits_in codes m -> (forall a, exits_in codes (k a)) -> exits_in codes (m ≫= k).
Proof.
  intros Hm Hk w code. unfold mbind, M_bind, bind.
  specialize (Hm w code). destruct (m w) as [[a|e] w']; cbn [fst] in *.
  - apply Hk.
  - intros [= ->]. now apply Hm.
Qed.

Lemma exits_try_except {A : Type} (body : M A)
    (handler : exn_class -> string -> option (M A)) :
  exits_in codes body ->
  (forall c msg h, handler c msg = Some h -> exits_in codes h) ->
  exits_in codes (try_except body handler).
Proof.
  intros Hb Hh w code. unfold try_except. specialize (Hb w code).
  destruct (body w) as [[a|[c msg|code'|]] w']; cbn [fst] in *; try exact Hb.
  destruct (handler c msg) as [h|] eqn:E; [|discriminate].
  now apply (Hh c msg h).
Qed.

Lemma exits_pure {A : Type} (m : M A) : pure m -> exits_in codes m.
Proof.
  intros (o & Hm & He) w code H. rewrite Hm in H. cbn [fst] in H.
  destruct (He _ H) as (c & msg & [=]).
Qed.

Ltac exit_step :=
  match goal with
  | |- exits_in _ (mbind _ _) => apply exits_bind; [| intros ?]
  | |- exits_in _ (try_except _ _) => apply exits_try_except; [| intros ? ? ? ?]
  | |- exits_in _ (ret _) => apply exits_ret
  | |- exits_in _ (raise (Exc _ _)) => apply exits_raise_exc
  | |- exits_in _ (raise Unmodelled) => apply exits_raise_unmodelled
  | H : (if ?b then _ else _) = Some _ |- _ => destruct b
  | H : Some _ = Some _ |- _ => injection H as <-
  | H : None = Some _ |- _ => discriminate H
  | |- exits_in _ (if ?b then _ else _) => destruct b
  | |- exits_in _ (let '(_, _) := ?p in _) => destruct p
  | |- exits_in _ (match ?x with _ => _ end) => destruct x
  end.

Lemma exits_print (s : string) : exits_in codes (print s).
Proof. intros w code H. discriminate H. Qed.

Lemma exits_eprint (s : string) : exits_in codes (eprint s).
Proof. intros w code H. discriminate H. Qed.

Lemma exits_now : exits_in codes now_strftime.
Proof. intros w code H. discriminate H. Qed.

Lemma exits_sleep : exits_in codes sleep.
Proof. intros w code H. discriminate H. Qed.

Lemma exits_truncate_file (path : string) : exits_in codes (truncate_file path).
Proof.
  intros w code H. unfold truncate_file in H.
  destruct (open_for_writing path) as [[c msg]|]; discriminate H.
Qed.

Lemma exits_append_file (path text : string) : exits_in codes (append_file path text).
Proof.
  intros w code H. unfold append_file in H.
  destruct (open_for_writing path) as [[c msg]|]; discriminate H.
Qed.

Lemma exits_read_file (path : string) : exits_in codes (read_file path).
Proof.
  intros w code H. unfold read_file in H. destruct (files w !! path); discriminate H.
Qed.

Lemma exits_run_gcloud : exits_in codes run_gcloud.
Proof.
  intros w code H. unfold run_gcloud in H.
  destruct (subprocess_run (gcloud_runs w)); discriminate H.
Qed.

Lemma exits_post (rq : request pyfloat) : exits_in codes (post rq).
Proof.
  intros w code H. unfold post in H.
  destruct (requests_post (length (posted w)) rq); discriminate H.
Qed.

Variable G : gmap string gval.

Lemma exits_global (name : string) : exits_in codes (global G name).
Proof. unfold global. destruct (G !! name); exit_step. Qed.

Lemma exits_as_path (v : gval) : exits_in codes (as_path v).
Proof. destruct v; cbn [as_path]; exit_step. Qed.

Lemma exits_write_log (message : string) : exits_in codes (write_log G message).
Proof.
  unfold write_log.
  repeat first [ exit_step | apply exits_now | apply exits_print
               | apply exits_global | apply exits_as_path | apply exits_append_file ].
Qed.

Lemma exits_load_config (filepath : string) : exits_in codes (load_config G filepath).
Proof.
  unfold load_config.
  repeat first [ exit_step | apply exits_read_file | apply exits_write_log ].
Qed.

Lemma exits_contains (col : string) (headers : option (list string)) :
  exits_in codes (contains col headers).
Proof. destruct headers; cbn [contains]; exit_step. Qed.

Lemma exits_all_contained (cols : list string) (headers : option (list string)) :
  exits_in codes (all_contained cols headers).
Proof.
  induction cols as [|col cols IH]; cbn [all_contained]; [exit_step|].
  apply exits_bind; [apply exits_contains|]. intros [|]; [exact IH | exit_step].
Qed.

Lemma exits_getitem {V : Type} (d : gmap string V) (key : string) :
  exits_in codes (getitem d key).
Proof. apply exits_pure, pure_getitem. Qed.

Lemma exits_parse_rows (fmt : csv_format_t) (b1 b2 : bool) (names : list string)
    (recs : list (list string)) :
  forall line_num parsed_data,
    exits_in codes (parse_rows G fmt b1 b2 names line_num recs parsed_data).
Proof.
  induction recs as [|rec recs IH]; intros line_num parsed_data; cbn [parse_rows].
  - exit_step.
  - apply exits_bind; [|intros ?; apply IH].
    repeat first [ apply exits_pure, pure_parse_row | exit_step | apply exits_write_log ].
Qed.

Lemma exits_read_csv (path : string) : exits_in codes (read_csv path).
Proof. unfold read_csv. repeat first [ exit_step | apply exits_read_file ]. Qed.

Lemma exits_parse_coordinate_file (path : string) (config : config_t) :
  exits_in codes (parse_coordinate_file G path config).
Proof.
  unfold parse_coordinate_file, detect_combined, detect_separate.
  repeat first [ apply exits_read_csv | apply exits_getitem | apply exits_contains
               | apply exits_all_contained | apply exits_parse_rows
               | apply exits_write_log | exit_step ].
Qed.

Lemma exits_get_gcloud_token : exits_in codes (get_gcloud_token G).
Proof.
  unfold get_gcloud_token.
  repeat first [ apply exits_run_gcloud | apply exits_write_log | exit_step ].
Qed.

Lemma exits_create_route_segment (token : string) (o d : pyfloat * pyfloat)
    (name : option string) (counter : Z) (pid : string) (config : config_t) :
  exits_in codes (create_route_segment G token o d name counter pid config).
Proof.
  unfold create_route_segment.
  repeat first [ apply exits_post | apply exits_write_log | exit_step ].
Qed.

Lemma exits_batch_loop (max_routes : Z) (pid : string) (config : config_t)
    (data : list coord_record) :
  forall created attempted,
    exits_in codes (batch_loop G max_routes pid config data created attempted).
Proof.
  induction data as [|[[o d] name] data IH]; intros created attempted;
    cbn [batch_loop].
  - exit_step.
  - destruct (created >=? max_routes).
    + repeat first [ apply exits_write_log | exit_step ].
    + apply exits_bind.
      * repeat first [ apply exits_get_gcloud_token | apply exits_write_log | exit_step ].
      * intros [token|]; [|exit_step].
        apply exits_bind; [apply exits_create_route_segment|].
        intros ok. apply exits_bind; [exact exits_sleep | intros ?; apply IH].
Qed.

(** [main_route_creator] leaves through [sys.exit] with code 1 only. *)
Lemma exits_main_route_creator (input config_path : string) :
  codes 1 -> exits_in codes (main_route_creator G input config_path).
Proof.
  intros H1. unfold main_route_creator.
  repeat first
    [ apply exits_write_log | apply exits_load_config | apply exits_truncate_file
    | apply exits_parse_coordinate_file | apply exits_batch_loop
    | apply (exits_sys_exit 1 H1) | exit_step ].
Qed.

End Exits.

End ExitFacts.

Section Exit_status.
Import Text Py Routes Observe LogFacts ExitFacts.
Context `{R : Runtime}.

(** Whatever the global namespace, the files and the answers from
    outside, in every run the model covers (no file is read whose bytes
    lie outside it): the script ends with exit status 0 or 1, and with 0
    exactly when [main_route_creator] returned normally.  Every exception
    that leaves [main_route_creator] ends in status 1, through the handler
    of the [__main__] block or through an exception raised in that
    handler, and no [sys.exit] of the script carries another code. *)
Theorem exit_status_is_0_or_1 (G : gmap string gval) (input config_path : string)
    (w : world) :
  (main_route_creator G input config_path w).1 <> Raise Unmodelled ->
  (script G input config_path w).1 <> Raise Unmodelled /\
  (exit_status (script G input config_path w).1 = 0 \/
   exit_status (script G input config_path w).1 = 1) /\
  (exit_status (script G input config_path w).1 = 0 <->
   (main_route_creator G input config_path w).1 = Ret tt).
Proof.
  intros Hmodel.
  pose proof (exits_main_route_creator (eq 1) G input config_path eq_refl w) as Hmain.
  destruct (script G input config_path w) as [o w'] eqn:Hs. cbn [fst].
  unfold script, try_except in Hs.
  destruct (main_route_creator G input config_path w) as [[[]|[c msg|code|]] w1];
    cbn [fst] in *.
  - injection Hs as <- <-. split; [discriminate|]. split; [now left|]. now split.
  - cbv beta iota in Hs. unfold global in Hs.
    assert (Ho : o <> Raise Unmodelled /\ exit_status o = 1).
    { destruct (G !! "LOG_FILE") as [[path|]|] eqn:E.
      - unfold mbind at 1, M_bind at 1, bind at 1 in Hs. cbn [ret as_path] in Hs.
        unfold mbind at 1, M_bind at 1, bind at 1 in Hs. cbn [ret] in Hs. cbv zeta in Hs.
        unfold mbind at 1, M_bind at 1, bind at 1 in Hs.
        destruct (open_for_writing path) as [[c0 msg0]|] eqn:Hw.
        + rewrite (write_log_unwritable G path _ c0 msg0 _ E Hw) in Hs.
          injection Hs as <- <-. split; [discriminate | reflexivity].
        + rewrite (write_log_bound G path _ _ E Hw) in Hs.
          unfold mbind at 1, M_bind at 1, bind at 1 in Hs.
          rewrite (write_log_bound G path _ _ E Hw) in Hs.
          injection Hs as <- <-. split; [discriminate | reflexivity].
      - injection Hs as <- <-. split; [discriminate | reflexivity].
      - injection Hs as <- <-. split; [discriminate | reflexivity]. }
    destruct Ho as [Hne Ho]. split; [exact Hne|].
    rewrite Ho. split; [now right|]. split; discriminate.
  - injection Hs as <- <-. specialize (Hmain code eq_refl). subst code. cbn.
    split; [discriminate|]. split; [now right|]. split; discriminate.
  - now destruct Hmodel.
Qed.

End Exit_status.

Section Exit_status_example.
Import Text Py Routes Observe.

(** The module as it stands ([LOG_FILE] unbound), on any files. *)
Lemma exit_status_is_0_or_1_witness :
  let R := Sample.runtime (Some (Sample.config_with "boston-" 100)) Sample.gcloud_ok
             Sample.server_created in
  let w := Sample.fresh_world
             (<["config.yaml" := "google_project_id: demo-project"]>
                (<["segments.csv" := Sample.bridge_csv]> ∅)) in
  exit_status (script module_globals "segments.csv" "config.yaml" w).1 = 1 /\
  (main_route_creator module_globals "segments.csv" "config.yaml" w).1 <> Ret tt.
Proof.
  intros R0 w.
  assert (Hm : (@main_route_creator R0 module_globals "segments.csv" "config.yaml" w).1
               <> Raise Unmodelled) by (vm_compute; discriminate).
  destruct (@exit_status_is_0_or_1 R0 module_globals "segments.csv" "config.yaml" w Hm)
    as (_ & [H | H] & Hiff).
  - apply Hiff in H. revert H. vm_compute. discriminate.
  - split; [exact H|]. vm_compute. discriminate.
Defined.

End Exit_status_example.

(** ** [main_route_creator] when logging works *)

Module MainFacts.
Import Text Py Routes Observe LogFacts ParseFacts BoundFacts Frame FrameLog FsFacts.

Section Frames.
Context `{R : Runtime}.
Variable G : gmap string gval.
Variable log : string.
Hypothesis LOG_FILE_bound : G !! "LOG_FILE" = Some (GStr log).

Lemma logged_files_ne (message p : string) (w : world) :
  ~ same_file p log -> files (logged log message w) !! p = files w !! p.
Proof. intros Hp. cbn [logged set_files files]. now rewrite fs_lookup_insert_ne. Qed.

Lemma started_files_ne (config : config_t) (p : string) (w : world) :
  ~ same_file p log -> ~ same_file p (log_path config) ->
  files (started log config w) !! p = files w !! p.
Proof.
  intros Hp Hl. unfold started, reset_file. cbn [set_files files].
  rewrite fs_lookup_insert_ne by exact Hl. now apply logged_files_ne.
Qed.

Lemma untouched_refl (w : world) : untouched_but log w w.
Proof. now intros p _. Qed.

Lemma untouched_trans (w1 w2 w3 : world) :
  untouched_but log w1 w2 -> untouched_but log w2 w3 -> untouched_but log w1 w3.
Proof. intros H1 H2 p Hp. now rewrite (H2 p Hp), (H1 p Hp). Qed.

(** Whether the log file opens or not, [write_log] changes no other
    file. *)
Lemma untouched_write_log (message : string) :
  stable (untouched_but log) (write_log G message).
Proof.
  intros w p Hp. rewrite write_log_spec. unfold log_target.
  rewrite LOG_FILE_bound.
  destruct (open_for_writing log) as [[c msg]|]; cbn [snd]; [reflexivity|].
  now apply logged_files_ne.
Qed.

Lemma untouched_run_gcloud : stable (untouched_but log) run_gcloud.
Proof.
  intros w p Hp. unfold run_gcloud. now destruct (subprocess_run (gcloud_runs w)).
Qed.

Lemma untouched_post (rq : request pyfloat) : stable (untouched_but log) (post rq).
Proof.
  intros w p Hp. unfold post. now destruct (requests_post (length (posted w)) rq).
Qed.

Lemma untouched_sleep : stable (untouched_but log) sleep.
Proof. now intros w p Hp. Qed.

(** After the reset only the file [LOG_FILE] names is written. *)
Lemma untouched_after_reset (input : string) (config : config_t) (pid : string)
    (max_routes : Z) :
  stable (untouched_but log) (after_reset G input config pid max_routes).
Proof.
  unfold after_reset.
  apply (stable_bind _ untouched_trans).
  { apply (log_parse_coordinate_file _ untouched_refl untouched_trans G
             untouched_write_log). }
  intros [[|r data]|].
  - apply untouched_write_log.
  - apply (stable_bind _ untouched_trans).
    { apply (log_batch_loop _ untouched_refl untouched_trans G untouched_write_log
               untouched_run_gcloud untouched_post untouched_sleep). }
    intros [c a].
    repeat (apply (stable_bind _ untouched_trans);
            [apply untouched_write_log | intros ?]).
    apply untouched_write_log.
  - apply (stable_bind _ untouched_trans); [apply untouched_write_log|].
    intros ?. apply (stable_sys_exit _ untouched_refl).
Qed.

End Frames.

Section MainFacts.
Context `{R : Runtime}.
Variable G : gmap string gval.
Variable log : string.
Hypothesis LOG_FILE_bound : G !! "LOG_FILE" = Some (GStr log).
Hypothesis log_writable : writable log.

Lemma load_config_missing (path : string) (w : world) :
  files w !! path = None ->
  load_config G path w
  = (Ret None,
     logged log ("Error: Configuration file '" +:+ path +:+ "' not found.") w).
Proof.
  intros Hf. unfold load_config, try_except, read_file.
  unfold mbind at 1, M_bind at 1, bind at 1. rewrite Hf.
  change (subclass FileNotFoundError FileNotFoundError) with true. cbv beta iota.
  now rewrite (log_then G log LOG_FILE_bound log_writable).
Qed.

Lemma load_config_loaded (path bytes : string) (loaded : option config_t) (w : world) :
  files w !! path = Some bytes ->
  yaml_safe_load bytes = YamlLoaded loaded ->
  load_config G path w = (Ret loaded, w).
Proof.
  intros Hf Hy. unfold load_config, try_except, read_file.
  unfold mbind at 1, M_bind at 1, bind at 1. now rewrite Hf, Hy.
Qed.

Lemma load_config_error (path bytes : string) (c : exn_class) (msg : string)
    (w : world) :
  files w !! path = Some bytes ->
  yaml_safe_load bytes = YamlRaises c msg ->
  subclass c FileNotFoundError || subclass c YAMLError = true ->
  exists message, load_config G path w = (Ret None, logged log message w).
Proof.
  intros Hf Hy Hc. unfold load_config, try_except, read_file.
  unfold mbind at 1, M_bind at 1, bind at 1. rewrite Hf, Hy.
  unfold raise at 1. cbv beta iota.
  destruct (subclass c FileNotFoundError); cbn [orb] in Hc.
  - eexists. now rewrite (log_then G log LOG_FILE_bound log_writable).
  - rewrite Hc. eexists. now rewrite (log_then G log LOG_FILE_bound log_writable).
Qed.

(** A configuration that names a project and a log file that opens: the
    run goes on to the reset and to what follows it. *)
Lemma main_with_config (input config_path : string) (config : config_t)
    (pid : string) (w : world) :
  ~ same_file config_path log ->
  writable (log_path config) ->
  project_is w config_path config pid ->
  main_route_creator G input config_path w
  = after_reset G input config pid (default 100 (max_routes_to_create config))
      (started log config w).
Proof.
  intros Hne Hwc (bytes & Hf & Hy & Hp & He).
  unfold main_route_creator. rewrite (log_then G log LOG_FILE_bound log_writable).
  rewrite <- (logged_files_ne log "Route Creator Script started." _ w Hne) in Hf.
  rewrite (bind_ret _ _ _ _ _ (load_config_loaded _ _ _ _ Hf Hy)).
  rewrite Hp, He.
  rewrite (bind_ret _ _ _ (started log config w) tt); [reflexivity|].
  unfold truncate_file. unfold writable, log_path in Hwc. now rewrite Hwc.
Qed.

(** No project: the run ends in [sys.exit(1)] before the reset. *)
Lemma main_no_project (input config_path : string) (w : world) :
  ~ same_file config_path log ->
  no_project w config_path = true ->
  exists w',
    main_route_creator G input config_path w = (Raise (SystemExit 1), w') /\
    offline w w' /\ errstream w' = errstream w /\ naps w' = naps w /\
    untouched_but log w w'.
Proof.
  intros Hne Hno. unfold no_project in Hno.
  unfold main_route_creator. rewrite (log_then G log LOG_FILE_bound log_writable).
  set (w0 := logged log "Route Creator Script started." w).
  assert (Hw0 : untouched_but log w w0)
    by (intros p Hp; now apply logged_files_ne).
  assert (Hlog : forall message,
             untouched_but log w (logged log message w0)).
  { intros message p Hp. rewrite logged_files_ne by exact Hp. now apply Hw0. }
  destruct (files w !! config_path) as [bytes|] eqn:Hf.
  - rewrite <- (Hw0 _ Hne) in Hf.
    destruct (yaml_safe_load bytes) as [[config|]|c msg] eqn:Hy.
    + rewrite (bind_ret _ _ _ _ _ (load_config_loaded _ _ _ _ Hf Hy)).
      destruct (google_project_id config) as [pid|].
      * rewrite Hno, (log_then G log LOG_FILE_bound log_writable).
        eexists. split; [reflexivity|]. repeat split. apply Hlog.
      * rewrite (log_then G log LOG_FILE_bound log_writable).
        eexists. split; [reflexivity|]. repeat split. apply Hlog.
    + rewrite (bind_ret _ _ _ _ _ (load_config_loaded _ _ _ _ Hf Hy)).
      eexists. split; [reflexivity|]. repeat split. exact Hw0.
    + destruct (load_config_error _ _ _ _ w0 Hf Hy Hno) as (message & Hl).
      rewrite (bind_ret _ _ _ _ _ Hl).
      eexists. split; [reflexivity|]. repeat split. apply Hlog.
  - rewrite <- (Hw0 _ Hne) in Hf.
    rewrite (bind_ret _ _ _ _ _ (load_config_missing _ _ Hf)).
    eexists. split; [reflexivity|]. repeat split. apply Hlog.
Qed.

End MainFacts.

End MainFacts.

Module ScriptFacts.
Import Text Py Routes Observe LogFacts ParseFacts BoundFacts MuteFacts MainFacts.
Import Frame FrameLog FsFacts.

Section Handler.
Context `{R : Runtime}.
Variable G : gmap string gval.

(** [SystemExit] is no [Exception]: the handler lets it pass. *)
Lemma script_passes_exit (input config_path : string) (w w' : world) (code : Z) :
  main_route_creator G input config_path w = (Raise (SystemExit code), w') ->
  script G input config_path w = (Raise (SystemExit code), w').
Proof. intros H. unfold script, try_except. now rewrite H. Qed.

Lemma script_returns (input config_path : string) (w w' : world) :
  main_route_creator G input config_path w = (Ret tt, w') ->
  script G input config_path w = (Ret tt, w').
Proof. intros H. unfold script, try_except. now rewrite H. Qed.

(** [load_config] returns a configuration only when the file holds one,
    and then leaves the world as it is. *)
Lemma load_config_Some_inv (path : string) (config : config_t) (w w1 : world) :
  load_config G path w = (Ret (Some config), w1) ->
  w1 = w /\
  exists bytes, files w !! path = Some bytes /\
                yaml_safe_load bytes = YamlLoaded (Some config).
Proof.
  unfold load_config, try_except, read_file.
  unfold mbind at 1, M_bind at 1, bind at 1.
  destruct (files w !! path) as [bytes|] eqn:Hf.
  - destruct (yaml_safe_load bytes) as [loaded|c msg] eqn:Hy.
    + intros [= -> <-]. split; [reflexivity|]. eauto.
    + unfold raise at 1. cbv beta iota.
      destruct (subclass c FileNotFoundError);
        [|destruct (subclass c YAMLError)];
        try (unfold mbind, M_bind, bind; rewrite write_log_spec;
             destruct (log_target G)); discriminate.
  - change (subclass FileNotFoundError FileNotFoundError) with true. cbv beta iota.
    unfold mbind, M_bind, bind. rewrite write_log_spec.
    destruct (log_target G); discriminate.
Qed.

End Handler.

Section ScriptFacts.
Context `{R : Runtime}.
Variable G : gmap string gval.
Variable log : string.
Hypothesis LOG_FILE_bound : G !! "LOG_FILE" = Some (GStr log).

(** An exception that leaves [main_route_creator] is reported and turned
    into exit status 1. *)
Lemma script_critical (input config_path : string) (w w1 : world)
    (c : exn_class) (msg : string) :
  writable log ->
  main_route_creator G input config_path w = (Raise (Exc c msg), w1) ->
  script G input config_path w = (Raise (SystemExit 1), critical log c msg w1).
Proof.
  intros Hw H. unfold script, try_except. rewrite H. cbv beta iota.
  unfold global. rewrite LOG_FILE_bound.
  unfold mbind at 1, M_bind at 1, bind at 1. cbn [ret as_path].
  unfold mbind at 1, M_bind at 1, bind at 1. cbn [ret]. cbv zeta.
  unfold mbind at 1, M_bind at 1, bind at 1.
  rewrite (write_log_bound G log _ _ LOG_FILE_bound Hw).
  unfold mbind at 1, M_bind at 1, bind at 1.
  rewrite (write_log_bound G log _ _ LOG_FILE_bound Hw).
  unfold mbind, M_bind, bind, eprint, sys_exit, raise, critical.
  cbn [files console errstream posted gcloud_runs clock_reads naps].
  now rewrite <- !app_assoc.
Qed.

Lemma critical_untouched (c : exn_class) (msg : string) (w : world) :
  untouched_but log w (critical log c msg w).
Proof.
  intros p Hp. unfold critical. cbn [files].
  now rewrite !(logged_files_ne log) by exact Hp.
Qed.

(** Whatever happens in [main_route_creator], and whether the log file
    opens or not, the script adds nothing but log lines to the files it
    found after the start. *)
Lemma script_untouched_after (input config_path : string) (w : world) :
  untouched_but log (main_route_creator G input config_path w).2
    (script G input config_path w).2.
Proof.
  destruct (main_route_creator G input config_path w) as [[[]|[c msg|code|]] w1] eqn:Hm;
    cbn [snd].
  - rewrite (script_returns _ _ _ _ _ Hm). apply untouched_refl.
  - destruct (open_for_writing log) as [[c0 msg0]|] eqn:Hw.
    + unfold script, try_except. rewrite Hm. cbv beta iota.
      unfold global. rewrite LOG_FILE_bound.
      unfold mbind at 1, M_bind at 1, bind at 1. cbn [ret as_path].
      unfold mbind at 1, M_bind at 1, bind at 1. cbn [ret]. cbv zeta.
      unfold mbind at 1, M_bind at 1, bind at 1.
      rewrite (write_log_unwritable G log _ c0 msg0 _ LOG_FILE_bound Hw).
      intros p Hp. reflexivity.
    + rewrite (script_critical _ _ _ _ _ _ Hw Hm). apply critical_untouched.
  - rewrite (script_passes_exit _ _ _ _ _ _ Hm). apply untouched_refl.
  - unfold script, try_except. rewrite Hm. apply untouched_refl.
Qed.

(** The files [main_route_creator] changes are the one [LOG_FILE] names
    and the log file of the configuration, if the run gets that far. *)
Lemma main_untouched (input config_path : string) (w : world) (p : string) :
  ~ same_file config_path log -> ~ same_file p log ->
  (forall config pid,
      project_is w config_path config pid -> ~ same_file p (log_path config)) ->
  files (main_route_creator G input config_path w).2 !! p = files w !! p.
Proof.
  intros Hne Hp Hlp.
  destruct (open_for_writing log) as [[c0 msg0]|] eqn:Hw.
  { assert (He : log_target G = Raise (Exc c0 msg0))
      by (unfold log_target; now rewrite LOG_FILE_bound, Hw).
    now rewrite (main_route_creator_mute G c0 msg0 He). }
  pose proof (untouched_write_log G log LOG_FILE_bound) as Hlogs.
  unfold main_route_creator. rewrite (log_then G log LOG_FILE_bound Hw).
  set (w0 := logged log "Route Creator Script started." w).
  assert (H0 : files w0 !! p = files w !! p) by now apply logged_files_ne.
  pose proof (log_load_config _ (untouched_refl log) (untouched_trans log) G
                Hlogs config_path w0 p Hp) as H1.
  destruct (load_config G config_path w0) as [[loaded|e] w1] eqn:Hload; cbn [snd] in H1.
  2:{ rewrite (bind_raise _ _ _ _ _ Hload). cbn [snd]. now rewrite H1. }
  rewrite (bind_ret _ _ _ _ _ Hload).
  destruct loaded as [config|]; [|unfold sys_exit, raise; cbn [snd]; now rewrite H1].
  destruct (load_config_Some_inv _ _ _ _ _ Hload) as (-> & bytes & Hf & Hy).
  unfold w0 in Hf. rewrite (logged_files_ne log) in Hf by exact Hne.
  destruct (google_project_id config) as [pid|] eqn:Hpid.
  2:{ rewrite (log_then G log LOG_FILE_bound Hw). unfold sys_exit, raise. cbn [snd].
      rewrite (logged_files_ne log) by exact Hp. exact H0. }
  destruct (is_empty pid) eqn:He.
  { rewrite (log_then G log LOG_FILE_bound Hw). unfold sys_exit, raise. cbn [snd].
    rewrite (logged_files_ne log) by exact Hp. exact H0. }
  assert (Hproj : project_is w config_path config pid) by (exists bytes; auto).
  specialize (Hlp config pid Hproj).
  destruct (open_for_writing (log_path config)) as [[c1 msg1]|] eqn:Hopen.
  { rewrite (bind_raise _ _ w0 w0 (Exc c1 msg1)); [exact H0|].
    unfold truncate_file. unfold log_path in Hopen. now rewrite Hopen. }
  rewrite (bind_ret _ _ w0 (reset_file (log_path config) w0) tt)
    by (unfold truncate_file; unfold log_path in Hopen; now rewrite Hopen).
  fold (after_reset G input config pid (default 100 (max_routes_to_create config))).
  rewrite (untouched_after_reset G log LOG_FILE_bound input config pid _ _ p Hp).
  unfold reset_file. cbn [set_files files]. rewrite fs_lookup_insert_ne by exact Hlp.
  exact H0.
Qed.

End ScriptFacts.

End ScriptFacts.

Section Main_outcomes.
Import Text Py Routes Observe LogFacts ParseFacts BoundFacts MainFacts ScriptFacts.
Import FsFacts.
Context `{R : Runtime}.

(** The test of lines 119-122 fails when one of the four columns is not
    in the header. *)
Lemma detect_separate_false (fmt : csv_format_t) (names : list string) (w : world) :
  separate_misses fmt names ->
  detect_separate false fmt (Some names) w = (Ret false, w).
Proof.
  intros [Hs | (cols & c1 & c2 & c3 & c4 & Hs & H1 & H2 & H3 & H4 & Hnot)];
    unfold detect_separate; rewrite Hs; [reflexivity|].
  unfold mbind, M_bind, bind.
  rewrite (getitem_Some _ _ _ _ H1), (getitem_Some _ _ _ _ H2),
    (getitem_Some _ _ _ _ H3), (getitem_Some _ _ _ _ H4).
  cbn [all_contained contains ret]. unfold mbind, M_bind, bind, isin. cbn [ret].
  destruct (bool_decide (c1 ∈ names)) eqn:E1; [|reflexivity].
  destruct (bool_decide (c2 ∈ names)) eqn:E2; [|reflexivity].
  destruct (bool_decide (c3 ∈ names)) eqn:E3; [|reflexivity].
  destruct (bool_decide (c4 ∈ names)) eqn:E4; [|reflexivity].
  apply bool_decide_eq_true_1 in E1, E2, E3, E4.
  destruct Hnot as [H | [H | [H | H]]]; now destruct H.
Qed.

(** With [LOG_FILE] bound to a path that opens for writing and that
    names another file than the configuration path: when the
    configuration file is missing, is not YAML, holds an empty document,
    or names no project, the script ends through [sys.exit(1)] before it
    resets any log file, reads the input, runs [gcloud] or sends anything;
    it prints nothing to the error stream and changes no file but the one
    [LOG_FILE] names, under whatever spelling of its path. *)
Theorem unusable_config_exits_1 (G : gmap string gval) (log input config_path : string)
    (w : world) :
  G !! "LOG_FILE" = Some (GStr log) ->
  writable log ->
  ~ same_file config_path log ->
  no_project w config_path = true ->
  exists w',
    main_route_creator G input config_path w = (Raise (SystemExit 1), w') /\
    script G input config_path w = (Raise (SystemExit 1), w') /\
    exit_status (script G input config_path w).1 = 1 /\
    offline w w' /\ errstream w' = errstream w /\ untouched_but log w w'.
Proof.
  intros HG Hw Hne Hno.
  destruct (main_no_project G log HG Hw input config_path w Hne Hno)
    as (w' & Hmain & Hoff & Herr & _ & Hun).
  exists w'. rewrite (script_passes_exit G _ _ _ _ _ Hmain).
  repeat split; try assumption; apply Hoff.
Qed.

(** With [LOG_FILE] bound, both log files opening for writing, neither
    of them the input or (for [LOG_FILE]) the configuration file, and a
    configuration that names a project: when the header of the input has
    the columns of neither encoding, the script logs the mismatch and
    leaves through [sys.exit(1)]; no row is read, and the world it leaves
    is the one after the reset with these two lines logged. *)
Theorem header_mismatch_exits_1 (G : gmap string gval)
    (log input config_path : string) (config : config_t) (pid bytes text : string)
    (names : list string) (recs : list (list string)) (w : world) :
  G !! "LOG_FILE" = Some (GStr log) ->
  writable log -> writable (log_path config) ->
  ~ same_file config_path log -> ~ same_file input log ->
  ~ same_file input (log_path config) ->
  project_is w config_path config pid ->
  files w !! input = Some bytes ->
  Codec.utf_8_sig_decode bytes = Some text ->
  Csv.reader_rows (Codec.universal_newlines text) = names :: recs ->
  combined_misses (csv_format_of config) names ->
  separate_misses (csv_format_of config) names ->
  script G input config_path w
  = (Raise (SystemExit 1),
     logged log "Exiting due to error in parsing the input file."
       (logged log
          "Error: CSV headers do not match any coordinate format in the config file."
          (started log config w))).
Proof.
  intros HG Hw Hwc Hne Hil Hic Hproj Hf Hdec Hrows Hcomb Hsep.
  apply script_passes_exit.
  rewrite (main_with_config G log HG Hw input config_path config pid w Hne Hwc Hproj).
  rewrite <- (started_files_ne log config input w Hil Hic) in Hf.
  unfold after_reset, parse_coordinate_file.
  unfold mbind at 1, M_bind at 1, bind at 1.
  unfold mbind at 1, M_bind at 1, bind at 1.
  rewrite (read_csv_ok _ _ _ _ Hf Hdec), Hrows. cbn [Csv.fieldnames head].
  unfold mbind at 1, M_bind at 1, bind at 1.
  rewrite (detect_combined_false _ _ _ Hcomb).
  unfold mbind at 1, M_bind at 1, bind at 1.
  rewrite (detect_separate_false _ _ _ Hsep). cbn [negb andb].
  rewrite (log_then G log HG Hw). cbn [ret].
  now rewrite (log_then G log HG Hw).
Qed.

(** With [LOG_FILE] bound, both log files opening for writing, neither
    of them the input or (for [LOG_FILE]) the configuration file, and a
    configuration that names a project: when
    the input has the header of the combined encoding and no row that
    parses (no rows at all, or only rows that are skipped), the script
    logs that it found no data and returns normally: exit status 0,
    nothing sent, [gcloud] not run. *)
Theorem no_rows_exits_0 (G : gmap string gval)
    (log input config_path : string) (config : config_t) (pid bytes text : string)
    (cols : gmap string string) (ocol dcol : string)
    (names : list string) (recs : list (list string)) (w : world) :
  G !! "LOG_FILE" = Some (GStr log) ->
  writable log -> writable (log_path config) ->
  ~ same_file config_path log -> ~ same_file input log ->
  ~ same_file input (log_path config) ->
  project_is w config_path config pid ->
  files w !! input = Some bytes ->
  Codec.utf_8_sig_decode bytes = Some text ->
  Csv.reader_rows (Codec.universal_newlines text) = names :: recs ->
  combined_coordinates (csv_format_of config) = Some cols ->
  cols !! "origin_coord_column" = Some ocol ->
  cols !! "destination_coord_column" = Some dcol ->
  ocol ∈ names -> dcol ∈ names ->
  omap (parsed_row (csv_format_of config) true false names)
    (Csv.data_records (names :: recs)) = [] ->
  exists w3,
    script G input config_path w
    = (Ret tt, logged log "No data found in the input file. Exiting." w3) /\
    exit_status (script G input config_path w).1 = 0 /\
    offline w w3.
Proof.
  intros HG Hw Hwc Hne Hil Hic Hproj Hf Hdec Hrows Hc Ho Hd Hio Hid Hnone.
  rewrite <- (started_files_ne log config input w Hil Hic) in Hf.
  destruct (parse_rows_skips G log (csv_format_of config) true false names
              (Csv.data_records (names :: recs)) 2 [] (started log config w) HG Hw)
    as (w3 & Hrun & _ & _ & Hoff).
  rewrite Hnone in Hrun. cbn [app] in Hrun.
  assert (Hmain : main_route_creator G input config_path w
                  = (Ret tt, logged log "No data found in the input file. Exiting." w3)).
  { rewrite (main_with_config G log HG Hw input config_path config pid w Hne Hwc Hproj).
    unfold after_reset. unfold mbind at 1, M_bind at 1, bind at 1.
    rewrite (parse_coordinate_file_combined G _ _ _ _ _ _ _ _ _ _
               Hf Hdec Hrows Hc Ho Hd Hio Hid).
    unfold mbind at 1, M_bind at 1, bind at 1. rewrite Hrun. cbn [ret].
    now rewrite (write_log_bound G log _ _ HG Hw). }
  exists w3. rewrite (script_returns G _ _ _ _ Hmain).
  split; [reflexivity|]. split; [reflexivity|]. exact Hoff.
Qed.

(** With [LOG_FILE] bound, both log files opening for writing, neither
    of them the input or (for [LOG_FILE]) the configuration file, and a
    configuration that names a project: a
    missing input file is not handled in [parse_coordinate_file]; the
    [FileNotFoundError] of [open] leaves [main_route_creator] after the
    reset, and the handler of the [__main__] block turns it into two log
    lines, three items on the error stream and exit status 1. *)
Theorem missing_input_is_critical (G : gmap string gval)
    (log input config_path : string) (config : config_t) (pid : string) (w : world) :
  G !! "LOG_FILE" = Some (GStr log) ->
  writable log -> writable (log_path config) ->
  ~ same_file config_path log -> ~ same_file input log ->
  ~ same_file input (log_path config) ->
  project_is w config_path config pid ->
  files w !! input = None ->
  let msg := "[Errno 2] No such file or directory: " +:+ repr_str input in
  main_route_creator G input config_path w
  = (Raise (Exc FileNotFoundError msg), started log config w) /\
  script G input config_path w
  = (Raise (SystemExit 1), critical log FileNotFoundError msg (started log config w)) /\
  offline w (critical log FileNotFoundError msg (started log config w)).
Proof.
  intros HG Hw Hwc Hne Hil Hic Hproj Hf msg.
  rewrite <- (started_files_ne log config input w Hil Hic) in Hf.
  assert (Hmain : main_route_creator G input config_path w
                  = (Raise (Exc FileNotFoundError msg), started log config w)).
  { rewrite (main_with_config G log HG Hw input config_path config pid w Hne Hwc Hproj).
    unfold after_reset, parse_coordinate_file, read_csv, read_file.
    unfold mbind, M_bind, bind. now rewrite Hf. }
  split; [exact Hmain|]. split.
  - now apply script_critical.
  - split; reflexivity.
Qed.

(** With [LOG_FILE] bound to a path, whether the log files open for
    writing or not: the only files a run of the script changes are the
    file [LOG_FILE] names and the log file named by the configuration.
    Every path that names neither of these two files, under any spelling
    of their paths, and so the input and the configuration when they are
    other files, holds the same bytes afterwards, however the run ends. *)
Theorem only_log_files_are_written (G : gmap string gval)
    (log input config_path p : string) (w : world) :
  G !! "LOG_FILE" = Some (GStr log) ->
  ~ same_file config_path log -> ~ same_file p log ->
  (forall config pid,
      project_is w config_path config pid -> ~ same_file p (log_path config)) ->
  files (script G input config_path w).2 !! p = files w !! p.
Proof.
  intros HG Hne Hp Hlp.
  rewrite (script_untouched_after G log HG input config_path w p Hp).
  now apply (main_untouched G log HG).
Qed.

(** With [LOG_FILE] bound to a path that names another file than the
    [log_file] of the configuration, and both opening for writing: the
    file the configuration names is emptied and never written: it is
    empty after every run that gets past the configuration checks, however
    that run ends, and it reads empty under every spelling of its path.
    All log lines go to the file [LOG_FILE] names. *)
Theorem config_log_file_stays_empty (G : gmap string gval)
    (log input config_path p : string) (config : config_t) (pid : string)
    (w : world) :
  G !! "LOG_FILE" = Some (GStr log) ->
  writable log -> writable (log_path config) ->
  ~ same_file config_path log ->
  project_is w config_path config pid ->
  ~ same_file (log_path config) log ->
  same_file p (log_path config) ->
  files (script G input config_path w).2 !! p = Some EmptyString.
Proof.
  intros HG Hw Hwc Hne Hproj Hl Hp.
  rewrite (fs_lookup_same _ p (log_path config) Hp).
  rewrite (script_untouched_after G log HG input config_path w _ Hl).
  rewrite (main_with_config G log HG Hw input config_path config pid w Hne Hwc Hproj).
  rewrite (untouched_after_reset G log HG input config pid _ _ _ Hl).
  unfold started, reset_file. cbn [set_files files]. apply fs_lookup_insert_eq.
Qed.

End Main_outcomes.

Section Main_outcome_examples.
Import Text Py Routes Observe.

(** No configuration file at all. *)
Lemma unusable_config_exits_1_witness :
  let R := Sample.runtime None Sample.gcloud_ok Sample.server_created in
  let G := Sample.globals_with_log "route_creator_log.txt" in
  let w := Sample.fresh_world (<["segments.csv" := Sample.bridge_csv]> ∅) in
  exists w',
    script G "segments.csv" "config.yaml" w = (Raise (SystemExit 1), w') /\
    posted w' = [] /\ gcloud_runs w' = O /\
    files w' !! "segments.csv" = Some Sample.bridge_csv.
Proof.
  intros R0 G w.
  assert (HG : G !! "LOG_FILE" = Some (GStr "route_creator_log.txt"))
    by (vm_compute; reflexivity).
  assert (Hno : @no_project R0 w "config.yaml" = true) by (vm_compute; reflexivity).
  assert (Hne : ~ @same_file R0 "config.yaml" "route_creator_log.txt")
    by (vm_compute; discriminate).
  assert (Hin : ~ @same_file R0 "segments.csv" "route_creator_log.txt")
    by (vm_compute; discriminate).
  destruct (@unusable_config_exits_1 R0 G "route_creator_log.txt" "segments.csv"
              "config.yaml" w HG eq_refl Hne Hno)
    as (w' & _ & Hs & _ & [Hp Hg] & _ & Hun).
  exists w'. split; [exact Hs|]. split; [exact Hp|]. split; [exact Hg|].
  rewrite (Hun "segments.csv" Hin). reflexivity.
Defined.

(** A file in the combined layout read with a configuration that names
    the separate encoding only. *)
Lemma header_mismatch_exits_1_witness :
  let R := Sample.runtime (Some Sample.config_separate) Sample.gcloud_ok
             Sample.server_created in
  let G := Sample.globals_with_log "run.log" in
  let w := Sample.fresh_world
             (<["config.yaml" := "google_project_id: demo-project"]>
                (<["segments.csv" := Sample.bridge_csv]> ∅)) in
  (script G "segments.csv" "config.yaml" w).1 = Raise (SystemExit 1) /\
  posted (script G "segments.csv" "config.yaml" w).2 = [].
Proof.
  intros R0 G w.
  assert (HG : G !! "LOG_FILE" = Some (GStr "run.log")) by (vm_compute; reflexivity).
  assert (Hproj : @project_is R0 w "config.yaml" Sample.config_separate "demo-project").
  { exists "google_project_id: demo-project". repeat split; reflexivity. }
  assert (Hrows : Csv.reader_rows (Codec.universal_newlines Sample.bridge_csv)
                  = ["name"; "origin"; "dest"]
                    :: [["Main St Bridge"; "(42.35, -71.06)"; "(42.36, -71.05)"]])
    by (vm_compute; reflexivity).
  assert (Hdec : Codec.utf_8_sig_decode Sample.bridge_csv = Some Sample.bridge_csv)
    by (vm_compute; reflexivity).
  assert (Hsep : separate_misses (csv_format_of Sample.config_separate)
                   ["name"; "origin"; "dest"]).
  { right. exists Sample.separate_cols, "olat", "olon", "dlat", "dlon".
    repeat (split; [reflexivity|]). left.
    apply (bool_decide_eq_false_1 ("olat" ∈ ["name"; "origin"; "dest"])).
    vm_compute. reflexivity. }
  assert (Hne : ~ @same_file R0 "config.yaml" "run.log")
    by (vm_compute; discriminate).
  assert (Hil : ~ @same_file R0 "segments.csv" "run.log")
    by (vm_compute; discriminate).
  assert (Hic : ~ @same_file R0 "segments.csv" "route_creator_log.txt")
    by (vm_compute; discriminate).
  rewrite (@header_mismatch_exits_1 R0 G "run.log" "segments.csv" "config.yaml"
             Sample.config_separate "demo-project" Sample.bridge_csv Sample.bridge_csv
             ["name"; "origin"; "dest"]
             [["Main St Bridge"; "(42.35, -71.06)"; "(42.36, -71.05)"]] w
             HG eq_refl eq_refl Hne Hil Hic
             Hproj eq_refl Hdec Hrows (or_introl eq_refl) Hsep).
  split; reflexivity.
Defined.

(** A file with a header and no row. *)
Lemma no_rows_exits_0_witness :
  let R := Sample.runtime (Some (Sample.config_with "boston-" 100)) Sample.gcloud_ok
             Sample.server_created in
  let G := Sample.globals_with_log "run.log" in
  let w := Sample.fresh_world
             (<["config.yaml" := "google_project_id: demo-project"]>
                (<["segments.csv" := Sample.header_only_csv]> ∅)) in
  (script G "segments.csv" "config.yaml" w).1 = Ret tt /\
  exit_status (script G "segments.csv" "config.yaml" w).1 = 0.
Proof.
  intros R0 G w.
  assert (HG : G !! "LOG_FILE" = Some (GStr "run.log")) by (vm_compute; reflexivity).
  assert (Hproj : @project_is R0 w "config.yaml" (Sample.config_with "boston-" 100)
                    "demo-project").
  { exists "google_project_id: demo-project". repeat split; reflexivity. }
  assert (Hrows : Csv.reader_rows (Codec.universal_newlines Sample.header_only_csv)
                  = ["name"; "origin"; "dest"] :: [])
    by (vm_compute; reflexivity).
  assert (Hdec : Codec.utf_8_sig_decode Sample.header_only_csv
                 = Some Sample.header_only_csv) by (vm_compute; reflexivity).
  assert (Hne : ~ @same_file R0 "config.yaml" "run.log")
    by (vm_compute; discriminate).
  assert (Hil : ~ @same_file R0 "segments.csv" "run.log")
    by (vm_compute; discriminate).
  assert (Hic : ~ @same_file R0 "segments.csv" "route_creator_log.txt")
    by (vm_compute; discriminate).
  destruct (@no_rows_exits_0 R0 G "run.log" "segments.csv" "config.yaml"
              (Sample.config_with "boston-" 100) "demo-project"
              Sample.header_only_csv Sample.header_only_csv Sample.combined_cols
              "origin" "dest" ["name"; "origin"; "dest"] [] w
              HG eq_refl eq_refl Hne Hil Hic
              Hproj eq_refl Hdec Hrows eq_refl eq_refl eq_refl
              ltac:(repeat constructor) ltac:(repeat constructor) eq_refl)
    as (w3 & Hs & He & _).
  split; [now rewrite Hs | exact He].
Defined.

(** The configuration is there, the input file is not. *)
Lemma missing_input_is_critical_witness :
  let R := Sample.runtime (Some (Sample.config_with "boston-" 100)) Sample.gcloud_ok
             Sample.server_created in
  let G := Sample.globals_with_log "run.log" in
  let w := Sample.fresh_world
             (<["config.yaml" := "google_project_id: demo-project"]> ∅) in
  (script G "segments.csv" "config.yaml" w).1 = Raise (SystemExit 1) /\
  length (errstream (script G "segments.csv" "config.yaml" w).2) = 3%nat /\
  (main_route_creator G "segments.csv" "config.yaml" w).1
  = Raise (Exc FileNotFoundError
             "[Errno 2] No such file or directory: 'segments.csv'").
Proof.
  intros R0 G w.
  assert (HG : G !! "LOG_FILE" = Some (GStr "run.log")) by (vm_compute; reflexivity).
  assert (Hproj : @project_is R0 w "config.yaml" (Sample.config_with "boston-" 100)
                    "demo-project").
  { exists "google_project_id: demo-project". repeat split; reflexivity. }
  assert (Hne : ~ @same_file R0 "config.yaml" "run.log")
    by (vm_compute; discriminate).
  assert (Hil : ~ @same_file R0 "segments.csv" "run.log")
    by (vm_compute; discriminate).
  assert (Hic : ~ @same_file R0 "segments.csv" "route_creator_log.txt")
    by (vm_compute; discriminate).
  destruct (@missing_input_is_critical R0 G "run.log" "segments.csv" "config.yaml"
              (Sample.config_with "boston-" 100) "demo-project" w
              HG eq_refl eq_refl Hne Hil Hic Hproj eq_refl)
    as (Hm & Hs & _).
  rewrite Hs, Hm. repeat split; reflexivity.
Defined.

(** A complete run over the example file: the input is as it was. *)
Lemma only_log_files_are_written_witness :
  let R := Sample.runtime (Some (Sample.config_with "boston-" 100)) Sample.gcloud_ok
             Sample.server_created in
  let G := Sample.globals_with_log "run.log" in
  let w := Sample.fresh_world
             (<["config.yaml" := "google_project_id: demo-project"]>
                (<["segments.csv" := Sample.bridge_csv]> ∅)) in
  files (script G "segments.csv" "config.yaml" w).2 !! "segments.csv"
  = Some Sample.bridge_csv /\
  length (posted (script G "segments.csv" "config.yaml" w).2) = 1%nat.
Proof.
  intros R0 G w.
  assert (HG : G !! "LOG_FILE" = Some (GStr "run.log")) by (vm_compute; reflexivity).
  assert (Hne : ~ @same_file R0 "config.yaml" "run.log")
    by (vm_compute; discriminate).
  assert (Hil : ~ @same_file R0 "segments.csv" "run.log")
    by (vm_compute; discriminate).
  split; [|vm_compute; reflexivity].
  rewrite (@only_log_files_are_written R0 G "run.log" "segments.csv" "config.yaml"
             "segments.csv" w HG Hne Hil).
  - reflexivity.
  - intros config pid (bytes & _ & Hy & _). injection Hy as <-.
    vm_compute. discriminate.
Defined.

(** The log file of the configuration held a line of an earlier run; it
    is read back under another spelling of its path. *)
Lemma config_log_file_stays_empty_witness :
  let R := Sample.runtime (Some (Sample.config_with "boston-" 100)) Sample.gcloud_ok
             Sample.server_created in
  let G := Sample.globals_with_log "run.log" in
  let w := Sample.fresh_world
             (<["route_creator_log.txt" := "an earlier run"]>
                (<["config.yaml" := "google_project_id: demo-project"]>
                   (<["segments.csv" := Sample.bridge_csv]> ∅))) in
  files (script G "segments.csv" "config.yaml" w).2 !! "./route_creator_log.txt"
  = Some EmptyString /\
  length (posted (script G "segments.csv" "config.yaml" w).2) = 1%nat.
Proof.
  intros R0 G w.
  assert (HG : G !! "LOG_FILE" = Some (GStr "run.log")) by (vm_compute; reflexivity).
  assert (Hproj : @project_is R0 w "config.yaml" (Sample.config_with "boston-" 100)
                    "demo-project").
  { exists "google_project_id: demo-project". repeat split; reflexivity. }
  assert (Hne : ~ @same_file R0 "config.yaml" "run.log")
    by (vm_compute; discriminate).
  assert (Hl : ~ @same_file R0 (log_path (Sample.config_with "boston-" 100)) "run.log")
    by (vm_compute; discriminate).
  split; [|vm_compute; reflexivity].
  exact (@config_log_file_stays_empty R0 G "run.log" "segments.csv" "config.yaml"
           "./route_creator_log.txt" (Sample.config_with "boston-" 100)
           "demo-project" w HG eq_refl eq_refl Hne Hproj Hl eq_refl).
Defined.

End Main_outcome_examples.

Section Identifier_characters.
Import Text Py Routes Observe TextFacts.

Lemma forallb_str_filter (p : ascii -> bool) (s : string) :
  forallb_str p (filter_str p s) = true.
Proof.
  induction s as [|c s IH]; cbn [filter_str]; [reflexivity|].
  destruct (p c) eqn:E; [cbn [forallb_str]; now rewrite E | exact IH].
Qed.

Lemma forallb_str_impl (p q : ascii -> bool) (s : string) :
  (forall c, p c = true -> q c = true) ->
  forallb_str p s = true -> forallb_str q s = true.
Proof.
  intros Hpq. induction s as [|c s IH]; cbn [forallb_str]; [reflexivity|].
  intros H. apply andb_prop in H as [Hc Hs]. now rewrite (Hpq c Hc), (IH Hs).
Qed.

Lemma digit_is_route_char (c : ascii) : is_digit c = true -> is_route_char c = true.
Proof. unfold is_digit, is_route_char. intros ->. now rewrite orb_true_r. Qed.

Lemma route_stem_chars (display_name : option string) :
  forallb_str is_route_char (route_stem display_name) = true.
Proof.
  unfold route_stem. destruct display_name as [name|]; [|reflexivity].
  destruct (is_empty name); [reflexivity|]. apply forallb_str_filter.
Qed.

(** The part of a route identifier after the prefix is made of
    lower-case ASCII letters, digits and hyphens only, whatever the
    display name: every other character of the name is dropped, spaces
    become hyphens, capitals become lower case.  With a prefix of such
    characters the whole identifier is. *)
Theorem route_id_characters (config : config_t) (display_name : option string)
    (counter : Z) :
  0 <= counter ->
  exists stem,
    selected_route_id config display_name counter
    = default EmptyString (route_name_prefix config)
      +:+ stem +:+ "-" +:+ str_of_Z counter /\
    forallb_str is_route_char (stem +:+ "-" +:+ str_of_Z counter) = true /\
    (forallb_str is_route_char (default EmptyString (route_name_prefix config)) = true ->
     forallb_str is_route_char (selected_route_id config display_name counter) = true).
Proof.
  intros Hc. exists (route_stem display_name).
  assert (Htail : forallb_str is_route_char
                    (route_stem display_name +:+ "-" +:+ str_of_Z counter) = true).
  { rewrite !forallb_str_app, route_stem_chars.
    rewrite (forallb_str_impl is_digit is_route_char _ digit_is_route_char
               (str_of_Z_digits counter Hc)).
    reflexivity. }
  split; [apply selected_route_id_shape|]. split; [exact Htail|].
  intros Hp. rewrite selected_route_id_shape, forallb_str_app, Hp. exact Htail.
Qed.

End Identifier_characters.

Section Identifier_characters_example.
Import Text Py Routes Observe.

(** A display name with capitals, a point, a sign and a digit. *)
Lemma route_id_characters_witness :
  selected_route_id (Sample.config_with "boston-" 100) (Some "Main St. Bridge #2") 7
  = "boston-main-st-bridge-2-7" /\
  forallb_str is_route_char
    (selected_route_id (Sample.config_with "boston-" 100)
       (Some "Main St. Bridge #2") 7) = true.
Proof.
  destruct (route_id_characters (Sample.config_with "boston-" 100)
              (Some "Main St. Bridge #2") 7 ltac:(lia)) as (stem & _ & _ & H).
  split; [vm_compute; reflexivity | apply H; reflexivity].
Defined.

End Identifier_characters_example.

Module DictFacts.
Import Text Py Routes Observe.

Lemma elem_of_drop_list {A : Type} (x : A) (n : nat) (l : list A) :
  x ∈ drop n l -> x ∈ l.
Proof.
  revert l. induction n as [|n IH]; intros [|y l]; cbn [drop]; auto.
  intros H. apply list_elem_of_further. now apply IH.
Qed.

Lemma fold_insert_cells_ne (col : string) (l : list (string * string)) :
  forall d : gmap string (option string),
    (forall kv, kv ∈ l -> kv.1 <> col) ->
    fold_left (fun d kv => <[kv.1 := Some kv.2]> d) l d !! col = d !! col.
Proof.
  induction l as [|kv l IH]; intros d Hl; cbn [fold_left]; [reflexivity|].
  rewrite IH.
  - apply lookup_insert_ne, Hl. apply list_elem_of_here.
  - intros kv' Hin. apply Hl. now apply list_elem_of_further.
Qed.

Lemma fold_insert_none_ne (col : string) (l : list string) :
  forall d : gmap string (option string),
    (forall k, k ∈ l -> k <> col) ->
    fold_left (fun d k => <[k := None]> d) l d !! col = d !! col.
Proof.
  induction l as [|k l IH]; intros d Hl; cbn [fold_left]; [reflexivity|].
  rewrite IH.
  - apply lookup_insert_ne, Hl. apply list_elem_of_here.
  - intros k' Hin. apply Hl. now apply list_elem_of_further.
Qed.

(** The keys of a row are field names: a column that is not in the
    header is not in any row. *)
Lemma row_dict_not_in_header (names rec : list string) (col : string) :
  col ∉ names -> Csv.row_dict names rec !! col = None.
Proof.
  intros Hnot. unfold Csv.row_dict.
  rewrite fold_insert_none_ne.
  - rewrite fold_insert_cells_ne; [apply lookup_empty|].
    intros [k v] Hin E. cbn [fst] in E. subst k. apply Hnot.
    now apply elem_of_zip_l in Hin.
  - intros k Hin ->. apply Hnot. now apply elem_of_drop_list in Hin.
Qed.

End DictFacts.

Section Row_edges.
Import Text Py Routes Observe LogFacts ParseFacts BoundFacts DictFacts.
Context `{R : Runtime}.

(** Under the combined encoding, a row that is short of the origin or
    the destination cell (the cell is [None]) raises [TypeError] in the
    pattern search.  That is neither [ValueError] nor [KeyError], so the
    second [except] clause takes it: with [LOG_FILE] bound to a path
    that opens for writing the row is logged as an unexpected error, not
    as a warning, and the loop goes on with the next row. *)
Theorem short_row_is_unexpected_error (G : gmap string gval) (log : string)
    (fmt : csv_format_t) (use_separate : bool) (cols : gmap string string)
    (ocol dcol : string) (oc dc : option string) (names rec : list string)
    (recs : list (list string)) (line_num : Z) (parsed_data : list coord_record)
    (w : world) :
  combined_coordinates fmt = Some cols ->
  cols !! "origin_coord_column" = Some ocol ->
  cols !! "destination_coord_column" = Some dcol ->
  Csv.row_dict names rec !! ocol = Some oc ->
  Csv.row_dict names rec !! dcol = Some dc ->
  oc = None \/ dc = None ->
  exists msg,
    parse_row fmt true use_separate (Csv.row_dict names rec) w
    = (Raise (Exc TypeError msg), w) /\
    (G !! "LOG_FILE" = Some (GStr log) ->
     writable log ->
     parse_rows G fmt true use_separate names line_num (rec :: recs) parsed_data w
     = parse_rows G fmt true use_separate names (line_num + 1) recs parsed_data
         (logged log
            ("An unexpected error occurred at row " +:+ str_of_Z line_num +:+ ": "
             +:+ msg +:+ ". Row: " +:+ repr_row names rec) w)).
Proof.
  intros Hc Ho Hd Hro Hrd Hnone.
  assert (Hrow : exists msg,
             parse_row fmt true use_separate (Csv.row_dict names rec) w
             = (Raise (Exc TypeError msg), w)).
  { unfold parse_row. rewrite Hc. cbn [require_columns].
    unfold mbind at 1, M_bind at 1, bind at 1. cbn [ret].
    unfold mbind at 1, M_bind at 1, bind at 1. rewrite (getitem_Some _ _ _ _ Ho).
    unfold mbind at 1, M_bind at 1, bind at 1. rewrite (getitem_Some _ _ _ _ Hro).
    unfold mbind at 1, M_bind at 1, bind at 1. rewrite (getitem_Some _ _ _ _ Hd).
    unfold mbind at 1, M_bind at 1, bind at 1. rewrite (getitem_Some _ _ _ _ Hrd).
    unfold regex_search, mbind, M_bind, bind. cbn [ret].
    destruct Hnone as [-> | ->].
    - eexists. reflexivity.
    - destruct oc; eexists; reflexivity. }
  destruct Hrow as (msg & Hrow). exists msg. split; [exact Hrow|]. intros HG Hw.
  cbn [parse_rows]. unfold mbind at 1, M_bind at 1, bind at 1, try_except.
  unfold mbind at 1, M_bind at 1, bind at 1. rewrite Hrow.
  change (subclass TypeError ValueError || subclass TypeError KeyError) with false.
  cbv beta iota. rewrite (@log_then R G log HG Hw). reflexivity.
Qed.

(** A row has no display name when no name column is configured, when
    the configured name is empty or is not a column of the file, or when
    the row is short of that cell; an empty cell gives an empty name.  In
    all these cases the route identifier falls back to the fixed stem
    [salt-lake-city], so such rows differ in the counter only. *)
Theorem unnamed_rows_get_fallback_id (fmt : csv_format_t) (names rec : list string)
    (config : config_t) (counter : Z) :
  segment_name_column fmt = None \/
  (exists col,
      segment_name_column fmt = Some col /\
      (col = EmptyString \/ col ∉ names \/
       Csv.row_dict names rec !! col = Some None \/
       Csv.row_dict names rec !! col = Some (Some EmptyString))) ->
  selected_route_id config (display_name_of fmt (Csv.row_dict names rec)) counter
  = default EmptyString (route_name_prefix config)
    +:+ "salt-lake-city-" +:+ str_of_Z counter.
Proof.
  intros [Hs | (col & Hs & Hcol)]; unfold display_name_of; rewrite Hs;
    [reflexivity|].
  destruct Hcol as [-> | [Hnot | [Hcell | Hcell]]].
  - reflexivity.
  - rewrite (row_dict_not_in_header _ _ _ Hnot). now destruct (is_empty col).
  - rewrite Hcell. now destruct (is_empty col).
  - rewrite Hcell. now destruct (is_empty col).
Qed.

End Row_edges.

Section Row_edge_examples.
Import Text Py Routes Observe.

(** A record that ends after the origin cell: it is the only row, and
    the loop ends with no record and one line on the console. *)
Lemma short_row_is_unexpected_error_witness :
  let R := Sample.runtime None Sample.gcloud_ok Sample.server_created in
  let G := Sample.globals_with_log "route_creator_log.txt" in
  let fmt := mk_csv_format (Some "name") (Some Sample.combined_cols) None in
  (exists msg,
      parse_row fmt true false
        (Csv.row_dict ["name"; "origin"; "dest"] ["C"; "(5.5,6.5)"])
        (Sample.fresh_world ∅)
      = (Raise (Exc TypeError msg), Sample.fresh_world ∅)) /\
  (parse_rows G fmt true false ["name"; "origin"; "dest"] 2
     [["C"; "(5.5,6.5)"]] [] (Sample.fresh_world ∅)).1 = Ret [] /\
  length (console
            (parse_rows G fmt true false ["name"; "origin"; "dest"] 2
               [["C"; "(5.5,6.5)"]] [] (Sample.fresh_world ∅)).2) = 1%nat.
Proof.
  intros R0 G fmt.
  destruct (@short_row_is_unexpected_error R0 G "route_creator_log.txt" fmt false
              Sample.combined_cols
              "origin" "dest" (Some "(5.5,6.5)") None ["name"; "origin"; "dest"]
              ["C"; "(5.5,6.5)"] [] 2 [] (Sample.fresh_world ∅)
              eq_refl eq_refl eq_refl eq_refl eq_refl (or_intror eq_refl))
    as (msg & H & Hloop).
  split; [exists msg; exact H|].
  rewrite (Hloop eq_refl eq_refl). split; reflexivity.
Defined.

(** The configuration names the column [name]; the file has no such
    column. *)
Lemma unnamed_rows_get_fallback_id_witness :
  let fmt := mk_csv_format (Some "name") (Some Sample.combined_cols) None in
  selected_route_id (Sample.config_with "boston-" 100)
    (display_name_of fmt (Csv.row_dict ["origin"; "dest"] ["(1.5,2.5)"; "(3.5,4.5)"])) 3
  = "boston-salt-lake-city-3".
Proof.
  intros fmt.
  rewrite (unnamed_rows_get_fallback_id fmt ["origin"; "dest"]
             ["(1.5,2.5)"; "(3.5,4.5)"] (Sample.config_with "boston-" 100) 3).
  - reflexivity.
  - right. exists "name". split; [reflexivity|]. right. left.
    apply (bool_decide_eq_false_1 ("name" ∈ ["origin"; "dest"])).
    vm_compute. reflexivity.
Defined.

End Row_edge_examples.

Module CodecFacts.
Import Text Codec TextFacts.

(** One character written, then read. *)
Lemma utf_8_decode_encode_char (c : ascii) (s : string) :
  utf_8_decode (utf_8_encode (String c s))
  = String c <$> utf_8_decode (utf_8_encode s).
Proof. destruct c as [[] [] [] [] [] [] [] []]; reflexivity. Qed.

(** Encoding is undone by decoding. *)
Lemma utf_8_decode_encode (s : string) : utf_8_decode (utf_8_encode s) = Some s.
Proof.
  induction s as [|c s IH]; [reflexivity|].
  now rewrite utf_8_decode_encode_char, IH.
Qed.

(** Decoding goes through a concatenation of complete encodings. *)
Lemma utf_8_decode_app (b : string) (n : nat) :
  forall a t, (String.length a <= n)%nat ->
    utf_8_decode a = Some t ->
    utf_8_decode (a +:+ b) = String.append t <$> utf_8_decode b.
Proof.
  induction n as [|n IH]; intros a t Hlen.
  - destruct a; [|cbn in Hlen; lia]. intros [= <-]. cbn.
    now destruct (utf_8_decode b).
  - destruct a as [|c a]; [intros [= <-]; cbn; now destruct (utf_8_decode b)|].
    cbn [String.length] in Hlen. cbn [utf_8_decode String.append].
    change (String c a +:+ b) with (String c (a +:+ b)). cbn [utf_8_decode].
    destruct (between 0 127 c).
    + destruct (utf_8_decode a) as [ta|] eqn:Ea; [|discriminate].
      intros [= <-]. rewrite (IH a ta) by (auto; lia).
      now destruct (utf_8_decode b).
    + destruct a as [|c2 a]; [discriminate|].
      change (String c2 a +:+ b) with (String c2 (a +:+ b)).
      cbn [String.length] in Hlen. cbv beta iota.
      destruct (between 128 191 c2); [|discriminate].
      destruct (between 194 194 c); [|destruct (between 195 195 c); [|discriminate]];
        (destruct (utf_8_decode a) as [ta|] eqn:Ea; [|discriminate]);
        intros [= <-]; rewrite (IH a ta) by (auto; lia);
        destruct (utf_8_decode b); reflexivity.
Qed.

End CodecFacts.

Section Log_text.
Import Text Py Routes Observe LogFacts CodecFacts FsFacts.
Context `{R : Runtime}.

(** With [LOG_FILE] bound to a path that opens for writing: what
    [write_log] appends to the file, read back as UTF-8 under any
    spelling of its path, is the log entry, [[timestamp] message] and a
    line end.  A file that held UTF-8 text before holds that text followed
    by the entry afterwards; a file that did not exist holds the entry. *)
Theorem log_file_reads_back (G : gmap string gval) (log p message text : string)
    (w : world) :
  G !! "LOG_FILE" = Some (GStr log) ->
  writable log ->
  same_file p log ->
  Codec.utf_8_decode (default EmptyString (files w !! log)) = Some text ->
  exists bytes,
    files (write_log G message w).2 !! p = Some bytes /\
    Codec.utf_8_decode bytes = Some (text +:+ log_entry message w).
Proof.
  intros HG Hw Hp Hold. rewrite (write_log_bound G log message w HG Hw).
  cbn [snd logged set_files files]. rewrite (fs_lookup_insert_same _ _ _ _ Hp).
  eexists. split; [reflexivity|].
  rewrite (utf_8_decode_app _ _ _ text (le_n _) Hold).
  now rewrite utf_8_decode_encode.
Qed.

End Log_text.

Section Log_text_example.
Import Text Py Routes Observe.

(** The first line of a run, written to a file that is not there yet
    and read back under another spelling of its path. *)
Lemma log_file_reads_back_witness :
  let R := Sample.runtime None Sample.gcloud_ok Sample.server_created in
  let G := Sample.globals_with_log "run.log" in
  exists bytes,
    files (write_log G "Route Creator Script started." (Sample.fresh_world ∅)).2
      !! "./run.log" = Some bytes /\
    Codec.utf_8_decode bytes
    = Some ("[2025-01-01 00:00:00] Route Creator Script started." +:+ nl).
Proof.
  intros R0 G.
  assert (HG : G !! "LOG_FILE" = Some (GStr "run.log")) by (vm_compute; reflexivity).
  assert (Hold : Codec.utf_8_decode
                   (default EmptyString (files (@Sample.fresh_world R0 ∅) !! "run.log"))
                 = Some EmptyString) by (vm_compute; reflexivity).
  destruct (@log_file_reads_back R0 G "run.log" "./run.log"
              "Route Creator Script started." EmptyString (Sample.fresh_world ∅)
              HG eq_refl eq_refl Hold) as (bytes & Hf & Hd).
  exists bytes. split; [exact Hf | exact Hd].
Defined.

End Log_text_example.

(** ** A log file that does not open *)

Section Unwritable_log.
Import Text Py Routes Observe LogFacts MuteFacts.
Context `{R : Runtime}.

(** With [LOG_FILE] bound to a path that does not open for writing (an
    empty name, a directory, a missing parent directory, no permission),
    the script behaves as it does with the name unbound, with the
    exception of [open] in the place of [NameError]: every [write_log]
    echoes its line and raises what [open] raises; [main_route_creator]
    ends in its first statement; the handler of the [__main__] block gets
    as far as its own first [write_log], which raises again, so the script
    ends with that exception and exit status 1.  Two lines are echoed, no
    file changes, nothing is sent, [gcloud] is not run, and nothing is
    printed to the error stream by the script itself. *)
Theorem log_file_that_does_not_open (G : gmap string gval) (log : string)
    (c : exn_class) (msg : string) (input config_path : string) (w : world) :
  G !! "LOG_FILE" = Some (GStr log) ->
  open_for_writing log = Some (c, msg) ->
  (forall message w0,
      write_log G message w0 = (Raise (Exc c msg), echoed message w0)) /\
  main_route_creator G input config_path w
  = (Raise (Exc c msg), echoed "Route Creator Script started." w) /\
  script G input config_path w
  = (Raise (Exc c msg),
     echoed ("CRITICAL SCRIPT ERROR (" +:+ class_name c +:+ "): " +:+ msg)
       (echoed "Route Creator Script started." w)) /\
  exit_status (script G input config_path w).1 = 1 /\
  files (script G input config_path w).2 = files w /\
  errstream (script G input config_path w).2 = errstream w /\
  offline w (script G input config_path w).2.
Proof.
  intros HG Hopen.
  assert (He : log_target G = Raise (Exc c msg))
    by (unfold log_target; now rewrite HG, Hopen).
  pose proof (main_route_creator_mute G c msg He input config_path w) as Hmain.
  assert (Hs : script G input config_path w
               = (Raise (Exc c msg),
                  echoed ("CRITICAL SCRIPT ERROR (" +:+ class_name c +:+ "): " +:+ msg)
                    (echoed "Route Creator Script started." w))).
  { unfold script, try_except. rewrite Hmain. cbv beta iota.
    unfold global. rewrite HG.
    unfold mbind at 1, M_bind at 1, bind at 1. cbn [ret as_path].
    unfold mbind at 1, M_bind at 1, bind at 1. cbn [ret]. cbv zeta.
    unfold mbind at 1, M_bind at 1, bind at 1.
    now rewrite (write_log_mute G c msg He). }
  split; [intros message w0; apply (write_log_mute G c msg He)|].
  split; [exact Hmain|]. split; [exact Hs|].
  rewrite Hs. repeat split.
Qed.

End Unwritable_log.

Section Unwritable_log_example.
Import Text Py Routes Observe.

(** [LOG_FILE] is the empty string: [open('', 'a')] raises
    [FileNotFoundError]. *)
Lemma log_file_that_does_not_open_witness :
  let R := Sample.runtime (Some (Sample.config_with "boston-" 100)) Sample.gcloud_ok
             Sample.server_created in
  let G := Sample.globals_with_log "" in
  let w := Sample.fresh_world
             (<["config.yaml" := "google_project_id: demo-project"]>
                (<["segments.csv" := Sample.bridge_csv]> ∅)) in
  (script G "segments.csv" "config.yaml" w).1
  = Raise (Exc FileNotFoundError "[Errno 2] No such file or directory: ''") /\
  exit_status (script G "segments.csv" "config.yaml" w).1 = 1 /\
  files (script G "segments.csv" "config.yaml" w).2 = files w /\
  posted (script G "segments.csv" "config.yaml" w).2 = [].
Proof.
  intros R0 G w.
  destruct (@log_file_that_does_not_open R0 G "" FileNotFoundError
              "[Errno 2] No such file or directory: ''" "segments.csv" "config.yaml"
              w eq_refl eq_refl)
    as (_ & _ & Hs & He & Hf & _ & [Hp _]).
  split; [now rewrite Hs|]. split; [exact He|]. split; [exact Hf | exact Hp].
Defined.

End Unwritable_log_example.
